(** * Compliance engine: deadlines, notices, severity pass and scoring

    A shallow embedding of the compliance services of the backend
    ([app/services/compliance/*.py], [app/tasks/compliance_crons.py] and the
    notice endpoints of [app/routers/compliance.py]) together with the
    properties the specification states about them.

    Conventions.
    - A [date] is its proleptic Gregorian ordinal ([date.toordinal()]), an
      integer; [timedelta(days=1)] is [+ 1].  Python's [date.max] is not
      modelled: ordinals are unbounded.
    - A naive [datetime] is the number of microseconds since midnight of
      ordinal 0, so [<=] on datetimes is [<=] on integers.
    - A table is the list of its rows; a row object mutated through the ORM
      is the row of the table rewritten in place.
    - [datetime.utcnow()], freshly generated ids and the outcome of the e-mail
      transport are arguments of the operation that reads them. *)

From Stdlib Require Import ZArith Lia List Bool Ascii String Permutation Sorted.
From stdpp Require Import base gmap strings pretty.
Import ListNotations.

Local Open Scope string_scope.
Local Open Scope Z_scope.

(** ** Enumerations *)

(** Modelled from the spec: [app/models/enums.py] is not part of the sources.
    The members are the ones the services name, which are the ones the
    specification lists in its data model and state machines. *)
Inductive DeadlineType := CALENDAR_DAYS | BUSINESS_DAYS | HOURS.

Inductive DeadlineStatus :=
  | ACTIVE | NOTICE_DRAFTED | NOTICE_SENT | COMPLETED | WAIVED | EXPIRED.

Inductive Severity :=
  | SevLOW | SevINFO | SevWARNING | SevCRITICAL | SevEXPIRED.

Inductive TriggerEventType :=
  | RFI | CHANGE_ORDER | MANUAL | DOCUMENT_RECEIVED | OTHER.

Inductive ComplianceNoticeStatus :=
  | DRAFT | PENDING_REVIEW | SENT | ACKNOWLEDGED.

Inductive ContractClauseKind :=
  | CLAIMS_PROCEDURE | CHANGE_ORDER_PROCESS | NOTICE_REQUIREMENTS | OTHER_KIND.

Inductive UserRole :=
  | ADMIN | PROJECT_MANAGER | EXECUTIVE | OTHER_ROLE.

Inductive NotificationSeverity := NotifCRITICAL | NotifWARNING.

#[global] Instance DeadlineType_eq_dec : EqDecision DeadlineType.
Proof. solve_decision. Defined.
#[global] Instance DeadlineStatus_eq_dec : EqDecision DeadlineStatus.
Proof. solve_decision. Defined.
#[global] Instance Severity_eq_dec : EqDecision Severity.
Proof. solve_decision. Defined.
#[global] Instance TriggerEventType_eq_dec : EqDecision TriggerEventType.
Proof. solve_decision. Defined.
#[global] Instance ComplianceNoticeStatus_eq_dec : EqDecision ComplianceNoticeStatus.
Proof. solve_decision. Defined.
#[global] Instance ContractClauseKind_eq_dec : EqDecision ContractClauseKind.
Proof. solve_decision. Defined.
#[global] Instance UserRole_eq_dec : EqDecision UserRole.
Proof. solve_decision. Defined.

(** [x in (a, b, ...)] and [column.in_([...])]. *)
Definition member {A} `{EqDecision A} (x : A) (l : list A) : bool :=
  existsb (fun y => bool_decide (x = y)) l.

Definition Severity_value (s : Severity) : string :=
  match s with
  | SevLOW => "LOW" | SevINFO => "INFO" | SevWARNING => "WARNING"
  | SevCRITICAL => "CRITICAL" | SevEXPIRED => "EXPIRED"
  end.

Definition DeadlineStatus_value (s : DeadlineStatus) : string :=
  match s with
  | ACTIVE => "ACTIVE" | NOTICE_DRAFTED => "NOTICE_DRAFTED"
  | NOTICE_SENT => "NOTICE_SENT" | COMPLETED => "COMPLETED"
  | WAIVED => "WAIVED" | EXPIRED => "EXPIRED"
  end.

(** ** Dates and datetimes *)

Definition date := Z.
Definition datetime := Z.

Definition MICROS_PER_SECOND : Z := 1000000.
Definition MICROS_PER_DAY : Z := 86400 * MICROS_PER_SECOND.
Definition MICROS_PER_HOUR : Z := 3600 * MICROS_PER_SECOND.

(** [dt.date()] *)
Definition datetime_date (dt : datetime) : date := dt / MICROS_PER_DAY.

(** [datetime.combine(d, datetime.max.time().replace(microsecond=0))]:
    23:59:59 of day [d]. *)
Definition end_of_day (d : date) : datetime :=
  d * MICROS_PER_DAY + 86399 * MICROS_PER_SECOND.

(** [d.weekday()]: Monday is 0, Sunday is 6. *)
Definition weekday (d : date) : Z := (d + 6) mod 7.

(** The calendar of CPython's [datetime]: leap years, [_ymd2ord] behind
    [date(y, m, d)] and the year part of [_ord2ymd] behind [d.year]. *)
Definition is_leap (y : Z) : bool :=
  (y mod 4 =? 0) && (negb (y mod 100 =? 0) || (y mod 400 =? 0)).

Definition days_before_year (y : Z) : Z :=
  let y := y - 1 in y * 365 + y / 4 - y / 100 + y / 400.

Definition days_before_month (y m : Z) : Z :=
  nth (Z.to_nat m) [0; 0; 31; 59; 90; 120; 151; 181; 212; 243; 273; 304; 334] 0
  + (if (2 <? m) && is_leap y then 1 else 0).

Definition mkdate (y m d : Z) : date :=
  days_before_year y + days_before_month y m + d.

Definition date_year (d : date) : Z :=
  let n := d - 1 in
  let n400 := n / 146097 in
  let n := n mod 146097 in
  let n100 := n / 36524 in
  let n := n mod 36524 in
  let n4 := n / 1461 in
  let n := n mod 1461 in
  let n1 := n / 365 in
  let year := n400 * 400 + 1 + n100 * 100 + n4 * 4 + n1 in
  if (n1 =? 4) || (n100 =? 4) then year - 1 else year.

(** ** holidays.py *)

Definition FEDERAL_HOLIDAYS (year : Z) : list date :=
  if year =? 2025 then
    [ mkdate 2025 1 1; mkdate 2025 1 20; mkdate 2025 2 17; mkdate 2025 5 26;
      mkdate 2025 6 19; mkdate 2025 7 4; mkdate 2025 9 1; mkdate 2025 10 13;
      mkdate 2025 11 11; mkdate 2025 11 27; mkdate 2025 12 25 ]
  else if year =? 2026 then
    [ mkdate 2026 1 1; mkdate 2026 1 19; mkdate 2026 2 16; mkdate 2026 5 25;
      mkdate 2026 6 19; mkdate 2026 7 3; mkdate 2026 9 7; mkdate 2026 10 12;
      mkdate 2026 11 11; mkdate 2026 11 26; mkdate 2026 12 25 ]
  else if year =? 2027 then
    [ mkdate 2027 1 1; mkdate 2027 1 18; mkdate 2027 2 15; mkdate 2027 5 31;
      mkdate 2027 6 18; mkdate 2027 7 5; mkdate 2027 9 6; mkdate 2027 10 11;
      mkdate 2027 11 11; mkdate 2027 11 25; mkdate 2027 12 24 ]
  else [].

Definition get_federal_holidays (year : Z) : list date := FEDERAL_HOLIDAYS year.

Record ProjectHoliday := {
  ph_project_id : string;
  ph_date : date;
}.

(** [get_project_holidays(db, project_id, start_date, None)] *)
Definition get_project_holidays (tbl : list ProjectHoliday) (project_id : string)
    (start_date : option date) : list date :=
  map ph_date
    (List.filter
       (fun h => bool_decide (ph_project_id h = project_id)
                 && match start_date with
                    | Some s => s <=? ph_date h
                    | None => true
                    end)
       tbl).

(** [get_all_holidays(db, project_id, start_date=d)]: [end_date] is never
    passed by the callers, so the federal years are [start_year] and
    [start_year + 1]. *)
Definition get_all_holidays (tbl : list ProjectHoliday) (project_id : string)
    (start_date : date) : gset date :=
  let start_year := date_year start_date in
  let end_year := start_year + 1 in
  list_to_set (get_federal_holidays start_year)
  ∪ list_to_set (get_federal_holidays end_year)
  ∪ list_to_set (get_project_holidays tbl project_id (Some start_date)).

Definition is_business_day (d : date) (holidays : gset date) : bool :=
  (weekday d <? 5) && bool_decide (d ∉ holidays).

(** The loop of [add_business_days], one iteration per unit of fuel.  [None]
    is "the fuel ran out before [remaining] reached 0". *)
Fixpoint add_business_days_loop (fuel : nat) (current : date) (remaining : Z)
    (holidays : gset date) : option date :=
  if 0 <? remaining then
    match fuel with
    | O => None
    | S fuel' =>
        let current := current + 1 in
        if is_business_day current holidays
        then add_business_days_loop fuel' current (remaining - 1) holidays
        else add_business_days_loop fuel' current remaining holidays
    end
  else Some current.

(** A date no earlier than [start] and than every holiday: after it every
    weekday is a business day. *)
Definition last_blocked_day (start : date) (holidays : gset date) : date :=
  set_fold Z.max start holidays.

(** Enough iterations for the loop to finish (lemma
    [add_business_days_loop_enough]). *)
Definition add_business_days_fuel (start : date) (days : Z)
    (holidays : gset date) : nat :=
  (Z.to_nat (last_blocked_day start holidays - start) + 7 * Z.to_nat days)%nat.

Definition add_business_days (start : date) (days : Z) (holidays : gset date)
    : date :=
  match add_business_days_loop (add_business_days_fuel start days holidays)
          start days holidays with
  | Some d => d
  | None => start
  end.

Definition add_calendar_days (start : date) (days : Z) : date := start + days.

Definition add_hours (start : datetime) (hours : Z) : datetime :=
  start + hours * MICROS_PER_HOUR.

(** The loop of [count_business_days_between]; it runs [end_ - start] times
    when [start < end_] and not at all otherwise. *)
Fixpoint count_business_days_loop (fuel : nat) (current end_ : date) (count : Z)
    (holidays : gset date) : Z :=
  match fuel with
  | O => count
  | S fuel' =>
      if current <? end_ then
        let current := current + 1 in
        count_business_days_loop fuel' current end_
          (if is_business_day current holidays then count + 1 else count)
          holidays
      else count
  end.

Definition count_business_days_between (start end_ : date)
    (holidays : gset date) : Z :=
  count_business_days_loop (Z.to_nat (end_ - start)) start end_ 0 holidays.

(** ** severity.py *)

Definition CRITICAL_THRESHOLD_DAYS : Z := 3.
Definition WARNING_THRESHOLD_DAYS : Z := 7.
Definition INFO_THRESHOLD_DAYS : Z := 14.

(** [classify_severity(deadline, now, status)].  [now] is always given here:
    a caller that passes none reads the clock.  [days_remaining] is the float
    [remaining.total_seconds() / 86400]; [days_remaining <= n] is written on
    the exact duration, [remaining <= n days]. *)
Definition classify_severity (deadline now : datetime)
    (status : option DeadlineStatus) : Severity :=
  if match status with
     | Some s => member s [COMPLETED; WAIVED; NOTICE_SENT]
     | None => false
     end
  then SevLOW
  else if deadline <=? now then SevEXPIRED
  else
    let remaining := deadline - now in
    if remaining <=? CRITICAL_THRESHOLD_DAYS * MICROS_PER_DAY then SevCRITICAL
    else if remaining <=? WARNING_THRESHOLD_DAYS * MICROS_PER_DAY then SevWARNING
    else if remaining <=? INFO_THRESHOLD_DAYS * MICROS_PER_DAY then SevINFO
    else SevLOW.

Definition severity_order (s : Severity) : Z :=
  match s with
  | SevLOW => 0 | SevINFO => 1 | SevWARNING => 2 | SevCRITICAL => 3
  | SevEXPIRED => 4
  end.

Definition severity_escalated (old new : Severity) : bool :=
  severity_order old <? severity_order new.

(** ** calculator.py *)

Record Calculation := {
  calculatedDeadline : datetime;
  severity : Severity;
  cureDeadline : option datetime;
}.

(** Python truthiness of an optional integer: [None] and [0] are false. *)
Definition truthy (n : option Z) : bool :=
  match n with
  | Some v => negb (v =? 0)
  | None => false
  end.

Definition calculate_deadline (holiday_table : list ProjectHoliday)
    (now : datetime) (project_id : string) (trigger_date : datetime)
    (deadline_days : Z) (deadline_type : DeadlineType)
    (cure_period_days : option Z) (cure_period_type : option DeadlineType)
    : Calculation :=
  let trigger_as_date := datetime_date trigger_date in
  let holidays := get_all_holidays holiday_table project_id trigger_as_date in
  let calculated_deadline :=
    match deadline_type with
    | BUSINESS_DAYS =>
        end_of_day (add_business_days trigger_as_date deadline_days holidays)
    | HOURS => add_hours trigger_date deadline_days
    | CALENDAR_DAYS =>
        end_of_day (add_calendar_days trigger_as_date deadline_days)
    end in
  let cure_deadline :=
    match cure_period_days, cure_period_type with
    | Some cure_days, Some cure_type =>
        if truthy cure_period_days then
          match cure_type with
          | BUSINESS_DAYS =>
              Some (end_of_day (add_business_days
                                  (datetime_date calculated_deadline)
                                  cure_days holidays))
          | HOURS => Some (add_hours calculated_deadline cure_days)
          | CALENDAR_DAYS =>
              Some (end_of_day (add_calendar_days
                                  (datetime_date calculated_deadline)
                                  cure_days))
          end
        else None
    | _, _ => None
    end in
  {| calculatedDeadline := calculated_deadline;
     severity := classify_severity calculated_deadline now None;
     cureDeadline := cure_deadline |}.

(** ** The tables (models/compliance.py, models/notification.py, models/user.py)

    Each record keeps the columns the services read or write.  The
    database-managed [createdAt]/[updatedAt] stamps are left out. *)

Module ContractClause.
Record t := mk {
  id : string;
  project_id : string;
  kind : ContractClauseKind;
  title : string;
  section_ref : option string;
  deadline_days : option Z;
  deadline_type : option DeadlineType;
  cure_period_days : option Z;
  cure_period_type : option DeadlineType;
}.
End ContractClause.

Module ComplianceDeadline.
Record t := mk {
  id : string;
  project_id : string;
  clause_id : string;
  trigger_event_type : TriggerEventType;
  trigger_event_id : option string;
  trigger_description : string;
  triggered_at : datetime;
  triggered_by : option string;
  calculated_deadline : datetime;
  status : DeadlineStatus;
  severity : Severity;
  notice_id : option string;
  notice_created_at : option datetime;
  waived_at : option datetime;
  waived_by : option string;
  waiver_reason : option string;
}.

Definition set_status (v : DeadlineStatus) (d : t) : t :=
  mk (id d) (project_id d) (clause_id d) (trigger_event_type d)
     (trigger_event_id d) (trigger_description d) (triggered_at d)
     (triggered_by d) (calculated_deadline d) v (severity d) (notice_id d)
     (notice_created_at d) (waived_at d) (waived_by d) (waiver_reason d).

Definition set_severity (v : Severity) (d : t) : t :=
  mk (id d) (project_id d) (clause_id d) (trigger_event_type d)
     (trigger_event_id d) (trigger_description d) (triggered_at d)
     (triggered_by d) (calculated_deadline d) (status d) v (notice_id d)
     (notice_created_at d) (waived_at d) (waived_by d) (waiver_reason d).

Definition set_notice (nid : option string) (at_ : option datetime) (d : t)
    : t :=
  mk (id d) (project_id d) (clause_id d) (trigger_event_type d)
     (trigger_event_id d) (trigger_description d) (triggered_at d)
     (triggered_by d) (calculated_deadline d) (status d) (severity d) nid
     at_ (waived_at d) (waived_by d) (waiver_reason d).

Definition set_waiver (at_ : option datetime) (by_ reason : option string)
    (d : t) : t :=
  mk (id d) (project_id d) (clause_id d) (trigger_event_type d)
     (trigger_event_id d) (trigger_description d) (triggered_at d)
     (triggered_by d) (calculated_deadline d) (status d) (severity d)
     (notice_id d) (notice_created_at d) at_ by_ reason.
End ComplianceDeadline.

(** One entry of the [deliveryConfirmation] JSON object. *)
Record DeliveryEntry := {
  de_status : string;
  de_deliveredAt : datetime;
  de_trackingNumber : option string;
  de_carrier : option string;
  de_signedBy : option string;
  de_receivedBy : option string;
}.

Module ComplianceNotice.
Record t := mk {
  id : string;
  project_id : string;
  type : string;
  status : ComplianceNoticeStatus;
  title : string;
  content : string;
  recipient_name : option string;
  recipient_email : option string;
  due_date : option datetime;
  sent_at : option datetime;
  acknowledged_at : option datetime;
  clause_id : option string;
  delivery_methods : list string;
  delivery_confirmation : option (list (string * DeliveryEntry));
  delivered_at : option datetime;
  on_time_status : option bool;
  generated_by_ai : bool;
  ai_model : option string;
  created_by_id : string;
}.

Definition set_status (v : ComplianceNoticeStatus) (n : t) : t :=
  mk (id n) (project_id n) (type n) v (title n) (content n)
     (recipient_name n) (recipient_email n) (due_date n) (sent_at n)
     (acknowledged_at n) (clause_id n) (delivery_methods n)
     (delivery_confirmation n) (delivered_at n) (on_time_status n)
     (generated_by_ai n) (ai_model n) (created_by_id n).

Definition set_title (v : string) (n : t) : t :=
  mk (id n) (project_id n) (type n) (status n) v (content n)
     (recipient_name n) (recipient_email n) (due_date n) (sent_at n)
     (acknowledged_at n) (clause_id n) (delivery_methods n)
     (delivery_confirmation n) (delivered_at n) (on_time_status n)
     (generated_by_ai n) (ai_model n) (created_by_id n).

Definition set_content (v : string) (n : t) : t :=
  mk (id n) (project_id n) (type n) (status n) (title n) v
     (recipient_name n) (recipient_email n) (due_date n) (sent_at n)
     (acknowledged_at n) (clause_id n) (delivery_methods n)
     (delivery_confirmation n) (delivered_at n) (on_time_status n)
     (generated_by_ai n) (ai_model n) (created_by_id n).

Definition set_recipient_name (v : option string) (n : t) : t :=
  mk (id n) (project_id n) (type n) (status n) (title n) (content n)
     v (recipient_email n) (due_date n) (sent_at n)
     (acknowledged_at n) (clause_id n) (delivery_methods n)
     (delivery_confirmation n) (delivered_at n) (on_time_status n)
     (generated_by_ai n) (ai_model n) (created_by_id n).

Definition set_recipient_email (v : option string) (n : t) : t :=
  mk (id n) (project_id n) (type n) (status n) (title n) (content n)
     (recipient_name n) v (due_date n) (sent_at n)
     (acknowledged_at n) (clause_id n) (delivery_methods n)
     (delivery_confirmation n) (delivered_at n) (on_time_status n)
     (generated_by_ai n) (ai_model n) (created_by_id n).

Definition set_due_date (v : option datetime) (n : t) : t :=
  mk (id n) (project_id n) (type n) (status n) (title n) (content n)
     (recipient_name n) (recipient_email n) v (sent_at n)
     (acknowledged_at n) (clause_id n) (delivery_methods n)
     (delivery_confirmation n) (delivered_at n) (on_time_status n)
     (generated_by_ai n) (ai_model n) (created_by_id n).

Definition set_sent_at (v : option datetime) (n : t) : t :=
  mk (id n) (project_id n) (type n) (status n) (title n) (content n)
     (recipient_name n) (recipient_email n) (due_date n) v
     (acknowledged_at n) (clause_id n) (delivery_methods n)
     (delivery_confirmation n) (delivered_at n) (on_time_status n)
     (generated_by_ai n) (ai_model n) (created_by_id n).

Definition set_acknowledged_at (v : option datetime) (n : t) : t :=
  mk (id n) (project_id n) (type n) (status n) (title n) (content n)
     (recipient_name n) (recipient_email n) (due_date n) (sent_at n)
     v (clause_id n) (delivery_methods n)
     (delivery_confirmation n) (delivered_at n) (on_time_status n)
     (generated_by_ai n) (ai_model n) (created_by_id n).

Definition set_delivery_methods (v : list string) (n : t) : t :=
  mk (id n) (project_id n) (type n) (status n) (title n) (content n)
     (recipient_name n) (recipient_email n) (due_date n) (sent_at n)
     (acknowledged_at n) (clause_id n) v
     (delivery_confirmation n) (delivered_at n) (on_time_status n)
     (generated_by_ai n) (ai_model n) (created_by_id n).

Definition set_delivery_confirmation
    (v : option (list (string * DeliveryEntry))) (n : t) : t :=
  mk (id n) (project_id n) (type n) (status n) (title n) (content n)
     (recipient_name n) (recipient_email n) (due_date n) (sent_at n)
     (acknowledged_at n) (clause_id n) (delivery_methods n)
     v (delivered_at n) (on_time_status n)
     (generated_by_ai n) (ai_model n) (created_by_id n).

Definition set_delivered_at (v : option datetime) (n : t) : t :=
  mk (id n) (project_id n) (type n) (status n) (title n) (content n)
     (recipient_name n) (recipient_email n) (due_date n) (sent_at n)
     (acknowledged_at n) (clause_id n) (delivery_methods n)
     (delivery_confirmation n) v (on_time_status n)
     (generated_by_ai n) (ai_model n) (created_by_id n).

Definition set_on_time_status (v : option bool) (n : t) : t :=
  mk (id n) (project_id n) (type n) (status n) (title n) (content n)
     (recipient_name n) (recipient_email n) (due_date n) (sent_at n)
     (acknowledged_at n) (clause_id n) (delivery_methods n)
     (delivery_confirmation n) (delivered_at n) v
     (generated_by_ai n) (ai_model n) (created_by_id n).

Definition set_ai (flag : bool) (model : option string) (n : t) : t :=
  mk (id n) (project_id n) (type n) (status n) (title n) (content n)
     (recipient_name n) (recipient_email n) (due_date n) (sent_at n)
     (acknowledged_at n) (clause_id n) (delivery_methods n)
     (delivery_confirmation n) (delivered_at n) (on_time_status n)
     flag model (created_by_id n).
End ComplianceNotice.

(** A value of the [details] JSON object of an audit entry. *)
Inductive Detail :=
  | DStr (s : string)
  | DOptStr (s : option string)
  | DBool (b : bool)
  | DOptBool (b : option bool)
  | DTime (t : datetime).

Module ComplianceAuditLog.
Record t := mk {
  project_id : string;
  event_type : string;
  entity_type : string;
  entity_id : string;
  user_id : option string;
  actor_type : string;
  action : string;
  details : list (string * Detail);
}.
End ComplianceAuditLog.

Module User.
Record t := mk {
  id : string;
  role : UserRole;
  name : string;
  email : string;
}.
End User.

Module Notification.
Record t := mk {
  user_id : string;
  type : string;
  severity : NotificationSeverity;
  channel : string;
  title : string;
  message : string;
  project_id : option string;
  entity_id : option string;
  entity_type : option string;
}.
End Notification.

(** The percentage [score] (a float rounded by Python's [round]) and the
    [details] blob that repeats the counters are left out. *)
Module ComplianceScore.
Record t := mk {
  project_id : string;
  current_streak : Z;
  best_streak : Z;
  streak_broken_at : option datetime;
  protected_claims_value : Z;
  at_risk_value : Z;
  on_time_count : Z;
  total_count : Z;
  missed_count : Z;
  at_risk_count : Z;
  active_count : Z;
  upcoming_count : Z;
  last_calculated_at : datetime;
  calculated_at : datetime;
}.
End ComplianceScore.

(** The database as the services see it.  [next_cuid] counts the ids handed
    out so far by [generate_cuid]. *)
Record DB := mkDB {
  clauses : list ContractClause.t;
  deadlines : list ComplianceDeadline.t;
  notices : list ComplianceNotice.t;
  audit_log : list ComplianceAuditLog.t;
  notifications : list Notification.t;
  users : list User.t;
  holidays : list ProjectHoliday;
  scores : list ComplianceScore.t;
  next_cuid : nat;
}.

Definition with_deadlines (v : list ComplianceDeadline.t) (db : DB) : DB :=
  mkDB (clauses db) v (notices db) (audit_log db) (notifications db)
       (users db) (holidays db) (scores db) (next_cuid db).

Definition with_notices (v : list ComplianceNotice.t) (db : DB) : DB :=
  mkDB (clauses db) (deadlines db) v (audit_log db) (notifications db)
       (users db) (holidays db) (scores db) (next_cuid db).

Definition with_audit_log (v : list ComplianceAuditLog.t) (db : DB) : DB :=
  mkDB (clauses db) (deadlines db) (notices db) v (notifications db)
       (users db) (holidays db) (scores db) (next_cuid db).

Definition with_notifications (v : list Notification.t) (db : DB) : DB :=
  mkDB (clauses db) (deadlines db) (notices db) (audit_log db) v
       (users db) (holidays db) (scores db) (next_cuid db).

Definition with_scores (v : list ComplianceScore.t) (db : DB) : DB :=
  mkDB (clauses db) (deadlines db) (notices db) (audit_log db)
       (notifications db) (users db) (holidays db) v
       (next_cuid db).

Definition with_next_cuid (v : nat) (db : DB) : DB :=
  mkDB (clauses db) (deadlines db) (notices db) (audit_log db)
       (notifications db) (users db) (holidays db) (scores db)
       v.

(** [db.add(row)] followed by a flush: the row is appended to its table. *)
Definition add_deadline (d : ComplianceDeadline.t) (db : DB) : DB :=
  with_deadlines (deadlines db ++ [d]) db.
Definition add_notice (n : ComplianceNotice.t) (db : DB) : DB :=
  with_notices (notices db ++ [n]) db.
Definition add_audit (a : ComplianceAuditLog.t) (db : DB) : DB :=
  with_audit_log (audit_log db ++ [a]) db.
Definition add_notification (n : Notification.t) (db : DB) : DB :=
  with_notifications (notifications db ++ [n]) db.

(** Rows mutated through the ORM: every row the query selected is rewritten. *)
Definition update_where {A} (p : A -> bool) (f : A -> A) (rows : list A)
    : list A :=
  map (fun r => if p r then f r else r) rows.

(** ** Exceptions *)

Inductive exn :=
  | ValueError (msg : string)
  | MultipleResultsFound
  | HTTPException (status_code : Z) (detail : string).

Inductive result (A : Type) :=
  | Ok (a : A)
  | Raise (e : exn).
Arguments Ok {A} a.
Arguments Raise {A} e.

Definition bind {A B} (r : result A) (k : A -> result B) : result B :=
  match r with
  | Ok a => k a
  | Raise e => Raise e
  end.

Notation "'do' x <- r ; k" := (bind r (fun x => k))
  (at level 10, x name, r at level 100, k at level 200,
   format "'[v' 'do'  x  <-  r ; '/' k ']'").

(** [Result.scalar_one_or_none()] *)
Definition scalar_one_or_none {A} (rows : list A) : result (option A) :=
  match rows with
  | [] => Ok None
  | [r] => Ok (Some r)
  | _ :: _ :: _ => Raise MultipleResultsFound
  end.

(** The database a request leaves behind: [get_db] commits when the handler
    returns and rolls back when it raises. *)
Definition committed {A} (db : DB) (r : result (DB * A)) : DB :=
  match r with
  | Ok (db', _) => db'
  | Raise _ => db
  end.

(** ** deadlines.py *)

Section Services.

(** [generate_cuid()]: the [n]-th id handed out.  Nothing is assumed about
    the sequence. *)
Variable generate_cuid : nat -> string.

Definition fresh_cuid (db : DB) : string * DB :=
  (generate_cuid (next_cuid db), with_next_cuid (S (next_cuid db)) db).

Definition actor_of (user_id : option string) : string :=
  match user_id with
  | Some _ => "USER"
  | None => "SYSTEM"
  end.

Definition TriggerEventType_value (t : TriggerEventType) : string :=
  match t with
  | RFI => "RFI" | CHANGE_ORDER => "CHANGE_ORDER" | MANUAL => "MANUAL"
  | DOCUMENT_RECEIVED => "DOCUMENT_RECEIVED" | OTHER => "OTHER"
  end.

Definition clause_by_id_and_project (clause_id project_id : string)
    (c : ContractClause.t) : bool :=
  bool_decide (ContractClause.id c = clause_id)
  && bool_decide (ContractClause.project_id c = project_id).

(** [create_deadline].  [not clause.deadline_days] holds for [None] and for
    [0]; [not clause.deadline_type] for [None]. *)
Definition create_deadline (now : datetime) (db : DB) (project_id clause_id : string)
    (trigger_event_type : TriggerEventType) (trigger_description : string)
    (triggered_at : datetime) (trigger_event_id triggered_by : option string)
    : result (DB * option ComplianceDeadline.t) :=
  do clause <-
    scalar_one_or_none
      (List.filter (clause_by_id_and_project clause_id project_id)
         (clauses db));
  match clause with
  | None => Ok (db, None)
  | Some clause =>
      match ContractClause.deadline_days clause,
            ContractClause.deadline_type clause with
      | Some deadline_days, Some deadline_type =>
          if negb (truthy (Some deadline_days)) then Ok (db, None)
          else
            let calc :=
              calculate_deadline (holidays db) now project_id triggered_at
                deadline_days deadline_type
                (ContractClause.cure_period_days clause)
                (ContractClause.cure_period_type clause) in
            let '(new_id, db) := fresh_cuid db in
            let deadline :=
              ComplianceDeadline.mk new_id project_id clause_id
                trigger_event_type trigger_event_id trigger_description
                triggered_at triggered_by (calculatedDeadline calc) ACTIVE
                (severity calc) None None None None None in
            let db := add_deadline deadline db in
            let audit :=
              ComplianceAuditLog.mk project_id "DEADLINE_CREATED"
                "ComplianceDeadline" (ComplianceDeadline.id deadline)
                triggered_by "SYSTEM" "create_deadline"
                [ ("clauseId", DStr clause_id);
                  ("clauseTitle", DStr (ContractClause.title clause));
                  ("triggerType",
                   DStr (TriggerEventType_value trigger_event_type));
                  ("triggerDescription", DStr trigger_description);
                  ("calculatedDeadline", DTime (calculatedDeadline calc));
                  ("severity", DStr (Severity_value (severity calc))) ] in
            Ok (add_audit audit db, Some deadline)
      | _, _ => Ok (db, None)
      end
  end.

Definition by_id_and_project (deadline_id project_id : string)
    (d : ComplianceDeadline.t) : bool :=
  bool_decide (ComplianceDeadline.id d = deadline_id)
  && bool_decide (ComplianceDeadline.project_id d = project_id).

Definition get_deadline_by_id (db : DB) (deadline_id project_id : string)
    : result (option ComplianceDeadline.t) :=
  scalar_one_or_none
    (List.filter (by_id_and_project deadline_id project_id) (deadlines db)).

(** [if x:] on an optional string: [None] and the empty string are false. *)
Definition nonempty (s : option string) : bool :=
  match s with
  | Some v => negb (bool_decide (v = ""))
  | None => false
  end.

Definition update_deadline_status (now : datetime) (db : DB)
    (deadline_id project_id : string) (new_status : DeadlineStatus)
    (user_id notice_id : option string)
    : result (DB * option ComplianceDeadline.t) :=
  do found <- get_deadline_by_id db deadline_id project_id;
  match found with
  | None => Ok (db, None)
  | Some deadline =>
      let old_status := ComplianceDeadline.status deadline in
      let change d :=
        let d := ComplianceDeadline.set_status new_status d in
        if bool_decide (new_status = NOTICE_DRAFTED) && nonempty notice_id
        then ComplianceDeadline.set_notice notice_id (Some now) d
        else d in
      let db :=
        with_deadlines
          (update_where (by_id_and_project deadline_id project_id) change
             (deadlines db)) db in
      let audit :=
        ComplianceAuditLog.mk project_id "DEADLINE_STATUS_CHANGE"
          "ComplianceDeadline" deadline_id user_id
          (if nonempty user_id then "USER" else "SYSTEM") "update_status"
          [ ("oldStatus", DStr (DeadlineStatus_value old_status));
            ("newStatus", DStr (DeadlineStatus_value new_status));
            ("noticeId", DOptStr notice_id) ] in
      Ok (add_audit audit db, Some (change deadline))
  end.

Definition waive_deadline (now : datetime) (db : DB)
    (deadline_id project_id user_id reason : string)
    : result (DB * option ComplianceDeadline.t) :=
  do found <- get_deadline_by_id db deadline_id project_id;
  match found with
  | None => Ok (db, None)
  | Some deadline =>
      let change d :=
        ComplianceDeadline.set_severity SevLOW
          (ComplianceDeadline.set_waiver (Some now) (Some user_id)
             (Some reason)
             (ComplianceDeadline.set_status WAIVED d)) in
      let db :=
        with_deadlines
          (update_where (by_id_and_project deadline_id project_id) change
             (deadlines db)) db in
      let audit :=
        ComplianceAuditLog.mk project_id "DEADLINE_WAIVED"
          "ComplianceDeadline" deadline_id (Some user_id) "USER"
          "waive_deadline" [ ("reason", DStr reason) ] in
      Ok (add_audit audit db, Some (change deadline))
  end.

(** The counters [recalculate_severities] returns. *)
Record Changes := {
  escalated : Z;
  changed : Z;
  expired : Z;
  total : Z;
}.

Definition is_active (d : ComplianceDeadline.t) : bool :=
  member (ComplianceDeadline.status d) [ACTIVE; NOTICE_DRAFTED].

(** The body of the loop of [recalculate_severities] on one selected row. *)
Definition recalculate_row (now : datetime) (d : ComplianceDeadline.t)
    : ComplianceDeadline.t :=
  let old_severity := ComplianceDeadline.severity d in
  let new_severity :=
    classify_severity (ComplianceDeadline.calculated_deadline d) now
      (Some (ComplianceDeadline.status d)) in
  if bool_decide (old_severity <> new_severity) then
    let d := ComplianceDeadline.set_severity new_severity d in
    if bool_decide (new_severity = SevEXPIRED)
    then ComplianceDeadline.set_status EXPIRED d
    else d
  else d.

Definition recalculate_count (now : datetime) (c : Changes)
    (d : ComplianceDeadline.t) : Changes :=
  let old_severity := ComplianceDeadline.severity d in
  let new_severity :=
    classify_severity (ComplianceDeadline.calculated_deadline d) now
      (Some (ComplianceDeadline.status d)) in
  if bool_decide (old_severity <> new_severity) then
    {| changed := changed c + 1;
       escalated :=
         if severity_escalated old_severity new_severity
         then escalated c + 1 else escalated c;
       expired :=
         if bool_decide (new_severity = SevEXPIRED)
         then expired c + 1 else expired c;
       total := total c |}
  else c.

Definition recalculate_severities (now : datetime) (db : DB)
    (project_id : string) : DB * Changes :=
  let selected d :=
    bool_decide (ComplianceDeadline.project_id d = project_id)
    && is_active d in
  let rows := List.filter selected (deadlines db) in
  let changes :=
    fold_left (recalculate_count now) rows
      {| escalated := 0; changed := 0; expired := 0;
         total := Z.of_nat (length rows) |} in
  (with_deadlines (update_where selected (recalculate_row now) (deadlines db)) db,
   changes).

(** ** notices.py *)

Definition editable (n : ComplianceNotice.t) : bool :=
  member (ComplianceNotice.status n) [DRAFT; PENDING_REVIEW].

Definition ComplianceNoticeStatus_value (s : ComplianceNoticeStatus) : string :=
  match s with
  | DRAFT => "DRAFT" | PENDING_REVIEW => "PENDING_REVIEW" | SENT => "SENT"
  | ACKNOWLEDGED => "ACKNOWLEDGED"
  end.

Definition notice_by_id_and_project (notice_id project_id : string)
    (n : ComplianceNotice.t) : bool :=
  bool_decide (ComplianceNotice.id n = notice_id)
  && bool_decide (ComplianceNotice.project_id n = project_id).

Definition get_notice_by_id (db : DB) (notice_id project_id : string)
    : result (option ComplianceNotice.t) :=
  scalar_one_or_none
    (List.filter (notice_by_id_and_project notice_id project_id) (notices db)).

(** [ComplianceDeadline.notice_id == nid, ComplianceDeadline.project_id == pid]:
    a NULL [noticeId] matches nothing. *)
Definition linked_to (notice_id project_id : string)
    (d : ComplianceDeadline.t) : bool :=
  bool_decide (ComplianceDeadline.notice_id d = Some notice_id)
  && bool_decide (ComplianceDeadline.project_id d = project_id).

Definition create_notice (now : datetime) (db : DB) (project_id : string)
    (notice_type title content user_id : string)
    (clause_id : option string) (due_date : option datetime)
    (recipient_name recipient_email deadline_id : option string)
    : result (DB * ComplianceNotice.t) :=
  let '(new_id, db) := fresh_cuid db in
  let notice :=
    ComplianceNotice.mk new_id project_id notice_type DRAFT title content
      recipient_name recipient_email due_date None None clause_id [] None
      None None false None user_id in
  let db := add_notice notice db in
  do db <-
    (match deadline_id with
     | Some did =>
         if nonempty deadline_id then
           do deadline <- get_deadline_by_id db did project_id;
           match deadline with
           | Some _ =>
               Ok (with_deadlines
                     (update_where (by_id_and_project did project_id)
                        (fun d =>
                           ComplianceDeadline.set_notice
                             (Some (ComplianceNotice.id notice)) (Some now)
                             (ComplianceDeadline.set_status NOTICE_DRAFTED d))
                        (deadlines db)) db)
           | None => Ok db
           end
         else Ok db
     | None => Ok db
     end);
  let audit :=
    ComplianceAuditLog.mk project_id "NOTICE_CREATED" "ComplianceNotice"
      (ComplianceNotice.id notice) (Some user_id) "USER" "create_notice"
      [ ("type", DStr notice_type); ("title", DStr title);
        ("deadlineId", DOptStr deadline_id) ] in
  Ok (add_audit audit db, notice).

Definition set_if_given {A} (v : option A) (set : A -> ComplianceNotice.t -> ComplianceNotice.t)
    (n : ComplianceNotice.t) : ComplianceNotice.t :=
  match v with
  | Some x => set x n
  | None => n
  end.

(** The assignments of [update_notice], one per argument that is given. *)
Definition apply_edits (title content recipient_name recipient_email : option string)
    (due_date : option datetime) (n : ComplianceNotice.t) : ComplianceNotice.t :=
  set_if_given due_date
    (fun v => ComplianceNotice.set_due_date (Some v))
    (set_if_given recipient_email
       (fun v => ComplianceNotice.set_recipient_email (Some v))
       (set_if_given recipient_name
          (fun v => ComplianceNotice.set_recipient_name (Some v))
          (set_if_given content ComplianceNotice.set_content
             (set_if_given title ComplianceNotice.set_title n)))).

Definition update_notice (db : DB) (notice_id project_id user_id : string)
    (title content recipient_name recipient_email : option string)
    (due_date : option datetime)
    : result (DB * option ComplianceNotice.t) :=
  do found <- get_notice_by_id db notice_id project_id;
  match found with
  | None => Ok (db, None)
  | Some notice =>
      if negb (editable notice) then
        Raise (ValueError
                 ("Cannot edit notice in "
                  +:+ ComplianceNoticeStatus_value (ComplianceNotice.status notice)
                  +:+ " status"))
      else
        let change :=
          apply_edits title content recipient_name recipient_email due_date in
        Ok (with_notices
              (update_where (notice_by_id_and_project notice_id project_id)
                 change (notices db)) db,
            Some (change notice))
  end.

(** [notice.due_date is None or now <= notice.due_date] *)
Definition on_time (due_date : option datetime) (now : datetime) : bool :=
  match due_date with
  | None => true
  | Some due => now <=? due
  end.

(** [send_notice].  [sent] is what [send_rfi_email] returned; the project and
    user rows it loads only feed the message and are not modelled. *)
Definition send_notice (now : datetime) (sent : bool) (db : DB)
    (notice_id project_id user_id : string)
    : result (DB * option ComplianceNotice.t) :=
  do found <- get_notice_by_id db notice_id project_id;
  match found with
  | None => Ok (db, None)
  | Some notice =>
      if negb (editable notice) then
        Raise (ValueError
                 ("Cannot send notice in "
                  +:+ ComplianceNoticeStatus_value (ComplianceNotice.status notice)
                  +:+ " status"))
      else if negb (nonempty (ComplianceNotice.recipient_email notice)) then
        Raise (ValueError "Notice has no recipient email")
      else
        let change n :=
          ComplianceNotice.set_on_time_status
            (Some (on_time (ComplianceNotice.due_date n) now))
            (ComplianceNotice.set_delivery_methods ["EMAIL"]
               (ComplianceNotice.set_delivered_at
                  (if sent then Some now else None)
                  (ComplianceNotice.set_sent_at (Some now)
                     (ComplianceNotice.set_status SENT n)))) in
        let notice := change notice in
        let db :=
          with_notices
            (update_where (notice_by_id_and_project notice_id project_id)
               change (notices db)) db in
        do db <-
          (if nonempty (ComplianceNotice.clause_id notice) then
             let linked :=
               linked_to (ComplianceNotice.id notice) project_id in
             do deadline <-
               scalar_one_or_none (List.filter linked (deadlines db));
             match deadline with
             | Some _ =>
                 Ok (with_deadlines
                       (update_where linked
                          (ComplianceDeadline.set_status NOTICE_SENT)
                          (deadlines db)) db)
             | None => Ok db
             end
           else Ok db);
        let audit :=
          ComplianceAuditLog.mk project_id "NOTICE_SENT" "ComplianceNotice"
            notice_id (Some user_id) "USER" "send_notice"
            [ ("recipientEmail",
               DOptStr (ComplianceNotice.recipient_email notice));
              ("emailSent", DBool sent);
              ("onTime", DOptBool (ComplianceNotice.on_time_status notice)) ] in
        Ok (add_audit audit db, Some notice)
  end.

Definition delete_notice (db : DB) (notice_id project_id user_id : string)
    : result (DB * bool) :=
  do found <- get_notice_by_id db notice_id project_id;
  match found with
  | None => Ok (db, false)
  | Some notice =>
      if negb (editable notice) then
        Raise (ValueError
                 ("Cannot delete notice in "
                  +:+ ComplianceNoticeStatus_value (ComplianceNotice.status notice)
                  +:+ " status"))
      else
        let linked := linked_to notice_id project_id in
        do deadline <- scalar_one_or_none (List.filter linked (deadlines db));
        let db :=
          match deadline with
          | Some _ =>
              with_deadlines
                (update_where linked
                   (fun d =>
                      ComplianceDeadline.set_status ACTIVE
                        (ComplianceDeadline.set_notice None None d))
                   (deadlines db)) db
          | None => db
          end in
        let audit :=
          ComplianceAuditLog.mk project_id "NOTICE_DELETED" "ComplianceNotice"
            notice_id (Some user_id) "USER" "delete_notice"
            [ ("title", DStr (ComplianceNotice.title notice));
              ("type", DStr (ComplianceNotice.type notice)) ] in
        let db := add_audit audit db in
        Ok (with_notices
              (List.filter
                 (fun n => negb (notice_by_id_and_project notice_id project_id n))
                 (notices db)) db,
            true)
  end.

(** [str.lower()] and [str.replace("_", "")] on ASCII text. *)
Definition ascii_lower (c : ascii) : ascii :=
  let n := nat_of_ascii c in
  if ((65 <=? n) && (n <=? 90))%nat then ascii_of_nat (n + 32) else c.

Fixpoint str_lower (s : string) : string :=
  match s with
  | EmptyString => EmptyString
  | String c s' => String (ascii_lower c) (str_lower s')
  end.

Fixpoint str_drop_underscores (s : string) : string :=
  match s with
  | EmptyString => EmptyString
  | String c s' =>
      if bool_decide (c = "_"%char) then str_drop_underscores s'
      else String c (str_drop_underscores s')
  end.

Definition method_key_map (method_lower : string) : string :=
  if bool_decide (method_lower = "email") then "email"
  else if bool_decide (method_lower = "certifiedmail") then "certifiedMail"
  else if bool_decide (method_lower = "registeredmail") then "registeredMail"
  else if bool_decide (method_lower = "handdelivery") then "handDelivery"
  else if bool_decide (method_lower = "fax") then "fax"
  else if bool_decide (method_lower = "courier") then "courier"
  else method_lower.

(** [d[key] = value] on a dict kept in insertion order. *)
Fixpoint dict_set {V} (key : string) (value : V) (d : list (string * V))
    : list (string * V) :=
  match d with
  | [] => [(key, value)]
  | (k, v) :: d' =>
      if bool_decide (k = key) then (key, value) :: d'
      else (k, v) :: dict_set key value d'
  end.

Definition if_nonempty (s : option string) : option string :=
  if nonempty s then s else None.

Definition confirm_delivery (now : datetime) (db : DB)
    (notice_id project_id user_id method : string)
    (tracking_number carrier : option string) (delivered_at : option datetime)
    (signed_by received_by : option string)
    : result (DB * option ComplianceNotice.t) :=
  do found <- get_notice_by_id db notice_id project_id;
  match found with
  | None => Ok (db, None)
  | Some notice =>
      if negb (bool_decide (ComplianceNotice.status notice = SENT)) then
        Raise (ValueError
                 ("Cannot confirm delivery for notice in "
                  +:+ ComplianceNoticeStatus_value (ComplianceNotice.status notice)
                  +:+ " status"))
      else
        let method_lower := str_drop_underscores (str_lower method) in
        let confirmation_entry :=
          {| de_status := "delivered";
             de_deliveredAt := default now delivered_at;
             de_trackingNumber := if_nonempty tracking_number;
             de_carrier := if_nonempty carrier;
             de_signedBy := if_nonempty signed_by;
             de_receivedBy := if_nonempty received_by |} in
        let key := method_key_map method_lower in
        let change n :=
          let existing := default [] (ComplianceNotice.delivery_confirmation n) in
          let n :=
            ComplianceNotice.set_status ACKNOWLEDGED
              (ComplianceNotice.set_delivered_at
                 (Some (default now delivered_at))
                 (ComplianceNotice.set_delivery_confirmation
                    (Some (dict_set key confirmation_entry existing)) n)) in
          let methods := ComplianceNotice.delivery_methods n in
          if negb (member method methods)
          then ComplianceNotice.set_delivery_methods (methods ++ [method]) n
          else n in
        let db :=
          with_notices
            (update_where (notice_by_id_and_project notice_id project_id)
               change (notices db)) db in
        let audit :=
          ComplianceAuditLog.mk project_id "DELIVERY_CONFIRMED"
            "ComplianceNotice" notice_id (Some user_id) "USER"
            "confirm_delivery"
            [ ("method", DStr method);
              ("trackingNumber", DOptStr tracking_number) ] in
        Ok (add_audit audit db, Some (change notice))
  end.

(** [regenerate_notice_draft].  [ai_content] and [ai_model] are the answer of
    [generate_response]; the prompt it is given is not modelled. *)
Definition regenerate_notice_draft (ai_content ai_model : string) (db : DB)
    (notice_id project_id user_id : string)
    : result (DB * string) :=
  do found <- get_notice_by_id db notice_id project_id;
  match found with
  | None => Raise (ValueError "Notice not found")
  | Some notice =>
      if negb (editable notice) then
        Raise (ValueError
                 ("Cannot regenerate notice in "
                  +:+ ComplianceNoticeStatus_value (ComplianceNotice.status notice)
                  +:+ " status"))
      else if negb (nonempty (ComplianceNotice.clause_id notice)) then
        Raise (ValueError "Notice has no linked clause")
      else
        do clause <-
          scalar_one_or_none
            (List.filter
               (fun c => bool_decide
                           (Some (ContractClause.id c)
                            = ComplianceNotice.clause_id notice))
               (clauses db));
        match clause with
        | None => Raise (ValueError "Linked clause not found")
        | Some _ =>
            do deadline <-
              scalar_one_or_none
                (List.filter
                   (fun d => bool_decide
                               (ComplianceDeadline.notice_id d = Some notice_id))
                   (deadlines db));
            let change n :=
              ComplianceNotice.set_ai true (Some ai_model)
                (ComplianceNotice.set_content ai_content n) in
            Ok (with_notices
                  (update_where
                     (notice_by_id_and_project notice_id project_id)
                     change (notices db)) db,
                ai_content)
        end
  end.

(** ** routers/compliance.py: PATCH /projects/{pid}/compliance/notices/{nid} *)

Definition ComplianceNoticeStatus_of_value (s : string)
    : option ComplianceNoticeStatus :=
  if bool_decide (s = "DRAFT") then Some DRAFT
  else if bool_decide (s = "PENDING_REVIEW") then Some PENDING_REVIEW
  else if bool_decide (s = "SENT") then Some SENT
  else if bool_decide (s = "ACKNOWLEDGED") then Some ACKNOWLEDGED
  else None.

Record UpdateNoticeRequest := {
  body_content : option string;
  body_title : option string;
  body_status : option string;
  body_recipient_name : option string;
  body_recipient_email : option string;
}.

(** The status change of the endpoint: an acknowledgement that was not
    recorded yet also stamps [acknowledged_at] and sets [on_time_status]. *)
Definition apply_status (now : datetime) (new_status : ComplianceNoticeStatus)
    (n : ComplianceNotice.t) : ComplianceNotice.t :=
  ComplianceNotice.set_status new_status
    (if bool_decide (new_status = ACKNOWLEDGED)
        && negb (bool_decide (is_Some (ComplianceNotice.acknowledged_at n)))
     then ComplianceNotice.set_on_time_status (Some true)
            (ComplianceNotice.set_acknowledged_at (Some now) n)
     else n).

Definition update_notice_endpoint (now : datetime) (db : DB)
    (project_id notice_id user_id : string) (body : UpdateNoticeRequest)
    : result (DB * ComplianceNotice.t) :=
  do updated <-
    match update_notice db notice_id project_id user_id (body_title body)
            (body_content body) (body_recipient_name body)
            (body_recipient_email body) None with
    | Raise (ValueError e) => Raise (HTTPException 400 e)
    | r => r
    end;
  let '(db, found) := updated in
  match found with
  | None => Raise (HTTPException 404 "Notice not found")
  | Some notice =>
      match body_status body with
      | Some status =>
          if nonempty (body_status body) then
            match ComplianceNoticeStatus_of_value status with
            | None => Raise (HTTPException 400 ("Invalid status: " +:+ status))
            | Some new_status =>
                let change := apply_status now new_status in
                Ok (with_notices
                      (update_where
                         (notice_by_id_and_project notice_id project_id)
                         change (notices db)) db,
                    change notice)
            end
          else Ok (db, notice)
      | None => Ok (db, notice)
      end
  end.

(** ** integrations.py *)

Definition RFI_CO_CLAUSE_KINDS : list ContractClauseKind :=
  [CLAIMS_PROCEDURE; CHANGE_ORDER_PROCESS].

Definition CHANGE_EVENT_CLAUSE_KINDS : list ContractClauseKind :=
  [CHANGE_ORDER_PROCESS; CLAIMS_PROCEDURE; NOTICE_REQUIREMENTS].

(** [clause.deadline_type.value.lower().replace('_', ' ')], or ['days']. *)
Definition deadline_unit (t : option DeadlineType) : string :=
  match t with
  | Some CALENDAR_DAYS => "calendar days"
  | Some BUSINESS_DAYS => "business days"
  | Some HOURS => "hours"
  | None => "days"
  end.

(** [clause.section_ref or clause.title] *)
Definition clause_ref (clause : ContractClause.t) : string :=
  if nonempty (ContractClause.section_ref clause)
  then default "" (ContractClause.section_ref clause)
  else ContractClause.title clause.

Definition notice_required_within (clause : ContractClause.t) : string :=
  "Per " +:+ clause_ref clause +:+ ", notice is required within "
  +:+ match ContractClause.deadline_days clause with
      | Some n => pretty n
      | None => "None"
      end
  +:+ " " +:+ deadline_unit (ContractClause.deadline_type clause) +:+ ".".

Definition double_quote : ascii := ascii_of_nat 34.

(** The query both triggers run before creating a deadline: a deadline of the
    same project, clause and trigger event whose status is neither EXPIRED nor
    WAIVED. *)
Definition same_trigger (project_id clause_id event_id : string)
    (event_type : TriggerEventType) (d : ComplianceDeadline.t) : bool :=
  bool_decide (ComplianceDeadline.project_id d = project_id)
  && bool_decide (ComplianceDeadline.clause_id d = clause_id)
  && bool_decide (ComplianceDeadline.trigger_event_id d = Some event_id)
  && bool_decide (ComplianceDeadline.trigger_event_type d = event_type).

Definition existing_deadline (project_id clause_id event_id : string)
    (event_type : TriggerEventType) (d : ComplianceDeadline.t) : bool :=
  same_trigger project_id clause_id event_id event_type d
  && negb (member (ComplianceDeadline.status d) [EXPIRED; WAIVED]).

(** The [for clause in clauses] loop, which the two triggers share up to the
    event type and the wording of the description. *)
Fixpoint trigger_loop (now : datetime) (project_id event_id : string)
    (event_type : TriggerEventType) (describe : ContractClause.t -> string)
    (user_id : option string) (todo : list ContractClause.t) (db : DB)
    (created_deadlines : list ComplianceDeadline.t)
    : result (DB * list ComplianceDeadline.t) :=
  match todo with
  | [] => Ok (db, created_deadlines)
  | clause :: todo =>
      do existing <-
        scalar_one_or_none
          (List.filter
             (existing_deadline project_id (ContractClause.id clause)
                event_id event_type)
             (deadlines db));
      match existing with
      | Some _ =>
          trigger_loop now project_id event_id event_type describe user_id
            todo db created_deadlines
      | None =>
          do made <-
            create_deadline now db project_id (ContractClause.id clause)
              event_type (describe clause) now (Some event_id) user_id;
          let '(db, deadline) := made in
          trigger_loop now project_id event_id event_type describe user_id
            todo db
            (match deadline with
             | Some d => created_deadlines ++ [d]
             | None => created_deadlines
             end)
      end
  end.

Definition matching_clauses (kinds : list ContractClauseKind)
    (project_id : string) (db : DB) : list ContractClause.t :=
  List.filter
    (fun c => bool_decide (ContractClause.project_id c = project_id)
              && member (ContractClause.kind c) kinds
              && bool_decide (is_Some (ContractClause.deadline_days c)))
    (clauses db).

Definition trigger_rfi_compliance (now : datetime) (db : DB)
    (project_id rfi_id rfi_number rfi_subject : string)
    (user_id : option string) : result (DB * list ComplianceDeadline.t) :=
  let found := matching_clauses RFI_CO_CLAUSE_KINDS project_id db in
  match found with
  | [] => Ok (db, [])
  | _ =>
      trigger_loop now project_id rfi_id RFI
        (fun clause =>
           "RFI #" +:+ rfi_number +:+ " " +:+ String double_quote rfi_subject
           +:+ String double_quote " flagged as potential change order. "
           +:+ notice_required_within clause)
        user_id found db []
  end.

Definition trigger_change_event_compliance (now : datetime) (db : DB)
    (project_id change_event_id change_description : string)
    (user_id : option string) : result (DB * list ComplianceDeadline.t) :=
  let found := matching_clauses CHANGE_EVENT_CLAUSE_KINDS project_id db in
  match found with
  | [] => Ok (db, [])
  | _ =>
      trigger_loop now project_id change_event_id CHANGE_ORDER
        (fun clause =>
           "Change event: " +:+ change_description +:+ ". "
           +:+ notice_required_within clause)
        user_id found db []
  end.

(** ** tasks/compliance_crons.py: the hourly severity pass *)

(** The severity the pass computes for a row; [days <= n] on the float
    [days = remaining.total_seconds() / 86400] is written on the exact
    duration. *)
Definition cron_severity (now : datetime) (d : ComplianceDeadline.t)
    : Severity :=
  let remaining := ComplianceDeadline.calculated_deadline d - now in
  if ComplianceDeadline.calculated_deadline d <=? now then SevEXPIRED
  else if remaining <=? 3 * MICROS_PER_DAY then SevCRITICAL
  else if remaining <=? 7 * MICROS_PER_DAY then SevWARNING
  else if remaining <=? 14 * MICROS_PER_DAY then SevINFO
  else SevLOW.

Definition cron_update (now : datetime) (d : ComplianceDeadline.t)
    : ComplianceDeadline.t :=
  let old_severity := ComplianceDeadline.severity d in
  let new_severity := cron_severity now d in
  if bool_decide (old_severity <> new_severity) then
    let d := ComplianceDeadline.set_severity new_severity d in
    if bool_decide (new_severity = SevEXPIRED)
    then ComplianceDeadline.set_status EXPIRED d
    else d
  else d.

Definition alerting (s : Severity) : bool :=
  member s [SevCRITICAL; SevWARNING; SevEXPIRED].

Definition eligible (u : User.t) : bool :=
  member (User.role u) [ADMIN; PROJECT_MANAGER; EXECUTIVE].

(** [ContractClause.id] is the primary key, so [one_or_none()] on the clause
    query sees at most one row. *)
Definition clause_of (db : DB) (d : ComplianceDeadline.t)
    : option ContractClause.t :=
  List.find
    (fun c => bool_decide (ContractClause.id c = ComplianceDeadline.clause_id d))
    (clauses db).

Definition days_label (days_remaining : Z) : string :=
  if days_remaining <? 0 then "EXPIRED"
  else pretty days_remaining +:+ " day"
       +:+ (if bool_decide (days_remaining <> 1) then "s" else "")
       +:+ " remaining".

(** The notifications the pass adds for one selected row ([int(days)]
    truncates towards zero). *)
Definition cron_alerts (now : datetime) (db : DB) (d : ComplianceDeadline.t)
    : list Notification.t :=
  let new_severity := cron_severity now d in
  if alerting new_severity then
    let clause := clause_of db d in
    let clause_title :=
      match clause with
      | Some c => ContractClause.title c
      | None => "Unknown"
      end in
    let clause_ref :=
      match clause with
      | Some c => ContractClause.section_ref c
      | None => Some ""
      end in
    let days_remaining :=
      Z.quot (ComplianceDeadline.calculated_deadline d - now) MICROS_PER_DAY in
    let title := Severity_value new_severity +:+ ": " +:+ clause_title in
    let message :=
      "Notice due " +:+ days_label days_remaining +:+ " — "
      +:+ (if nonempty clause_ref then default "" clause_ref else "N/A")
      +:+ ". " +:+ ComplianceDeadline.trigger_description d in
    map
      (fun user =>
         Notification.mk (User.id user) "COMPLIANCE_DEADLINE"
           (if member new_severity [SevCRITICAL; SevEXPIRED]
            then NotifCRITICAL else NotifWARNING)
           "IN_APP" title message
           (Some (ComplianceDeadline.project_id d))
           (Some (ComplianceDeadline.id d)) (Some "ComplianceDeadline"))
      (List.filter eligible (users db))
  else [].

Record CronTotals := {
  updated : Z;
  expired_total : Z;
  alertsSent : Z;
}.

Definition cron_count (now : datetime) (db : DB) (t : CronTotals)
    (d : ComplianceDeadline.t) : CronTotals :=
  let new_severity := cron_severity now d in
  let is_changed := bool_decide (ComplianceDeadline.severity d <> new_severity) in
  {| updated := if is_changed then updated t + 1 else updated t;
     expired_total :=
       if is_changed && bool_decide (new_severity = SevEXPIRED)
       then expired_total t + 1 else expired_total t;
     alertsSent := alertsSent t + Z.of_nat (length (cron_alerts now db d)) |}.

Definition cron_selected (project_id : string) (d : ComplianceDeadline.t)
    : bool :=
  bool_decide (ComplianceDeadline.project_id d = project_id) && is_active d.

(** The body of [for project_id in pids]. *)
Definition cron_project (now : datetime) (st : DB * CronTotals)
    (project_id : string) : DB * CronTotals :=
  let '(db, totals) := st in
  let rows := List.filter (cron_selected project_id) (deadlines db) in
  (with_notifications
     (notifications db ++ flat_map (cron_alerts now db) rows)
     (with_deadlines
        (update_where (cron_selected project_id) (cron_update now)
           (deadlines db)) db),
   fold_left (cron_count now db) rows totals).

(** [select(ComplianceDeadline.project_id).where(status in ...).distinct()] *)
Definition cron_projects (db : DB) : list string :=
  remove_dups
    (map ComplianceDeadline.project_id (List.filter is_active (deadlines db))).

Definition _run_severity_cron (now : datetime) (db : DB) : DB * CronTotals :=
  fold_left (cron_project now) (cron_projects db)
    (db, {| updated := 0; expired_total := 0; alertsSent := 0 |}).

(** ** scoring.py *)

Definition DEFAULT_CLAIMS_VALUE : Z := 50000.

Definition count_if {A} (p : A -> bool) (l : list A) : Z :=
  Z.of_nat (length (List.filter p l)).

(** [sorted(..., key=lambda n: n.sent_at, reverse=True)]: a stable sort, rows
    with equal keys keep their order. *)
Definition sent_key (n : ComplianceNotice.t) : datetime :=
  default 0 (ComplianceNotice.sent_at n).

Fixpoint insert_by_sent_at_desc (n : ComplianceNotice.t)
    (l : list ComplianceNotice.t) : list ComplianceNotice.t :=
  match l with
  | [] => [n]
  | m :: l' =>
      if sent_key m <=? sent_key n then n :: m :: l'
      else m :: insert_by_sent_at_desc n l'
  end.

Definition sorted_by_sent_at_desc (l : list ComplianceNotice.t)
    : list ComplianceNotice.t :=
  fold_right insert_by_sent_at_desc [] l.

Definition is_on_time (n : ComplianceNotice.t) : bool :=
  bool_decide (ComplianceNotice.on_time_status n = Some true).

Definition is_missed (n : ComplianceNotice.t) : bool :=
  bool_decide (ComplianceNotice.on_time_status n = Some false).

Fixpoint streak_loop (l : list ComplianceNotice.t) (streak : Z) : Z :=
  match l with
  | [] => streak
  | notice :: l' =>
      if is_on_time notice then streak_loop l' (streak + 1) else streak
  end.

Definition _calculate_streak (notices : list ComplianceNotice.t) : Z :=
  match notices with
  | [] => 0
  | _ =>
      let sorted_notices :=
        sorted_by_sent_at_desc
          (List.filter
             (fun n => bool_decide (is_Some (ComplianceNotice.sent_at n)))
             notices) in
      streak_loop sorted_notices 0
  end.

(** [order_by(calculated_at.desc()).limit(1)] over the project's score rows:
    the position and the row, the first one among equally recent rows. *)
Fixpoint latest_score (project_id : string) (rows : list ComplianceScore.t)
    (i : nat) : option (nat * ComplianceScore.t) :=
  match rows with
  | [] => None
  | r :: rows' =>
      let rest := latest_score project_id rows' (S i) in
      if bool_decide (ComplianceScore.project_id r = project_id) then
        match rest with
        | Some (j, r') =>
            if ComplianceScore.calculated_at r <? ComplianceScore.calculated_at r'
            then Some (j, r') else Some (i, r)
        | None => Some (i, r)
        end
      else rest
  end.

Definition sent_notices (project_id : string) (db : DB)
    : list ComplianceNotice.t :=
  List.filter
    (fun n => bool_decide (ComplianceNotice.project_id n = project_id)
              && member (ComplianceNotice.status n) [SENT; ACKNOWLEDGED])
    (notices db).

Definition calculate_score (now : datetime) (db : DB) (project_id : string)
    : DB * ComplianceScore.t :=
  let notices := sent_notices project_id db in
  let total_count := Z.of_nat (length notices) in
  let on_time_count := count_if is_on_time notices in
  let missed_count := count_if is_missed notices in
  let deadlines :=
    List.filter
      (fun d => bool_decide (ComplianceDeadline.project_id d = project_id)
                && is_active d)
      (deadlines db) in
  let at_risk_count :=
    count_if
      (fun d => member (ComplianceDeadline.severity d) [SevCRITICAL; SevWARNING])
      deadlines in
  let active_count := Z.of_nat (length deadlines) in
  let upcoming_count :=
    count_if
      (fun d => member (ComplianceDeadline.severity d) [SevLOW; SevINFO])
      deadlines in
  let protected_value := on_time_count * DEFAULT_CLAIMS_VALUE in
  let at_risk_value := at_risk_count * DEFAULT_CLAIMS_VALUE in
  let streak := _calculate_streak notices in
  match latest_score project_id (scores db) 0 with
  | Some (i, score_record) =>
      let old_streak := ComplianceScore.current_streak score_record in
      let score_record :=
        ComplianceScore.mk (ComplianceScore.project_id score_record)
          streak (Z.max (ComplianceScore.best_streak score_record) streak)
          (if (streak <? old_streak) && (0 <? old_streak) then Some now
           else ComplianceScore.streak_broken_at score_record)
          protected_value at_risk_value on_time_count total_count
          missed_count at_risk_count active_count upcoming_count now now in
      (with_scores (<[i := score_record]> (scores db)) db, score_record)
  | None =>
      let score_record :=
        ComplianceScore.mk project_id streak streak None protected_value
          at_risk_value on_time_count total_count missed_count at_risk_count
          active_count upcoming_count now now in
      (with_scores (scores db ++ [score_record]) db, score_record)
  end.

End Services.

(** * Notions used by the statements *)

(** The number of business days among [c + 1], ..., [c + n]. *)
Fixpoint business_days_in (n : nat) (c : date) (holidays : gset date) : Z :=
  match n with
  | O => 0
  | S n' =>
      (if is_business_day (c + 1) holidays then 1 else 0)
      + business_days_in n' (c + 1) holidays
  end.

(** ** Sample data for the examples and counterexamples *)

(** [datetime(y, m, d, hh, mm, ss)] *)
Definition mkdatetime (y m d hh mm ss : Z) : datetime :=
  mkdate y m d * MICROS_PER_DAY + ((hh * 60 + mm) * 60 + ss) * MICROS_PER_SECOND.

Definition sample_cuid (n : nat) : string := "cuid" +:+ pretty n.

Definition empty_db : DB := mkDB [] [] [] [] [] [] [] [] 0.

Definition with_clauses (v : list ContractClause.t) (db : DB) : DB :=
  mkDB v (deadlines db) (notices db) (audit_log db) (notifications db)
       (users db) (holidays db) (scores db) (next_cuid db).

Definition with_users (v : list User.t) (db : DB) : DB :=
  mkDB (clauses db) (deadlines db) (notices db) (audit_log db)
       (notifications db) v (holidays db) (scores db) (next_cuid db).

(** A claims clause whose extracted [deadlineDays] is negative. *)
Definition negative_clause : ContractClause.t :=
  ContractClause.mk "clause-neg" "P" CLAIMS_PROCEDURE "Claims" (Some "7.3")
    (Some (-3)) (Some BUSINESS_DAYS) None None.

Definition negative_clause_db : DB := with_clauses [negative_clause] empty_db.

(** ** Business-day deadlines and the project's holidays *)

(** The project's holiday set: every date of the federal table, whatever its
    year, and every holiday of the project. *)
Definition project_holiday_set (tbl : list ProjectHoliday)
    (project_id : string) : gset date :=
  list_to_set (get_federal_holidays 2025)
  ∪ list_to_set (get_federal_holidays 2026)
  ∪ list_to_set (get_federal_holidays 2027)
  ∪ list_to_set (get_project_holidays tbl project_id None).

(** A clause that asks for notice within 251 business days, in a project
    without holidays of its own. *)
Definition long_notice_clause : ContractClause.t :=
  ContractClause.mk "clause-long" "P" CLAIMS_PROCEDURE "Claims" (Some "7.3")
    (Some 251) (Some BUSINESS_DAYS) None None.

Definition long_notice_db : DB := with_clauses [long_notice_clause] empty_db.

(** ** Trigger idempotency *)

(** The deadlines of one trigger tuple
    [(projectId, clauseId, triggerEventId, triggerEventType)]. *)
Definition deadlines_of_trigger (project_id clause_id event_id : string)
    (event_type : TriggerEventType) (db : DB) : list ComplianceDeadline.t :=
  List.filter (same_trigger project_id clause_id event_id event_type)
    (deadlines db).

(** The statuses the state machine of the specification marks terminal. *)
Definition is_terminal (s : DeadlineStatus) : bool :=
  member s [WAIVED; EXPIRED].

(** Some deadline of the tuple is neither EXPIRED nor WAIVED: the query the
    triggers run first finds a row. *)
Definition blocked (project_id clause_id event_id : string)
    (event_type : TriggerEventType) (db : DB) : Prop :=
  exists d, In d (deadlines db)
            /\ existing_deadline project_id clause_id event_id event_type d = true.

(** The two events that enter through the trigger adapter. *)
Inductive trigger_event :=
  | RfiFlagged (rfi_id rfi_number rfi_subject : string)
  | ChangeEventCreated (change_event_id change_description : string).

Definition event_id_of (ev : trigger_event) : string :=
  match ev with
  | RfiFlagged rfi_id _ _ => rfi_id
  | ChangeEventCreated change_event_id _ => change_event_id
  end.

Definition event_type_of (ev : trigger_event) : TriggerEventType :=
  match ev with
  | RfiFlagged _ _ _ => RFI
  | ChangeEventCreated _ _ => CHANGE_ORDER
  end.

Definition process_trigger (generate_cuid : nat -> string) (now : datetime)
    (db : DB) (project_id : string) (ev : trigger_event)
    (user_id : option string) : result (DB * list ComplianceDeadline.t) :=
  match ev with
  | RfiFlagged rfi_id rfi_number rfi_subject =>
      trigger_rfi_compliance generate_cuid now db project_id rfi_id rfi_number
        rfi_subject user_id
  | ChangeEventCreated change_event_id change_description =>
      trigger_change_event_compliance generate_cuid now db project_id
        change_event_id change_description user_id
  end.

(** Two clauses an RFI flagged as change order triggers, and the database
    after RFI "rfi-1" was flagged once. *)
Definition claims_clause : ContractClause.t :=
  ContractClause.mk "clause-1" "P" CLAIMS_PROCEDURE "Claims" (Some "7.3")
    (Some 10) (Some CALENDAR_DAYS) None None.

Definition change_order_clause : ContractClause.t :=
  ContractClause.mk "clause-2" "P" CHANGE_ORDER_PROCESS "Changes" None
    (Some 5) (Some BUSINESS_DAYS) None None.

Definition two_clause_db : DB :=
  with_clauses [claims_clause; change_order_clause] empty_db.

Definition rfi_1 : trigger_event := RfiFlagged "rfi-1" "12" "Duct clash".

Definition flagged_once_db : DB :=
  committed two_clause_db
    (process_trigger sample_cuid (mkdatetime 2025 3 10 12 0 0) two_clause_db
       "P" rfi_1 (Some "u1")).

(** The deadline that first flagging created for clause "clause-1". *)
Definition flagged_deadline : ComplianceDeadline.t :=
  ComplianceDeadline.mk "cuid0" "P" "clause-1" RFI (Some "rfi-1")
    ("RFI #12 " +:+ String double_quote "Duct clash"
     +:+ String double_quote
           " flagged as potential change order. Per 7.3, notice is required within 10 calendar days.")
    (mkdatetime 2025 3 10 12 0 0) (Some "u1") (mkdatetime 2025 3 20 23 59 59)
    ACTIVE SevINFO None None None None None.

(** The same database once that deadline has been completed, and once it has
    been waived. *)
Definition completed_db : DB :=
  with_deadlines
    (update_where (by_id_and_project "cuid0" "P")
       (ComplianceDeadline.set_status COMPLETED) (deadlines flagged_once_db))
    flagged_once_db.

Definition waived_db : DB :=
  committed flagged_once_db
    (waive_deadline (mkdatetime 2025 3 11 9 0 0) flagged_once_db "cuid0" "P"
       "u1" "superseded").

(** The flagged deadline as the first waiver left it. *)
Definition waived_deadline : ComplianceDeadline.t :=
  ComplianceDeadline.set_severity SevLOW
    (ComplianceDeadline.set_waiver (Some (mkdatetime 2025 3 11 9 0 0))
       (Some "u1") (Some "superseded")
       (ComplianceDeadline.set_status WAIVED flagged_deadline)).

(** A notice drafted for the flagged deadline, once without and once with the
    clause id; both are due at the deadline and carry a recipient. *)
Definition draft_for_deadline (clause_id : option string) : DB :=
  committed flagged_once_db
    (create_notice sample_cuid (mkdatetime 2025 3 18 10 0 0) flagged_once_db
       "P" "CLAIM_NOTICE" "Notice of claim" "Notice of claim" "u1" clause_id
       (Some (mkdatetime 2025 3 20 23 59 59)) (Some "GC")
       (Some "gc@example.com") (Some "cuid0")).

Definition drafted_deadline : ComplianceDeadline.t :=
  ComplianceDeadline.set_notice (Some "cuid2")
    (Some (mkdatetime 2025 3 18 10 0 0))
    (ComplianceDeadline.set_status NOTICE_DRAFTED flagged_deadline).

(** ** Severity pass *)

(** What one pass does to a row of the deadline table. *)
Definition cron_row (now : datetime) (d : ComplianceDeadline.t)
    : ComplianceDeadline.t :=
  if is_active d then cron_update now d else d.

(** The deadlines a pass alerts about again when nothing changes: still
    ACTIVE or NOTICE_DRAFTED with a stored severity of CRITICAL, WARNING or
    EXPIRED. *)
Definition still_alerting (d : ComplianceDeadline.t) : bool :=
  is_active d && alerting (ComplianceDeadline.severity d).

(** Every row of the table is as a pass at [now] leaves it. *)
Definition settled (now : datetime) (db : DB) : Prop :=
  forall d, In d (deadlines db) -> cron_row now d = d.

(** The rows the projects [pids] alert about, project by project. *)
Definition realerted (pids : list string) (rows : list ComplianceDeadline.t)
    : list ComplianceDeadline.t :=
  flat_map
    (fun pid =>
       List.filter
         (fun d => cron_selected pid d
                   && alerting (ComplianceDeadline.severity d))
         rows)
    pids.

(** The flagged database with an administrator and a viewer, looked at in the
    morning of 19 March 2025: the claims deadline is a day and a half away,
    the change-order deadline passed two days ago. *)
Definition staffed_db : DB :=
  with_users
    [ User.mk "u1" ADMIN "Ada" "ada@example.com";
      User.mk "u2" OTHER_ROLE "Vic" "vic@example.com" ]
    flagged_once_db.

Definition march_19 : datetime := mkdatetime 2025 3 19 12 0 0.

(** ** Audit trail *)

(** The operation that took [db] to [db'] appended exactly one audit entry,
    about the given entity. *)
Definition audit_appended (db db' : DB) (entity_type entity_id : string)
    : Prop :=
  exists a,
    audit_log db' = (audit_log db ++ [a])%list
    /\ ComplianceAuditLog.entity_type a = entity_type
    /\ ComplianceAuditLog.entity_id a = entity_id.

Definition audits_for (entity_type entity_id : string) (db : DB)
    : list ComplianceAuditLog.t :=
  List.filter
    (fun a => bool_decide (ComplianceAuditLog.entity_type a = entity_type)
              && bool_decide (ComplianceAuditLog.entity_id a = entity_id))
    (audit_log db).

(** ** Notice requests *)

(** Every operation that writes the notice table, with what it reads from its
    environment (the clock, the e-mail transport, the language model). *)
Inductive notice_request :=
  | CreateNotice (now : datetime)
      (project_id notice_type title content user_id : string)
      (clause_id : option string) (due_date : option datetime)
      (recipient_name recipient_email deadline_id : option string)
  | UpdateNotice (notice_id project_id user_id : string)
      (title content recipient_name recipient_email : option string)
      (due_date : option datetime)
  | PatchNotice (now : datetime) (project_id notice_id user_id : string)
      (body : UpdateNoticeRequest)
  | SendNotice (now : datetime) (sent : bool)
      (notice_id project_id user_id : string)
  | ConfirmDelivery (now : datetime)
      (notice_id project_id user_id method : string)
      (tracking_number carrier : option string) (delivered_at : option datetime)
      (signed_by received_by : option string)
  | RegenerateNotice (ai_content ai_model notice_id project_id user_id : string)
  | DeleteNotice (notice_id project_id user_id : string).

(** The database a request leaves behind. *)
Definition serve (generate_cuid : nat -> string) (db : DB)
    (req : notice_request) : DB :=
  match req with
  | CreateNotice now project_id notice_type title content user_id clause_id
      due_date recipient_name recipient_email deadline_id =>
      committed db
        (create_notice generate_cuid now db project_id notice_type title
           content user_id clause_id due_date recipient_name recipient_email
           deadline_id)
  | UpdateNotice notice_id project_id user_id title content recipient_name
      recipient_email due_date =>
      committed db
        (update_notice db notice_id project_id user_id title content
           recipient_name recipient_email due_date)
  | PatchNotice now project_id notice_id user_id body =>
      committed db
        (update_notice_endpoint now db project_id notice_id user_id body)
  | SendNotice now sent notice_id project_id user_id =>
      committed db (send_notice now sent db notice_id project_id user_id)
  | ConfirmDelivery now notice_id project_id user_id method tracking_number
      carrier delivered_at signed_by received_by =>
      committed db
        (confirm_delivery now db notice_id project_id user_id method
           tracking_number carrier delivered_at signed_by received_by)
  | RegenerateNotice ai_content ai_model notice_id project_id user_id =>
      committed db
        (regenerate_notice_draft ai_content ai_model db notice_id project_id
           user_id)
  | DeleteNotice notice_id project_id user_id =>
      committed db (delete_notice db notice_id project_id user_id)
  end.





(** The row [n'] is the row [n] with its on-time status and acknowledgement
    left alone, and it is editable only if [n] was. *)
Definition row_kept (n n' : ComplianceNotice.t) : Prop :=
  ComplianceNotice.id n' = ComplianceNotice.id n
  /\ ComplianceNotice.on_time_status n' = ComplianceNotice.on_time_status n
  /\ ComplianceNotice.acknowledged_at n' = ComplianceNotice.acknowledged_at n
  /\ (editable n' = true -> editable n = true).

(** The draft of [draft_for_deadline (Some "clause-1")], the same notice once
    sent on 19 March, and PATCH bodies that only ask for a status. *)
Definition drafted_notice : ComplianceNotice.t :=
  ComplianceNotice.mk "cuid2" "P" "CLAIM_NOTICE" DRAFT "Notice of claim"
    "Notice of claim" (Some "GC") (Some "gc@example.com")
    (Some (mkdatetime 2025 3 20 23 59 59)) None None (Some "clause-1") [] None
    None None false None "u1".

Definition sent_notice : ComplianceNotice.t :=
  ComplianceNotice.set_on_time_status (Some true)
    (ComplianceNotice.set_delivery_methods ["EMAIL"]
       (ComplianceNotice.set_delivered_at (Some (mkdatetime 2025 3 19 10 0 0))
          (ComplianceNotice.set_sent_at (Some (mkdatetime 2025 3 19 10 0 0))
             (ComplianceNotice.set_status SENT drafted_notice)))).


(** ** Scoring *)

Definition score_chain (r : ComplianceScore.t) : Prop :=
  ComplianceScore.current_streak r <= ComplianceScore.best_streak r
  /\ ComplianceScore.best_streak r <= ComplianceScore.on_time_count r
  /\ ComplianceScore.on_time_count r <= ComplianceScore.total_count r.

(** The on-time notices a project has among its sent ones. *)
Definition on_time_total (db : DB) (project_id : string) : Z :=
  count_if is_on_time (sent_notices project_id db).

(** The databases score calculation can meet: it starts without score
    records, scores are written by [calculate_score] only, and whatever else
    happens never lowers a project's number of on-time sent notices (sent
    notices are not deleted, [onTimeStatus] is not unset). *)
Inductive scored : DB -> Prop :=
  | scored_start db : scores db = [] -> scored db
  | scored_calculate now db project_id :
      scored db -> scored (fst (calculate_score now db project_id))
  | scored_other db db' :
      scored db -> scores db' = scores db ->
      (forall project_id,
          on_time_total db project_id <= on_time_total db' project_id) ->
      scored db'.

Definition scores_sound (db : DB) : Prop :=
  forall r, In r (scores db) ->
            score_chain r
            /\ ComplianceScore.on_time_count r
               <= on_time_total db (ComplianceScore.project_id r).

(** * Further notions: the rest of the engine and its histories *)

(** ** severity.py: the change test *)

(** [severity_changed(old, new)]: [old != new]. *)
Definition severity_changed (old new : Severity) : bool :=
  negb (bool_decide (old = new)).

(** ** The severity pass: rows it updates *)

(** The stored severity of the row differs from the one the pass computes. *)
Definition cron_changes (now : datetime) (d : ComplianceDeadline.t) : bool :=
  bool_decide (ComplianceDeadline.severity d <> cron_severity now d).

(** ** deadlines.py: listing *)

(** [ORDER BY calculatedDeadline ASC]: rows with equal deadlines are kept in
    table order (SQL leaves their order open). *)
Fixpoint insert_by_deadline (d : ComplianceDeadline.t)
    (l : list ComplianceDeadline.t) : list ComplianceDeadline.t :=
  match l with
  | [] => [d]
  | e :: l' =>
      if ComplianceDeadline.calculated_deadline d
         <=? ComplianceDeadline.calculated_deadline e
      then d :: e :: l'
      else e :: insert_by_deadline d l'
  end.

Definition sorted_by_deadline (l : list ComplianceDeadline.t)
    : list ComplianceDeadline.t :=
  fold_right insert_by_deadline [] l.

(** The [WHERE] clause of [get_deadlines]; a filter that is not given does
    not restrict ([if status:] holds for every member of the enumeration). *)
Definition listed (project_id : string) (status : option DeadlineStatus)
    (severity : option Severity) (d : ComplianceDeadline.t) : bool :=
  bool_decide (ComplianceDeadline.project_id d = project_id)
  && match status with
     | Some s => bool_decide (ComplianceDeadline.status d = s)
     | None => true
     end
  && match severity with
     | Some s => bool_decide (ComplianceDeadline.severity d = s)
     | None => true
     end.

Definition get_deadlines (db : DB) (project_id : string)
    (status : option DeadlineStatus) (severity : option Severity)
    : list ComplianceDeadline.t :=
  sorted_by_deadline (List.filter (listed project_id status severity)
                        (deadlines db)).

(** ** Notice table steps *)

(** How one request rewrites the notice table: it leaves it alone, appends a
    draft, rewrites the one row a query found (an editable row in any way
    that keeps its id and project, or a SENT row into an ACKNOWLEDGED one
    with the same [sentAt] and [onTimeStatus]), or removes one editable
    row. *)
Inductive notice_table_step (rows : list ComplianceNotice.t)
    : list ComplianceNotice.t -> Prop :=
  | step_none : notice_table_step rows rows
  | step_draft n :
      ComplianceNotice.status n = DRAFT ->
      notice_table_step rows (rows ++ [n])
  | step_edit p g n :
      List.filter p rows = [n] -> editable n = true ->
      ComplianceNotice.id (g n) = ComplianceNotice.id n ->
      ComplianceNotice.project_id (g n) = ComplianceNotice.project_id n ->
      notice_table_step rows (update_where p g rows)
  | step_acknowledge p g n :
      List.filter p rows = [n] ->
      ComplianceNotice.status n = SENT ->
      ComplianceNotice.status (g n) = ACKNOWLEDGED ->
      ComplianceNotice.id (g n) = ComplianceNotice.id n ->
      ComplianceNotice.project_id (g n) = ComplianceNotice.project_id n ->
      ComplianceNotice.sent_at (g n) = ComplianceNotice.sent_at n ->
      ComplianceNotice.on_time_status (g n)
      = ComplianceNotice.on_time_status n ->
      notice_table_step rows (update_where p g rows)
  | step_delete p n :
      List.filter p rows = [n] -> editable n = true ->
      notice_table_step rows (List.filter (fun r => negb (p r)) rows).

(** ** Histories of notices and scores *)

(** The databases reached from one without score records by notice requests
    and score calculations; any other operation leaves the notice table and
    the score records alone. *)
Inductive operated (generate_cuid : nat -> string) : DB -> Prop :=
  | operated_start db : scores db = [] -> operated generate_cuid db
  | operated_serve db req :
      operated generate_cuid db ->
      operated generate_cuid (serve generate_cuid db req)
  | operated_score now db project_id :
      operated generate_cuid db ->
      operated generate_cuid (fst (calculate_score now db project_id))
  | operated_other db db' :
      operated generate_cuid db ->
      notices db' = notices db -> scores db' = scores db ->
      operated generate_cuid db'.

(** A sent notice: SENT or ACKNOWLEDGED. *)
Definition is_sent (n : ComplianceNotice.t) : bool :=
  member (ComplianceNotice.status n) [SENT; ACKNOWLEDGED].

(** The on-time sent notices of a project, counted on the table. *)
Definition on_time_sent (project_id : string) (n : ComplianceNotice.t) : bool :=
  (bool_decide (ComplianceNotice.project_id n = project_id) && is_sent n)
  && is_on_time n.


(** ** The operations of the engine *)

(** One call into the engine: a notice request, a trigger, one of the
    deadline services, a severity pass or a score calculation. *)
Inductive operation :=
  | OpNotice (req : notice_request)
  | OpTrigger (now : datetime) (project_id : string) (ev : trigger_event)
      (user_id : option string)
  | OpCreateDeadline (now : datetime) (project_id clause_id : string)
      (trigger_event_type : TriggerEventType) (trigger_description : string)
      (triggered_at : datetime) (trigger_event_id triggered_by : option string)
  | OpUpdateDeadlineStatus (now : datetime) (deadline_id project_id : string)
      (new_status : DeadlineStatus) (user_id notice_id : option string)
  | OpWaiveDeadline (now : datetime)
      (deadline_id project_id user_id reason : string)
  | OpRecalculateSeverities (now : datetime) (project_id : string)
  | OpSeverityCron (now : datetime)
  | OpCalculateScore (now : datetime) (project_id : string).

(** The database the call leaves behind; a call that raises is rolled
    back. *)
Definition perform (generate_cuid : nat -> string) (db : DB) (op : operation)
    : DB :=
  match op with
  | OpNotice req => serve generate_cuid db req
  | OpTrigger now project_id ev user_id =>
      committed db (process_trigger generate_cuid now db project_id ev user_id)
  | OpCreateDeadline now project_id clause_id trigger_event_type
      trigger_description triggered_at trigger_event_id triggered_by =>
      committed db
        (create_deadline generate_cuid now db project_id clause_id
           trigger_event_type trigger_description triggered_at
           trigger_event_id triggered_by)
  | OpUpdateDeadlineStatus now deadline_id project_id new_status user_id
      notice_id =>
      committed db
        (update_deadline_status now db deadline_id project_id new_status
           user_id notice_id)
  | OpWaiveDeadline now deadline_id project_id user_id reason =>
      committed db (waive_deadline now db deadline_id project_id user_id reason)
  | OpRecalculateSeverities now project_id =>
      fst (recalculate_severities now db project_id)
  | OpSeverityCron now => fst (_run_severity_cron now db)
  | OpCalculateScore now project_id => fst (calculate_score now db project_id)
  end.

(** The databases that follow [db]: [db] itself and those reached from it by
    any number of these calls. *)
Inductive follows (generate_cuid : nat -> string) (db : DB) : DB -> Prop :=
  | follows_now : follows generate_cuid db db
  | follows_step db' op :
      follows generate_cuid db db' ->
      follows generate_cuid db (perform generate_cuid db' op).

(** The part of a deadline that is fixed when it is created. *)
Definition same_deadline (d d' : ComplianceDeadline.t) : Prop :=
  ComplianceDeadline.id d' = ComplianceDeadline.id d
  /\ ComplianceDeadline.project_id d' = ComplianceDeadline.project_id d
  /\ ComplianceDeadline.clause_id d' = ComplianceDeadline.clause_id d
  /\ ComplianceDeadline.trigger_event_type d'
     = ComplianceDeadline.trigger_event_type d
  /\ ComplianceDeadline.trigger_event_id d'
     = ComplianceDeadline.trigger_event_id d
  /\ ComplianceDeadline.trigger_description d'
     = ComplianceDeadline.trigger_description d
  /\ ComplianceDeadline.triggered_at d' = ComplianceDeadline.triggered_at d
  /\ ComplianceDeadline.triggered_by d' = ComplianceDeadline.triggered_by d
  /\ ComplianceDeadline.calculated_deadline d'
     = ComplianceDeadline.calculated_deadline d.

(** ** Sample data (continued) *)

(** What a call returned, or [default] when it raised. *)
Definition returned {A} (default : A) (r : result (DB * A)) : A :=
  match r with
  | Ok (_, a) => a
  | Raise _ => default
  end.

(** The drafted notice of [draft_for_deadline (Some "clause-1")] sent in the
    morning of 19 March 2025, and then delivered by certified mail. *)
Definition sent_db : DB :=
  serve sample_cuid (draft_for_deadline (Some "clause-1"))
    (SendNotice (mkdatetime 2025 3 19 10 0 0) true "cuid2" "P" "u1").

Definition delivered_db : DB :=
  serve sample_cuid sent_db
    (ConfirmDelivery (mkdatetime 2025 3 21 9 0 0) "cuid2" "P" "u1"
       "CERTIFIED_MAIL" (Some "TRK-1") (Some "USPS") None (Some "GC") None).

(** * Calendar service *)

Example mkdate_2025_07_01 : mkdate 2025 7 1 = 739433.
Proof. reflexivity. Qed.

Example date_year_2025_07_01 : date_year 739433 = 2025.
Proof. reflexivity. Qed.

Example weekday_2025_07_01 : weekday (mkdate 2025 7 1) = 1.
Proof. reflexivity. Qed.

Example add_business_days_friday :
  add_business_days (mkdate 2025 3 7) 1 ∅ = mkdate 2025 3 10.
Proof. vm_compute. reflexivity. Qed.

Example add_business_days_monday_holiday :
  add_business_days (mkdate 2025 3 7) 1 {[ mkdate 2025 3 10 ]} = mkdate 2025 3 11.
Proof. vm_compute. reflexivity. Qed.

Example add_business_days_july_4th :
  add_business_days (mkdate 2025 7 1) 3
    (get_all_holidays [] "P" (mkdate 2025 7 1)) = mkdate 2025 7 7.
Proof. vm_compute. reflexivity. Qed.

Section Calendar.

Variable holidays : gset date.

Lemma business_days_in_nonneg n c : 0 <= business_days_in n c holidays.
Proof.
  revert c. induction n as [|n IH]; intros c; simpl; [lia|].
  specialize (IH (c + 1)). destruct (is_business_day _ _); lia.
Qed.

Lemma business_days_in_app n m c :
  business_days_in (n + m) c holidays
  = business_days_in n c holidays
    + business_days_in m (c + Z.of_nat n) holidays.
Proof.
  revert c. induction n as [|n IH]; intros c.
  - cbn [Nat.add business_days_in].
    replace (c + Z.of_nat 0) with c by lia. lia.
  - cbn [Nat.add business_days_in]. rewrite IH.
    replace (c + 1 + Z.of_nat n) with (c + Z.of_nat (S n)) by lia. lia.
Qed.

(** The counting loop adds to [count] the business days of
    [(current, end_]]. *)
Lemma count_business_days_loop_spec fuel current end_ count :
  (Z.to_nat (end_ - current) <= fuel)%nat ->
  count_business_days_loop fuel current end_ count holidays
  = count + business_days_in (Z.to_nat (end_ - current)) current holidays.
Proof.
  revert current count. induction fuel as [|fuel IH]; intros current count Hf.
  - simpl. replace (Z.to_nat (end_ - current)) with O by lia. simpl. lia.
  - simpl. destruct (Z.ltb_spec current end_) as [Hlt|Hge].
    + rewrite IH by lia.
      replace (Z.to_nat (end_ - current))
        with (S (Z.to_nat (end_ - (current + 1)))) by lia.
      simpl. destruct (is_business_day _ _); lia.
    + replace (Z.to_nat (end_ - current)) with O by lia. simpl. lia.
Qed.

Lemma count_business_days_between_spec start end_ :
  count_business_days_between start end_ holidays
  = business_days_in (Z.to_nat (end_ - start)) start holidays.
Proof.
  unfold count_business_days_between.
  rewrite count_business_days_loop_spec by lia. lia.
Qed.

(** What the adding loop returns when it returns. *)
Lemma add_business_days_loop_sound fuel current remaining e :
  add_business_days_loop fuel current remaining holidays = Some e ->
  (remaining <= 0 /\ e = current)
  \/ (0 < remaining /\ current < e
      /\ business_days_in (Z.to_nat (e - current)) current holidays = remaining).
Proof.
  revert current remaining.
  induction fuel as [|fuel IH]; intros current remaining H.
  - simpl in H. destruct (Z.ltb_spec 0 remaining); [discriminate|].
    inversion H. left. lia.
  - simpl in H. destruct (Z.ltb_spec 0 remaining) as [Hpos|Hneg].
    2:{ inversion H. left. lia. }
    right. split; [lia|].
    destruct (is_business_day (current + 1) holidays) eqn:Hbd;
      apply IH in H; destruct H as [[Hle ->]|(Hr & Hlt & Hc)].
    + split; [lia|]. replace (Z.to_nat (current + 1 - current)) with 1%nat by lia.
      simpl. rewrite Hbd. lia.
    + split; [lia|].
      replace (Z.to_nat (e - current))
        with (S (Z.to_nat (e - (current + 1)))) by lia.
      simpl. rewrite Hbd. lia.
    + lia.
    + split; [lia|].
      replace (Z.to_nat (e - current))
        with (S (Z.to_nat (e - (current + 1)))) by lia.
      simpl. rewrite Hbd. lia.
Qed.

(** The loop returns as soon as the fuel spans enough business days. *)
Lemma add_business_days_loop_returns fuel current remaining :
  remaining <= business_days_in fuel current holidays ->
  exists e, add_business_days_loop fuel current remaining holidays = Some e.
Proof.
  revert current remaining.
  induction fuel as [|fuel IH]; intros current remaining H; simpl in *.
  - destruct (Z.ltb_spec 0 remaining); [lia|]. eauto.
  - destruct (Z.ltb_spec 0 remaining); [|eauto].
    destruct (is_business_day (current + 1) holidays); apply IH; lia.
Qed.

Lemma last_blocked_day_bounds start :
  start <= last_blocked_day start holidays
  /\ forall h, h ∈ holidays -> h <= last_blocked_day start holidays.
Proof.
  unfold last_blocked_day, set_fold. simpl.
  assert (Hl : forall l : list Z,
             start <= foldr Z.max start l
             /\ forall h, h ∈ l -> h <= foldr Z.max start l).
  { induction l as [|x l [IH1 IH2]]; simpl.
    - split; [lia|]. intros h Hh. inversion Hh.
    - split; [lia|]. intros h Hh. apply elem_of_cons in Hh as [->|Hh].
      + lia.
      + specialize (IH2 h Hh). lia. }
  destruct (Hl (elements holidays)) as [H1 H2]. split; [exact H1|].
  intros h Hh. apply H2. apply elem_of_elements. exact Hh.
Qed.

(** After the last holiday every week brings a business day. *)
Lemma business_days_in_week c :
  (forall h, h ∈ holidays -> h <= c) ->
  1 <= business_days_in 7 c holidays.
Proof.
  intros Hc.
  assert (Hbd : forall d, c < d -> is_business_day d holidays = (weekday d <? 5)).
  { intros d Hd. unfold is_business_day.
    rewrite bool_decide_eq_true_2; [apply andb_true_r|].
    intros Hin. specialize (Hc d Hin). lia. }
  simpl. rewrite !Hbd by lia. unfold weekday.
  repeat match goal with
         | |- context [?a mod 7 <? 5] => destruct (Z.ltb_spec (a mod 7) 5)
         end;
    first [lia | Z.to_euclidean_division_equations; lia].
Qed.

Lemma business_days_in_weeks c k :
  (forall h, h ∈ holidays -> h <= c) ->
  Z.of_nat k <= business_days_in (7 * k) c holidays.
Proof.
  revert c. induction k as [|k IH]; intros c Hc.
  - simpl. lia.
  - replace (7 * S k)%nat with (7 + 7 * k)%nat by lia.
    rewrite business_days_in_app.
    pose proof (business_days_in_week c Hc).
    assert (Hc' : forall h, h ∈ holidays -> h <= c + Z.of_nat 7).
    { intros h Hh. specialize (Hc h Hh). lia. }
    specialize (IH _ Hc'). lia.
Qed.

(** The fuel [add_business_days] gives its loop is enough. *)
Lemma add_business_days_loop_enough start days :
  exists e,
    add_business_days_loop (add_business_days_fuel start days holidays)
      start days holidays = Some e.
Proof.
  apply add_business_days_loop_returns.
  unfold add_business_days_fuel. rewrite business_days_in_app.
  destruct (last_blocked_day_bounds start) as [Hs Hh].
  pose proof (business_days_in_nonneg
                (Z.to_nat (last_blocked_day start holidays - start)) start).
  assert (Hb : forall h, h ∈ holidays ->
               h <= start + Z.of_nat (Z.to_nat (last_blocked_day start holidays - start))).
  { intros h Hin. specialize (Hh h Hin). lia. }
  pose proof (business_days_in_weeks _ (Z.to_nat days) Hb). lia.
Qed.

(** More fuel does not change what the loop returns: [add_business_days] is
    the result of the source's [while] loop. *)
Lemma add_business_days_loop_more fuel fuel' current remaining e :
  add_business_days_loop fuel current remaining holidays = Some e ->
  (fuel <= fuel')%nat ->
  add_business_days_loop fuel' current remaining holidays = Some e.
Proof.
  revert fuel' current remaining.
  induction fuel as [|fuel IH]; intros fuel' current remaining H Hle.
  - simpl in H. destruct (0 <? remaining) eqn:E; [discriminate|].
    destruct fuel'; simpl; rewrite E; exact H.
  - destruct fuel' as [|fuel']; [lia|]. simpl in *.
    destruct (0 <? remaining); [|exact H].
    destruct (is_business_day (current + 1) holidays); apply IH; auto; lia.
Qed.

Lemma add_business_days_loop_result fuel start days e :
  add_business_days_loop fuel start days holidays = Some e ->
  add_business_days start days holidays = e.
Proof.
  intros H. unfold add_business_days.
  destruct (add_business_days_loop_enough start days) as [e' He'].
  rewrite He'.
  destruct (Nat.le_ge_cases fuel (add_business_days_fuel start days holidays)).
  - pose proof (add_business_days_loop_more _ _ _ _ _ H H0) as H1.
    rewrite He' in H1. congruence.
  - pose proof (add_business_days_loop_more _ _ _ _ _ He' H0) as H1.
    rewrite H in H1. congruence.
Qed.

Lemma add_business_days_sound start days :
  (days <= 0 /\ add_business_days start days holidays = start)
  \/ (0 < days /\ start < add_business_days start days holidays
      /\ business_days_in
           (Z.to_nat (add_business_days start days holidays - start))
           start holidays = days).
Proof.
  destruct (add_business_days_loop_enough start days) as [e He].
  rewrite (add_business_days_loop_result _ _ _ _ He).
  apply add_business_days_loop_sound in He. exact He.
Qed.

End Calendar.

Lemma datetime_date_end_of_day d : datetime_date (end_of_day d) = d.
Proof.
  unfold datetime_date, end_of_day, MICROS_PER_DAY, MICROS_PER_SECOND.
  Z.to_euclidean_division_equations. lia.
Qed.

Section Deadlines.

Variable generate_cuid : nat -> string.

(** A clause that carries both deadline parameters yields a deadline, whose
    dates are those of [calculate_deadline]. *)
Lemma create_deadline_creates now db project_id clause_id event_type description
    triggered_at event_id triggered_by clause days type :
  List.filter (clause_by_id_and_project clause_id project_id) (clauses db)
  = [clause] ->
  ContractClause.deadline_days clause = Some days ->
  ContractClause.deadline_type clause = Some type ->
  days <> 0 ->
  exists db' deadline,
    create_deadline generate_cuid now db project_id clause_id event_type
      description triggered_at event_id triggered_by = Ok (db', Some deadline)
    /\ deadlines db' = (deadlines db ++ [deadline])%list
    /\ ComplianceDeadline.triggered_at deadline = triggered_at
    /\ ComplianceDeadline.status deadline = ACTIVE
    /\ ComplianceDeadline.calculated_deadline deadline
       = calculatedDeadline
           (calculate_deadline (holidays db) now project_id triggered_at days
              type (ContractClause.cure_period_days clause)
              (ContractClause.cure_period_type clause)).
Proof.
  intros Hrow Hdays Htype Hnz. unfold create_deadline.
  rewrite Hrow. cbn [scalar_one_or_none bind]. rewrite Hdays, Htype.
  unfold truthy. destruct (Z.eqb_spec days 0) as [|_]; [contradiction|].
  cbn [negb]. eexists _, _. split; [reflexivity|]. simpl. auto.
Qed.

(** Counting the business days from a start date (exclusive) to
    [add_business_days start k H] (inclusive) over the same holiday set gives
    exactly [k], for every start date, every [k > 0] and every holiday set;
    so a deadline created from a BUSINESS_DAYS clause with
    [deadlineDays = k > 0] lies exactly [k] business days after its trigger
    date when the days are counted over the set [get_all_holidays] loaded for
    the calculation (which need not be the project's whole holiday set). *)
Theorem business_day_deadline_counts_back :
  (forall (start : date) (k : Z) (holidays : gset date),
      0 < k ->
      count_business_days_between start
        (add_business_days start k holidays) holidays = k)
  /\ (forall now db project_id clause_id event_type description triggered_at
             event_id triggered_by clause k,
         List.filter (clause_by_id_and_project clause_id project_id) (clauses db)
         = [clause] ->
         ContractClause.deadline_type clause = Some BUSINESS_DAYS ->
         ContractClause.deadline_days clause = Some k ->
         0 < k ->
         exists db' deadline,
           create_deadline generate_cuid now db project_id clause_id event_type
             description triggered_at event_id triggered_by
           = Ok (db', Some deadline)
           /\ count_business_days_between
                (datetime_date (ComplianceDeadline.triggered_at deadline))
                (datetime_date (ComplianceDeadline.calculated_deadline deadline))
                (get_all_holidays (holidays db) project_id
                   (datetime_date triggered_at)) = k).
Proof.
  assert (Hcount : forall start k holidays, 0 < k ->
             count_business_days_between start
               (add_business_days start k holidays) holidays = k).
  { intros start k holidays Hk. rewrite count_business_days_between_spec.
    destruct (add_business_days_sound holidays start k) as [[Hle _]|(_ & _ & H)];
      [lia|exact H]. }
  split; [exact Hcount|].
  intros now db project_id clause_id event_type description triggered_at
    event_id triggered_by clause k Hrow Htype Hdays Hk.
  destruct (create_deadline_creates now db project_id clause_id event_type
              description triggered_at event_id triggered_by clause k
              BUSINESS_DAYS Hrow Hdays Htype ltac:(lia))
    as (db' & deadline & Hc & _ & Hat & _ & Hcalc).
  exists db', deadline. split; [exact Hc|].
  rewrite Hat, Hcalc. cbn [calculate_deadline calculatedDeadline].
  rewrite datetime_date_end_of_day. apply Hcount. exact Hk.
Qed.

End Deadlines.

Lemma business_day_deadline_counts_back_witness :
  0 < 3
  /\ count_business_days_between (mkdate 2025 7 1)
       (add_business_days (mkdate 2025 7 1) 3 {[ mkdate 2025 7 4 ]})
       {[ mkdate 2025 7 4 ]} = 3.
Proof.
  split; [lia|].
  apply (proj1 (business_day_deadline_counts_back sample_cuid)). lia.
Defined.

(** C4. The count does not hold for the project's holiday set when the
    deadline runs past the year after the trigger: [get_all_holidays] loads
    the federal holidays of the trigger year and of the next year only.  A
    clause of 251 business days triggered on 31 December 2025 gets a deadline
    on 1 January 2027, a date of the federal table that was not loaded; over
    the project's holiday set that date is only 250 business days after the
    trigger, and the 251st business day is 4 January 2027. *)
Theorem business_day_deadline_lands_on_federal_holiday :
  let triggered_at := mkdatetime 2025 12 31 10 0 0 in
  exists db' deadline,
    create_deadline sample_cuid triggered_at long_notice_db "P" "clause-long"
      RFI "RFI #9 flagged as potential change order" triggered_at
      (Some "rfi-9") (Some "u1")
    = Ok (db', Some deadline)
    /\ deadlines db' = [deadline]
    /\ datetime_date (ComplianceDeadline.triggered_at deadline)
       = mkdate 2025 12 31
    /\ datetime_date (ComplianceDeadline.calculated_deadline deadline)
       = mkdate 2027 1 1
    /\ In (mkdate 2027 1 1) (get_federal_holidays 2027)
    /\ (mkdate 2027 1 1
        ∉ get_all_holidays (holidays long_notice_db) "P" (mkdate 2025 12 31))
    /\ count_business_days_between (mkdate 2025 12 31) (mkdate 2027 1 1)
         (get_all_holidays (holidays long_notice_db) "P" (mkdate 2025 12 31))
       = 251
    /\ count_business_days_between (mkdate 2025 12 31) (mkdate 2027 1 1)
         (project_holiday_set (holidays long_notice_db) "P")
       = 250
    /\ add_business_days (mkdate 2025 12 31) 251
         (project_holiday_set (holidays long_notice_db) "P")
       = mkdate 2027 1 4.
Proof.
  cbv zeta. eexists _, _. split; [vm_compute; reflexivity|].
  split; [reflexivity|].
  split; [vm_compute; reflexivity|].
  split; [vm_compute; reflexivity|].
  split; [vm_compute; auto|].
  split; [apply (bool_decide_eq_false_1 _); vm_compute; reflexivity|].
  split; [vm_compute; reflexivity|].
  split; vm_compute; reflexivity.
Qed.

Section DeadlineCreation.

Variable generate_cuid : nat -> string.

Lemma create_deadline_rejects now db project_id clause_id event_type description
    triggered_at event_id triggered_by clause :
  List.filter (clause_by_id_and_project clause_id project_id) (clauses db)
  = [clause] ->
  truthy (ContractClause.deadline_days clause) = false
  \/ ContractClause.deadline_type clause = None ->
  create_deadline generate_cuid now db project_id clause_id event_type
    description triggered_at event_id triggered_by = Ok (db, None).
Proof.
  intros Hrow H. unfold create_deadline.
  rewrite Hrow. cbn [scalar_one_or_none bind].
  destruct (ContractClause.deadline_days clause) as [days|] eqn:Hd;
    destruct (ContractClause.deadline_type clause) as [type|] eqn:Ht;
    try reflexivity.
  destruct H as [H|H]; [|discriminate]. rewrite H. reflexivity.
Qed.

(** C8 (amended). [add_business_days start n H] returns [start] unchanged for
    every [n <= 0], so for 0 and for every negative count alike.  Deadline
    creation is refused (no deadline, database untouched) exactly when the
    clause has no [deadlineDays], [deadlineDays = 0] or no [deadlineType]; a
    negative [deadlineDays] is not refused: the deadline is created, and for
    a BUSINESS_DAYS clause it falls on the trigger date. *)
Theorem add_business_days_nonpositive_and_creation_guard :
  (forall (start : date) (n : Z) (holidays : gset date),
      n <= 0 -> add_business_days start n holidays = start)
  /\ (forall now db project_id clause_id event_type description triggered_at
             event_id triggered_by clause,
         List.filter (clause_by_id_and_project clause_id project_id) (clauses db)
         = [clause] ->
         (truthy (ContractClause.deadline_days clause) = false
          \/ ContractClause.deadline_type clause = None ->
          create_deadline generate_cuid now db project_id clause_id event_type
            description triggered_at event_id triggered_by = Ok (db, None))
         /\ (forall k type,
                ContractClause.deadline_days clause = Some k ->
                ContractClause.deadline_type clause = Some type ->
                k < 0 ->
                exists db' deadline,
                  create_deadline generate_cuid now db project_id clause_id
                    event_type description triggered_at event_id triggered_by
                  = Ok (db', Some deadline)
                  /\ (type = BUSINESS_DAYS ->
                      ComplianceDeadline.calculated_deadline deadline
                      = end_of_day (datetime_date triggered_at)))).
Proof.
  assert (Hzero : forall start n holidays,
             n <= 0 -> add_business_days start n holidays = start).
  { intros start n holidays Hn.
    destruct (add_business_days_sound holidays start n) as [[_ H]|[H _]];
      [exact H|lia]. }
  split; [exact Hzero|].
  intros now db project_id clause_id event_type description triggered_at
    event_id triggered_by clause Hrow. split.
  - apply create_deadline_rejects. exact Hrow.
  - intros k type Hdays Htype Hk.
    destruct (create_deadline_creates generate_cuid now db project_id clause_id
                event_type description triggered_at event_id triggered_by
                clause k type Hrow Hdays Htype ltac:(lia))
      as (db' & deadline & Hc & _ & _ & _ & Hcalc).
    exists db', deadline. split; [exact Hc|].
    intros ->. rewrite Hcalc. cbn [calculate_deadline calculatedDeadline].
    rewrite Hzero by lia. reflexivity.
Qed.

End DeadlineCreation.

Lemma add_business_days_nonpositive_and_creation_guard_witness :
  -3 <= 0
  /\ add_business_days (mkdate 2025 7 1) (-3) {[ mkdate 2025 7 4 ]}
     = mkdate 2025 7 1.
Proof.
  split; [lia|].
  apply (proj1 (add_business_days_nonpositive_and_creation_guard sample_cuid)).
  lia.
Defined.

(** C8, counterexample.  A clause extracted with [deadlineDays = -3] is not
    rejected: [create_deadline] stores an ACTIVE deadline due at the end of
    the trigger day. *)
Lemma negative_deadline_days_not_rejected :
  exists db' deadline,
    create_deadline sample_cuid (mkdatetime 2025 7 1 9 0 0) negative_clause_db
      "P" "clause-neg" MANUAL "late change" (mkdatetime 2025 7 1 8 0 0) None
      (Some "u1")
    = Ok (db', Some deadline)
    /\ deadlines db' = [deadline]
    /\ ComplianceDeadline.status deadline = ACTIVE
    /\ ComplianceDeadline.calculated_deadline deadline
       = mkdatetime 2025 7 1 23 59 59.
Proof.
  eexists _, _. split; [vm_compute; reflexivity|].
  vm_compute. auto.
Qed.

(** * Trigger adapter *)

Section Triggers.

Variable generate_cuid : nat -> string.

(** The three ways [create_deadline] ends. *)
Lemma create_deadline_cases now db project_id clause_id event_type description
    triggered_at event_id triggered_by :
  let r := create_deadline generate_cuid now db project_id clause_id event_type
             description triggered_at event_id triggered_by in
  r = Raise MultipleResultsFound
  \/ r = Ok (db, None)
  \/ exists db' deadline audit,
       r = Ok (db', Some deadline)
       /\ deadlines db' = (deadlines db ++ [deadline])%list
       /\ audit_log db' = (audit_log db ++ [audit])%list
       /\ notices db' = notices db
       /\ clauses db' = clauses db
       /\ notifications db' = notifications db
       /\ ComplianceDeadline.project_id deadline = project_id
       /\ ComplianceDeadline.clause_id deadline = clause_id
       /\ ComplianceDeadline.trigger_event_type deadline = event_type
       /\ ComplianceDeadline.trigger_event_id deadline = event_id
       /\ ComplianceAuditLog.entity_id audit = ComplianceDeadline.id deadline
       /\ ComplianceAuditLog.entity_type audit = "ComplianceDeadline".
Proof.
  unfold create_deadline.
  destruct (List.filter _ (clauses db)) as [|clause [|clause' rest]];
    cbn [scalar_one_or_none bind]; auto.
  destruct (ContractClause.deadline_days clause) as [days|]; auto.
  destruct (ContractClause.deadline_type clause) as [type|]; auto.
  destruct (negb (truthy (Some days))); auto.
  right. right. eexists _, _, _. split; [reflexivity|]. simpl.
  repeat split; reflexivity.
Qed.

Section OneTuple.

Variables (project_id clause_id event_id : string).
Variable event_type : TriggerEventType.

Let blocked := blocked project_id clause_id event_id event_type.

Lemma blocked_filter db :
  blocked db ->
  List.filter (existing_deadline project_id clause_id event_id event_type)
    (deadlines db) <> [].
Proof.
  intros (d & Hin & Hd) Hnil.
  assert (In d (List.filter
                  (existing_deadline project_id clause_id event_id event_type)
                  (deadlines db))) as H by (apply filter_In; auto).
  rewrite Hnil in H. inversion H.
Qed.

(** While the tuple is blocked the loop leaves its deadlines alone and
    reports none for it. *)
Lemma trigger_loop_blocked now describe user_id todo :
  forall db created db' created',
    blocked db ->
    trigger_loop generate_cuid now project_id event_id event_type describe
      user_id todo db created = Ok (db', created') ->
    deadlines_of_trigger project_id clause_id event_id event_type db'
    = deadlines_of_trigger project_id clause_id event_id event_type db
    /\ exists new,
         created' = (created ++ new)%list
         /\ Forall (fun d => ComplianceDeadline.clause_id d <> clause_id) new.
Proof.
  induction todo as [|clause todo IH]; intros db created db' created' Hb H.
  - cbn in H. inversion H; subst. split; [reflexivity|].
    exists []. rewrite app_nil_r. auto.
  - cbn [trigger_loop] in H.
    destruct (decide (ContractClause.id clause = clause_id)) as [Heq|Hne].
    + rewrite Heq in H. pose proof (blocked_filter db Hb) as Hne.
      destruct (List.filter _ (deadlines db)) as [|d1 [|d2 rest]];
        [contradiction| |discriminate].
      cbn [scalar_one_or_none bind] in H. eauto.
    + destruct (scalar_one_or_none _) as [[found|]|e]; cbn [bind] in H;
        [eauto| |discriminate].
      pose proof (create_deadline_cases now db project_id
                    (ContractClause.id clause) event_type (describe clause)
                    now (Some event_id) user_id) as Hc.
      cbv zeta in Hc.
      destruct Hc as [Hc|[Hc|(db1 & dl & audit & Hc & Hd & _ & _ & _ & _
                              & _ & Hcl & _)]];
        rewrite Hc in H; cbn [bind] in H; [discriminate|eauto|].
      assert (Hb1 : blocked db1).
      { destruct Hb as (d & Hin & Hd'). exists d. split; [|exact Hd'].
        rewrite Hd. apply in_or_app. auto. }
      destruct (IH _ _ _ _ Hb1 H) as (Hsame & new & Hnew & Hall).
      split.
      * rewrite Hsame. unfold deadlines_of_trigger. rewrite Hd.
        rewrite List.filter_app. cbn [List.filter].
        replace (same_trigger project_id clause_id event_id event_type dl)
          with false; [apply app_nil_r|].
        symmetry. unfold same_trigger. rewrite Hcl.
        rewrite (bool_decide_eq_false_2 _ Hne).
        rewrite andb_false_r. reflexivity.
      * exists (dl :: new). split.
        -- rewrite Hnew, <- app_assoc. reflexivity.
        -- constructor; [rewrite Hcl; exact Hne|exact Hall].
Qed.

End OneTuple.

End Triggers.

Section TriggerClaims.

Variable generate_cuid : nat -> string.

(** A blocked tuple gets no new deadline from either trigger, whether the
    call returns or raises (and is rolled back). *)
Lemma process_trigger_blocked now db project_id ev user_id clause_id :
  blocked project_id clause_id (event_id_of ev) (event_type_of ev) db ->
  let r := process_trigger generate_cuid now db project_id ev user_id in
  deadlines_of_trigger project_id clause_id (event_id_of ev) (event_type_of ev)
    (committed db r)
  = deadlines_of_trigger project_id clause_id (event_id_of ev)
      (event_type_of ev) db
  /\ forall db' created,
       r = Ok (db', created) ->
       Forall (fun d => ComplianceDeadline.clause_id d <> clause_id) created.
Proof.
  intros Hb r.
  assert (Hloop : forall kinds describe,
             r = match matching_clauses kinds project_id db with
                 | [] => Ok (db, [])
                 | _ => trigger_loop generate_cuid now project_id
                          (event_id_of ev) (event_type_of ev) describe user_id
                          (matching_clauses kinds project_id db) db []
                 end ->
             deadlines_of_trigger project_id clause_id (event_id_of ev)
               (event_type_of ev) (committed db r)
             = deadlines_of_trigger project_id clause_id (event_id_of ev)
                 (event_type_of ev) db
             /\ forall db' created,
                  r = Ok (db', created) ->
                  Forall (fun d => ComplianceDeadline.clause_id d <> clause_id)
                    created).
  { intros kinds describe Hr.
    destruct (matching_clauses kinds project_id db) as [|c cs] eqn:Hm.
    - rewrite Hr. split; [reflexivity|]. intros db' created Heq.
      inversion Heq. constructor.
    - destruct r as [[db1 created1]|e] eqn:Er.
      + symmetry in Hr.
        destruct (trigger_loop_blocked generate_cuid project_id clause_id
                    (event_id_of ev) (event_type_of ev) now describe user_id
                    (c :: cs) db [] db1 created1 Hb Hr)
          as (Hsame & new & Hnew & Hall).
        split; [exact Hsame|]. intros db' created Heq.
        inversion Heq; subst. exact Hall.
      + split; [reflexivity|]. intros db' created Heq. discriminate. }
  destruct ev as [rfi_id rfi_number rfi_subject|change_id change_description];
    eapply Hloop; reflexivity.
Qed.

Lemma live_deadline_blocks project_id clause_id event_id event_type db d :
  In d (deadlines db) ->
  same_trigger project_id clause_id event_id event_type d = true ->
  member (ComplianceDeadline.status d) [EXPIRED; WAIVED] = false ->
  blocked project_id clause_id event_id event_type db.
Proof.
  intros Hin Hsame Hst. exists d. split; [exact Hin|].
  unfold existing_deadline. rewrite Hsame, Hst. reflexivity.
Qed.

(** C3. When a deadline of the tuple (projectId, clauseId, triggerEventId,
    triggerEventType) exists whose status is not terminal, processing the
    trigger again (an RFI flagged as change order, or a change event) creates
    no deadline for that tuple: the tuple's deadlines in the database the
    request leaves behind are the ones it found, and none of the deadlines
    the call reports belongs to the tuple. *)
Theorem trigger_idempotent_on_live_tuple now db project_id ev user_id clause_id d :
  In d (deadlines db) ->
  same_trigger project_id clause_id (event_id_of ev) (event_type_of ev) d = true ->
  is_terminal (ComplianceDeadline.status d) = false ->
  let r := process_trigger generate_cuid now db project_id ev user_id in
  deadlines_of_trigger project_id clause_id (event_id_of ev) (event_type_of ev)
    (committed db r)
  = deadlines_of_trigger project_id clause_id (event_id_of ev)
      (event_type_of ev) db
  /\ forall db' created,
       r = Ok (db', created) ->
       Forall
         (fun d' =>
            same_trigger project_id clause_id (event_id_of ev)
              (event_type_of ev) d' = false)
         created.
Proof.
  intros Hin Hsame Hterm r.
  assert (Hb : blocked project_id clause_id (event_id_of ev) (event_type_of ev) db).
  { apply (live_deadline_blocks _ _ _ _ _ d Hin Hsame).
    destruct (ComplianceDeadline.status d); try reflexivity; discriminate. }
  destruct (process_trigger_blocked now db project_id ev user_id clause_id Hb)
    as [Hsame' Hcreated].
  split; [exact Hsame'|]. intros db' created Hr.
  specialize (Hcreated db' created Hr).
  eapply List.Forall_impl; [|exact Hcreated]. cbv beta. intros d' Hne.
  unfold same_trigger. rewrite (bool_decide_eq_false_2 _ Hne).
  rewrite andb_false_r. reflexivity.
Qed.

(** C10. A COMPLETED deadline of the tuple blocks the trigger like a live
    one: no deadline is created for the tuple.  And whenever a repeated
    trigger does create a deadline for a tuple, every deadline the tuple had
    before is EXPIRED or WAIVED. *)
Theorem trigger_recreates_only_after_expiry_or_waiver now db project_id ev
    user_id clause_id :
  let r := process_trigger generate_cuid now db project_id ev user_id in
  let same := same_trigger project_id clause_id (event_id_of ev) (event_type_of ev) in
  (forall d,
      In d (deadlines db) -> same d = true ->
      ComplianceDeadline.status d = COMPLETED ->
      deadlines_of_trigger project_id clause_id (event_id_of ev)
        (event_type_of ev) (committed db r)
      = deadlines_of_trigger project_id clause_id (event_id_of ev)
          (event_type_of ev) db
      /\ forall db' created,
           r = Ok (db', created) -> Forall (fun d' => same d' = false) created)
  /\ (forall db' created d',
         r = Ok (db', created) -> In d' created -> same d' = true ->
         forall d,
           In d (deadlines db) -> same d = true ->
           ComplianceDeadline.status d = EXPIRED
           \/ ComplianceDeadline.status d = WAIVED).
Proof.
  intros r same.
  assert (Hnone : forall d,
             In d (deadlines db) -> same d = true ->
             member (ComplianceDeadline.status d) [EXPIRED; WAIVED] = false ->
             deadlines_of_trigger project_id clause_id (event_id_of ev)
               (event_type_of ev) (committed db r)
             = deadlines_of_trigger project_id clause_id (event_id_of ev)
                 (event_type_of ev) db
             /\ forall db' created,
                  r = Ok (db', created) ->
                  Forall (fun d' => same d' = false) created).
  { intros d Hin Hsame Hst.
    pose proof (live_deadline_blocks _ _ _ _ _ d Hin Hsame Hst) as Hb.
    destruct (process_trigger_blocked now db project_id ev user_id clause_id Hb)
      as [Hsame' Hcreated].
    split; [exact Hsame'|]. intros db' created Hr.
    specialize (Hcreated db' created Hr).
    eapply List.Forall_impl; [|exact Hcreated]. cbv beta. intros d' Hne.
    unfold same, same_trigger. rewrite (bool_decide_eq_false_2 _ Hne).
    rewrite andb_false_r. reflexivity. }
  split.
  - intros d Hin Hsame Hst. apply (Hnone d Hin Hsame). rewrite Hst. reflexivity.
  - intros db' created d' Hr Hin' Hsame' d Hin Hsame.
    destruct (ComplianceDeadline.status d) eqn:Hst; auto; exfalso;
      (assert (Hm : member (ComplianceDeadline.status d) [EXPIRED; WAIVED] = false)
         by (rewrite Hst; reflexivity));
      destruct (Hnone d Hin Hsame Hm) as [_ Hall];
      specialize (Hall db' created Hr);
      rewrite List.Forall_forall in Hall; specialize (Hall d' Hin');
      congruence.
Qed.

End TriggerClaims.

Example rfi_flagged_twice :
  let first := process_trigger sample_cuid (mkdatetime 2025 3 10 12 0 0)
                 two_clause_db "P" rfi_1 (Some "u1") in
  let second := process_trigger sample_cuid (mkdatetime 2025 3 10 12 0 1)
                  (committed two_clause_db first) "P" rfi_1 (Some "u1") in
  (exists db' created, first = Ok (db', created) /\ length created = 2%nat)
  /\ second = Ok (committed two_clause_db first, [])
  /\ In flagged_deadline (deadlines flagged_once_db).
Proof.
  split; [eexists _, _; split; vm_compute; reflexivity|].
  split; [vm_compute; reflexivity|]. vm_compute. auto.
Qed.

Lemma trigger_idempotent_on_live_tuple_witness :
  let r := process_trigger sample_cuid (mkdatetime 2025 3 10 12 0 1)
             flagged_once_db "P" rfi_1 (Some "u1") in
  deadlines_of_trigger "P" "clause-1" "rfi-1" RFI (committed flagged_once_db r)
  = deadlines_of_trigger "P" "clause-1" "rfi-1" RFI flagged_once_db.
Proof.
  refine (proj1 (trigger_idempotent_on_live_tuple sample_cuid
                   (mkdatetime 2025 3 10 12 0 1) flagged_once_db "P" rfi_1
                   (Some "u1") "clause-1" flagged_deadline _ _ _)).
  - vm_compute. auto.
  - vm_compute. reflexivity.
  - vm_compute. reflexivity.
Defined.

(** After the first deadline was waived the same RFI creates a new one for
    the clause; after it was completed it does not. *)
Example rfi_flagged_after_waiver :
  length (deadlines_of_trigger "P" "clause-1" "rfi-1" RFI waived_db) = 1%nat
  /\ length
       (deadlines_of_trigger "P" "clause-1" "rfi-1" RFI
          (committed waived_db
             (process_trigger sample_cuid (mkdatetime 2025 3 12 12 0 0)
                waived_db "P" rfi_1 (Some "u1")))) = 2%nat
  /\ length
       (deadlines_of_trigger "P" "clause-1" "rfi-1" RFI
          (committed completed_db
             (process_trigger sample_cuid (mkdatetime 2025 3 12 12 0 0)
                completed_db "P" rfi_1 (Some "u1")))) = 1%nat.
Proof. vm_compute. auto. Qed.

Lemma trigger_recreates_only_after_expiry_or_waiver_witness :
  let r := process_trigger sample_cuid (mkdatetime 2025 3 12 12 0 0)
             completed_db "P" rfi_1 (Some "u1") in
  deadlines_of_trigger "P" "clause-1" "rfi-1" RFI (committed completed_db r)
  = deadlines_of_trigger "P" "clause-1" "rfi-1" RFI completed_db.
Proof.
  refine (proj1 (proj1 (trigger_recreates_only_after_expiry_or_waiver
                          sample_cuid (mkdatetime 2025 3 12 12 0 0)
                          completed_db "P" rfi_1 (Some "u1") "clause-1")
                   (ComplianceDeadline.set_status COMPLETED flagged_deadline)
                   _ _ _)).
  - vm_compute. auto.
  - vm_compute. reflexivity.
  - reflexivity.
Defined.

(** * Deadline engine and notice engine *)

Lemma update_where_In {A} (p : A -> bool) (f : A -> A) rows r :
  In r rows -> p r = true -> In (f r) (update_where p f rows).
Proof.
  intros Hin Hp. unfold update_where.
  apply in_map_iff. exists r. rewrite Hp. auto.
Qed.

Lemma filter_singleton_In {A} (p : A -> bool) rows r :
  List.filter p rows = [r] -> In r rows /\ p r = true.
Proof.
  intros H. apply filter_In. rewrite H. left. reflexivity.
Qed.

Lemma filter_nil_not_In {A} (p : A -> bool) rows r :
  List.filter p rows = [] -> In r rows -> p r = true -> False.
Proof.
  intros H Hin Hp.
  assert (In r (List.filter p rows)) as Hf by (apply filter_In; auto).
  rewrite H in Hf. inversion Hf.
Qed.

Lemma notice_by_id_and_project_true notice_id project_id n :
  notice_by_id_and_project notice_id project_id n = true ->
  ComplianceNotice.id n = notice_id /\ ComplianceNotice.project_id n = project_id.
Proof.
  unfold notice_by_id_and_project. intros H.
  apply andb_true_iff in H as [H1 H2].
  apply bool_decide_eq_true in H1, H2. auto.
Qed.

(** What [send_notice] does to the deadlines.  A successful send cascades to
    the deadline that carries the notice's id (in the notice's project) when
    the notice has a clause id: that deadline is then NOTICE_SENT.  When the
    notice has no clause id the send still succeeds and the deadlines are
    left as they were. *)
Theorem send_notice_cascades_when_clause_set now sent db notice_id project_id
    user_id db' notice' d :
  send_notice now sent db notice_id project_id user_id = Ok (db', Some notice') ->
  In d (deadlines db) ->
  ComplianceDeadline.notice_id d = Some notice_id ->
  ComplianceDeadline.project_id d = project_id ->
  ComplianceNotice.status notice' = SENT
  /\ (nonempty (ComplianceNotice.clause_id notice') = true ->
      In (ComplianceDeadline.set_status NOTICE_SENT d) (deadlines db'))
  /\ (nonempty (ComplianceNotice.clause_id notice') = false ->
      deadlines db' = deadlines db).
Proof.
  intros H Hin Hnid Hpid. unfold send_notice, get_notice_by_id in H.
  destruct (List.filter _ (notices db)) as [|n [|n2 rest]] eqn:Hf;
    cbn [scalar_one_or_none bind] in H; try discriminate.
  destruct (filter_singleton_In _ _ _ Hf) as [_ Hn].
  apply notice_by_id_and_project_true in Hn as [Hid _].
  destruct (negb (editable n)); [discriminate|].
  destruct (negb (nonempty (ComplianceNotice.recipient_email n)));
    [discriminate|].
  cbn [ComplianceNotice.clause_id ComplianceNotice.id
         ComplianceNotice.set_on_time_status
         ComplianceNotice.set_delivery_methods
         ComplianceNotice.set_delivered_at ComplianceNotice.set_sent_at
         ComplianceNotice.set_status] in H.
  assert (Hlinked : linked_to (ComplianceNotice.id n) project_id d = true).
  { unfold linked_to. rewrite Hid, Hnid, Hpid.
    rewrite !bool_decide_eq_true_2 by reflexivity. reflexivity. }
  destruct (nonempty (ComplianceNotice.clause_id n)) eqn:Hclause.
  - cbn [deadlines with_notices] in H.
    destruct (List.filter _ (deadlines db)) as [|d1 [|d2 rest]] eqn:Hd;
      cbn [scalar_one_or_none bind] in H; try discriminate.
    + exfalso. exact (filter_nil_not_In _ _ _ Hd Hin Hlinked).
    + inversion H; subst. cbn. rewrite Hclause. split; [reflexivity|].
      split; [|discriminate]. intros _.
      apply update_where_In; assumption.
  - cbn [bind] in H. inversion H; subst. cbn. rewrite Hclause.
    split; [reflexivity|]. split; [discriminate|]. reflexivity.
Qed.

(** C7 (amended). Waiving a deadline that is already WAIVED succeeds again:
    status stays WAIVED and severity becomes LOW, [waivedAt], [waivedBy] and
    [waiverReason] are overwritten with the values of the new call, and one
    more DEADLINE_WAIVED audit entry is appended. *)
Theorem waive_deadline_again_overwrites now db deadline_id project_id user_id
    reason d :
  List.filter (by_id_and_project deadline_id project_id) (deadlines db) = [d] ->
  ComplianceDeadline.status d = WAIVED ->
  let d' :=
    ComplianceDeadline.set_severity SevLOW
      (ComplianceDeadline.set_waiver (Some now) (Some user_id) (Some reason) d) in
  exists db',
    waive_deadline now db deadline_id project_id user_id reason
    = Ok (db', Some d')
    /\ deadlines db'
       = update_where (by_id_and_project deadline_id project_id)
           (fun r =>
              ComplianceDeadline.set_severity SevLOW
                (ComplianceDeadline.set_waiver (Some now) (Some user_id)
                   (Some reason) (ComplianceDeadline.set_status WAIVED r)))
           (deadlines db)
    /\ In d' (deadlines db')
    /\ ComplianceDeadline.status d' = WAIVED
    /\ audit_log db'
       = (audit_log db
          ++ [ComplianceAuditLog.mk project_id "DEADLINE_WAIVED"
                "ComplianceDeadline" deadline_id (Some user_id) "USER"
                "waive_deadline" [("reason", DStr reason)]])%list.
Proof.
  intros Hrow Hst d'. unfold waive_deadline, get_deadline_by_id.
  rewrite Hrow. cbn [scalar_one_or_none bind].
  assert (Hd' : ComplianceDeadline.set_severity SevLOW
                  (ComplianceDeadline.set_waiver (Some now) (Some user_id)
                     (Some reason) (ComplianceDeadline.set_status WAIVED d))
                = d').
  { unfold d'. destruct d. cbn in Hst. subst. reflexivity. }
  rewrite Hd'. eexists. split; [reflexivity|]. cbn.
  split; [reflexivity|]. split.
  - rewrite <- Hd'. destruct (filter_singleton_In _ _ _ Hrow) as [Hin Hp].
    exact (update_where_In _
             (fun r =>
                ComplianceDeadline.set_severity SevLOW
                  (ComplianceDeadline.set_waiver (Some now) (Some user_id)
                     (Some reason) (ComplianceDeadline.set_status WAIVED r)))
             _ d Hin Hp).
  - split; [|reflexivity]. unfold d'. cbn. exact Hst.
Qed.

Lemma send_notice_cascades_when_clause_set_witness :
  In (ComplianceDeadline.set_status NOTICE_SENT drafted_deadline)
    (deadlines
       (committed (draft_for_deadline (Some "clause-1"))
          (send_notice (mkdatetime 2025 3 19 10 0 0) true
             (draft_for_deadline (Some "clause-1")) "cuid2" "P" "u1"))).
Proof.
  assert (exists db' n',
             send_notice (mkdatetime 2025 3 19 10 0 0) true
               (draft_for_deadline (Some "clause-1")) "cuid2" "P" "u1"
             = Ok (db', Some n')
             /\ nonempty (ComplianceNotice.clause_id n') = true)
    as (db' & n' & Hs & Hc).
  { eexists _, _. split; vm_compute; reflexivity. }
  rewrite Hs. cbn [committed].
  refine (proj1 (proj2 (send_notice_cascades_when_clause_set _ _ _ _ _ _ _ _
                          drafted_deadline Hs _ _ _)) Hc).
  - vm_compute. auto.
  - reflexivity.
  - reflexivity.
Defined.

(** C6. The cascade is missed when the notice has no clause id: the update
    of the linked deadline sits inside [if notice.clause_id:], although the
    deadline is found by the notice's id alone and [create_notice] and
    [delete_notice] handle the same link whatever the clause.  A notice
    drafted for deadline "cuid0" without a clause id is sent successfully,
    and the deadline that carries its id stays NOTICE_DRAFTED. *)
Lemma send_without_clause_leaves_deadline_drafted :
  exists db' notice',
    send_notice (mkdatetime 2025 3 19 10 0 0) true (draft_for_deadline None)
      "cuid2" "P" "u1" = Ok (db', Some notice')
    /\ ComplianceNotice.status notice' = SENT
    /\ In drafted_deadline (deadlines (draft_for_deadline None))
    /\ ComplianceDeadline.notice_id drafted_deadline
       = Some (ComplianceNotice.id notice')
    /\ List.filter (linked_to "cuid2" "P") (deadlines db') = [drafted_deadline]
    /\ ComplianceDeadline.status drafted_deadline = NOTICE_DRAFTED.
Proof.
  eexists _, _. split; [vm_compute; reflexivity|].
  vm_compute. repeat split; auto.
Qed.

Lemma waive_deadline_again_overwrites_witness :
  exists db',
    waive_deadline (mkdatetime 2025 3 12 9 0 0) waived_db "cuid0" "P" "u2"
      "duplicate"
    = Ok (db',
          Some (ComplianceDeadline.set_severity SevLOW
                  (ComplianceDeadline.set_waiver
                     (Some (mkdatetime 2025 3 12 9 0 0)) (Some "u2")
                     (Some "duplicate") waived_deadline))).
Proof.
  destruct (waive_deadline_again_overwrites (mkdatetime 2025 3 12 9 0 0)
              waived_db "cuid0" "P" "u2" "duplicate" waived_deadline)
    as (db' & H & _).
  - vm_compute. reflexivity.
  - reflexivity.
  - exists db'. exact H.
Defined.

(** C7, counterexample.  Waiving the already waived deadline again returns a
    different row (new [waivedAt], [waivedBy], [waiverReason]) and leaves one
    more audit entry behind. *)
Lemma waive_again_changes_row_and_audits :
  exists db' d',
    List.filter (by_id_and_project "cuid0" "P") (deadlines waived_db)
    = [waived_deadline]
    /\ ComplianceDeadline.status waived_deadline = WAIVED
    /\ waive_deadline (mkdatetime 2025 3 12 9 0 0) waived_db "cuid0" "P" "u2"
         "duplicate" = Ok (db', Some d')
    /\ d' <> waived_deadline
    /\ ComplianceDeadline.waived_by waived_deadline = Some "u1"
    /\ ComplianceDeadline.waived_by d' = Some "u2"
    /\ ComplianceDeadline.waiver_reason d' = Some "duplicate"
    /\ ComplianceDeadline.waived_at d' = Some (mkdatetime 2025 3 12 9 0 0)
    /\ length (audit_log db') = S (length (audit_log waived_db)).
Proof.
  eexists _, _. split; [vm_compute; reflexivity|].
  split; [reflexivity|]. split; [vm_compute; reflexivity|].
  split; [vm_compute; discriminate|]. vm_compute. repeat split; reflexivity.
Qed.

(** * Scheduler: the hourly severity pass *)

Section SeverityPass.

Variable now : datetime.

Lemma member_In {A} `{EqDecision A} (x : A) l : member x l = true <-> In x l.
Proof.
  unfold member. rewrite existsb_exists. split.
  - intros (y & Hy & Heq). apply bool_decide_eq_true in Heq. subst. exact Hy.
  - intros Hin. exists x. split; [exact Hin|]. apply bool_decide_eq_true_2.
    reflexivity.
Qed.

Lemma member_cons {A} `{EqDecision A} (x y : A) l :
  member x (y :: l) = bool_decide (x = y) || member x l.
Proof. reflexivity. Qed.

Lemma cron_update_project_id d :
  ComplianceDeadline.project_id (cron_update now d)
  = ComplianceDeadline.project_id d.
Proof.
  unfold cron_update. repeat case_bool_decide; reflexivity.
Qed.

Lemma cron_severity_cron_update d :
  cron_severity now (cron_update now d) = cron_severity now d.
Proof.
  unfold cron_update. repeat case_bool_decide; reflexivity.
Qed.

Lemma cron_row_project_id d :
  ComplianceDeadline.project_id (cron_row now d)
  = ComplianceDeadline.project_id d.
Proof.
  unfold cron_row. destruct (is_active d); [apply cron_update_project_id|reflexivity].
Qed.

(** After the pass a row still selected carries the severity the pass
    computes for it. *)
Lemma cron_update_settles d :
  is_active (cron_update now d) = true ->
  ComplianceDeadline.severity (cron_update now d) = cron_severity now d.
Proof.
  unfold cron_update. case_bool_decide as Hne.
  - case_bool_decide; intros Hact; [discriminate Hact|reflexivity].
  - intros _. destruct (decide (ComplianceDeadline.severity d = cron_severity now d));
      [assumption|contradiction].
Qed.

Lemma cron_update_fixed d :
  ComplianceDeadline.severity d = cron_severity now d ->
  cron_update now d = d.
Proof.
  intros H. unfold cron_update. rewrite bool_decide_eq_false_2; [reflexivity|].
  intros Hne. apply Hne. exact H.
Qed.

(** The pass is a fixed point on rows. *)
Lemma cron_row_idempotent d : cron_row now (cron_row now d) = cron_row now d.
Proof.
  unfold cron_row. destruct (is_active d) eqn:Hact; [|rewrite Hact; reflexivity].
  destruct (is_active (cron_update now d)) eqn:Hact'; [|reflexivity].
  apply cron_update_fixed. rewrite cron_severity_cron_update.
  apply cron_update_settles. exact Hact'.
Qed.

Lemma cron_row_stable d :
  cron_row now d = d -> is_active d = true ->
  ComplianceDeadline.severity d = cron_severity now d.
Proof.
  unfold cron_row. intros H Hact. rewrite Hact in H.
  rewrite <- H at 1. rewrite <- (cron_severity_cron_update d).
  rewrite H. rewrite <- H at 1. apply cron_update_settles.
  rewrite H. exact Hact.
Qed.

Lemma cron_project_deadlines st pid :
  deadlines (fst (cron_project now st pid))
  = map (fun d =>
           if bool_decide (ComplianceDeadline.project_id d = pid)
           then cron_row now d else d)
      (deadlines (fst st)).
Proof.
  destruct st as [db totals]. cbn. unfold update_where.
  apply map_ext. intros d. unfold cron_selected, cron_row.
  case_bool_decide; cbn [andb]; reflexivity.
Qed.

Lemma cron_project_frame st pid :
  audit_log (fst (cron_project now st pid)) = audit_log (fst st)
  /\ notices (fst (cron_project now st pid)) = notices (fst st)
  /\ clauses (fst (cron_project now st pid)) = clauses (fst st)
  /\ users (fst (cron_project now st pid)) = users (fst st)
  /\ scores (fst (cron_project now st pid)) = scores (fst st)
  /\ holidays (fst (cron_project now st pid)) = holidays (fst st)
  /\ next_cuid (fst (cron_project now st pid)) = next_cuid (fst st).
Proof. destruct st as [db totals]. cbn. repeat split; reflexivity. Qed.

Lemma cron_fold_frame pids : forall st,
  let st' := fold_left (cron_project now) pids st in
  audit_log (fst st') = audit_log (fst st)
  /\ notices (fst st') = notices (fst st)
  /\ clauses (fst st') = clauses (fst st)
  /\ users (fst st') = users (fst st)
  /\ scores (fst st') = scores (fst st)
  /\ holidays (fst st') = holidays (fst st)
  /\ next_cuid (fst st') = next_cuid (fst st).
Proof.
  induction pids as [|pid pids IH]; intros st; cbn [fold_left].
  - cbv zeta. repeat split; reflexivity.
  - specialize (IH (cron_project now st pid)). cbv zeta in *.
    destruct (cron_project_frame st pid) as (H1 & H2 & H3 & H4 & H5 & H6 & H7).
    destruct IH as (I1 & I2 & I3 & I4 & I5 & I6 & I7).
    rewrite I1, I2, I3, I4, I5, I6, I7. auto 10.
Qed.

Lemma cron_fold_deadlines pids : forall st,
  deadlines (fst (fold_left (cron_project now) pids st))
  = map (fun d =>
           if member (ComplianceDeadline.project_id d) pids
           then cron_row now d else d)
      (deadlines (fst st)).
Proof.
  induction pids as [|pid pids IH]; intros st; cbn [fold_left].
  - cbn. symmetry. apply map_id.
  - rewrite IH, cron_project_deadlines, map_map. apply map_ext. intros d.
    rewrite member_cons. case_bool_decide as Hpid.
    + rewrite cron_row_project_id, cron_row_idempotent. cbn [orb].
      destruct (member _ pids); reflexivity.
    + cbn [orb]. reflexivity.
Qed.

(** One pass rewrites every row with [cron_row]. *)
Lemma run_severity_cron_deadlines db :
  deadlines (fst (_run_severity_cron now db))
  = map (cron_row now) (deadlines db).
Proof.
  unfold _run_severity_cron. rewrite cron_fold_deadlines. cbn [fst].
  apply map_ext_in. intros d Hin.
  destruct (member _ (cron_projects db)) eqn:Hm; [reflexivity|].
  unfold cron_row. destruct (is_active d) eqn:Hact; [|reflexivity].
  exfalso. apply not_true_iff_false in Hm. apply Hm. apply member_In.
  unfold cron_projects. apply list_elem_of_In, elem_of_remove_dups,
    list_elem_of_In.
  apply in_map. apply filter_In. auto.
Qed.

Lemma cron_alerts_ext db db' d :
  clauses db = clauses db' -> users db = users db' ->
  cron_alerts now db d = cron_alerts now db' d.
Proof.
  intros Hc Hu. unfold cron_alerts, clause_of. rewrite Hc, Hu. reflexivity.
Qed.

Lemma cron_alerts_length db d :
  length (cron_alerts now db d)
  = if alerting (cron_severity now d)
    then length (List.filter eligible (users db)) else 0%nat.
Proof.
  unfold cron_alerts. destruct (alerting (cron_severity now d)); [|reflexivity].
  apply length_map.
Qed.

Lemma settled_selected db pid d :
  settled now db -> In d (deadlines db) -> cron_selected pid d = true ->
  cron_update now d = d
  /\ ComplianceDeadline.severity d = cron_severity now d.
Proof.
  intros Hs Hin Hsel. unfold cron_selected in Hsel.
  apply andb_true_iff in Hsel as [_ Hact].
  pose proof (Hs d Hin) as Hrow. split.
  - unfold cron_row in Hrow. rewrite Hact in Hrow. exact Hrow.
  - apply cron_row_stable; assumption.
Qed.

Lemma settled_update_where db pid :
  settled now db ->
  update_where (cron_selected pid) (cron_update now) (deadlines db)
  = deadlines db.
Proof.
  intros Hs. unfold update_where.
  rewrite <- (map_id (deadlines db)) at 2. apply map_ext_in. intros d Hin.
  destruct (cron_selected pid d) eqn:Hsel; [|reflexivity].
  apply (settled_selected db pid d Hs Hin Hsel).
Qed.

(** On settled rows the counters of changes stand still and the alerts are
    those of the rows whose stored severity alerts. *)
Lemma cron_count_settled db rows : forall totals,
  (forall d, In d rows ->
             ComplianceDeadline.severity d = cron_severity now d) ->
  let totals' := fold_left (cron_count now db) rows totals in
  updated totals' = updated totals
  /\ expired_total totals' = expired_total totals
  /\ alertsSent totals'
     = alertsSent totals
       + Z.of_nat (length (flat_map (cron_alerts now db) rows))
  /\ length (flat_map (cron_alerts now db) rows)
     = (length (List.filter eligible (users db))
        * length (List.filter
                    (fun d => alerting (ComplianceDeadline.severity d)) rows))%nat.
Proof.
  induction rows as [|d rows IH]; intros totals Hrows; cbn [fold_left flat_map].
  - cbv zeta. cbn. repeat split; lia.
  - assert (Hd : ComplianceDeadline.severity d = cron_severity now d)
      by (apply Hrows; left; reflexivity).
    assert (Hrest : forall d', In d' rows ->
                    ComplianceDeadline.severity d' = cron_severity now d')
      by (intros d' Hin; apply Hrows; right; exact Hin).
    specialize (IH (cron_count now db totals d) Hrest). cbv zeta in *.
    destruct IH as (I1 & I2 & I3 & I4).
    rewrite I1, I2, I3, length_app, I4, cron_alerts_length.
    cbn [List.filter]. rewrite Hd.
    unfold cron_count; cbn [updated expired_total alertsSent].
    rewrite (bool_decide_eq_false_2 (ComplianceDeadline.severity d
                                     <> cron_severity now d))
      by (intros Hne; apply Hne; exact Hd).
    cbn [andb]. rewrite cron_alerts_length.
    destruct (alerting (cron_severity now d)); cbn [length];
      repeat split; lia.
Qed.

Lemma filter_filter_andb {A} (p q : A -> bool) l :
  List.filter q (List.filter p l) = List.filter (fun x => p x && q x) l.
Proof.
  induction l as [|x l IH]; [reflexivity|]. cbn [List.filter].
  destruct (p x); cbn [List.filter andb]; rewrite IH; reflexivity.
Qed.

Lemma with_notifications_settled db new :
  with_notifications new (with_deadlines (deadlines db) db)
  = with_notifications new db.
Proof. destruct db; reflexivity. Qed.

Lemma with_notifications_twice db new new' :
  with_notifications new' (with_notifications new db)
  = with_notifications new' db.
Proof. destruct db; reflexivity. Qed.

(** A pass over settled rows only appends notifications. *)
Lemma cron_fold_settled pids : forall st,
  settled now (fst st) ->
  let st' := fold_left (cron_project now) pids st in
  exists new,
    fst st' = with_notifications (notifications (fst st) ++ new) (fst st)
    /\ updated (snd st') = updated (snd st)
    /\ expired_total (snd st') = expired_total (snd st)
    /\ alertsSent (snd st') = alertsSent (snd st) + Z.of_nat (length new)
    /\ length new
       = (length (List.filter eligible (users (fst st)))
          * length (realerted pids (deadlines (fst st))))%nat.
Proof.
  induction pids as [|pid pids IH]; intros [db totals] Hs; cbn [fold_left fst snd].
  - cbv zeta. exists []. cbn [fst snd length realerted flat_map].
    rewrite app_nil_r. split; [destruct db; reflexivity|]. repeat split; lia.
  - cbn [fst] in Hs. cbn [cron_project].
    rewrite (settled_update_where db pid Hs), with_notifications_settled.
    set (rows := List.filter (cron_selected pid) (deadlines db)).
    assert (Hrows : forall d, In d rows ->
                    ComplianceDeadline.severity d = cron_severity now d).
    { intros d Hin. apply filter_In in Hin as [Hin Hsel].
      apply (settled_selected db pid d Hs Hin Hsel). }
    destruct (cron_count_settled db rows totals Hrows) as (C1 & C2 & C3 & C4).
    set (db1 := with_notifications
                  (notifications db ++ flat_map (cron_alerts now db) rows) db).
    assert (Hs1 : settled now db1) by (destruct db; exact Hs).
    specialize (IH (db1, fold_left (cron_count now db) rows totals) Hs1).
    cbv zeta in IH. cbn [fst snd] in IH.
    destruct IH as (new & I1 & I2 & I3 & I4 & I5). cbv zeta.
    exists (flat_map (cron_alerts now db) rows ++ new)%list.
    rewrite I1, I2, I3, I4, C1, C2, C3, length_app, I5, C4.
    unfold db1. rewrite with_notifications_twice.
    split; [destruct db; cbn; rewrite app_assoc; reflexivity|].
    split; [reflexivity|]. split; [reflexivity|]. split; [lia|].
    destruct db; cbn [users deadlines with_notifications realerted flat_map].
    rewrite length_app. unfold rows. rewrite filter_filter_andb.
    cbn [deadlines]. unfold realerted. lia.
Qed.

Lemma filter_split_length {A} (p q r : A -> bool) l :
  (forall x, r x = p x || q x) -> (forall x, p x && q x = false) ->
  (length (List.filter p l) + length (List.filter q l))%nat
  = length (List.filter r l).
Proof.
  intros Hr Hpq. induction l as [|x l IH]; [reflexivity|].
  cbn [List.filter]. rewrite Hr. specialize (Hpq x).
  destruct (p x), (q x); cbn [orb length] in *; try discriminate; lia.
Qed.

Lemma realerted_length pids rows :
  NoDup pids ->
  length (realerted pids rows)
  = length (List.filter
              (fun d => member (ComplianceDeadline.project_id d) pids
                        && still_alerting d)
              rows).
Proof.
  unfold realerted. induction 1 as [|pid pids Hnotin Hnodup IH];
    cbn [flat_map].
  - induction rows as [|d rows IHr]; [reflexivity|exact IHr].
  - rewrite length_app, IH. apply filter_split_length; intros d.
    + rewrite member_cons. unfold cron_selected, still_alerting.
      case_bool_decide as Hpid; cbn [andb orb].
      * replace (member (ComplianceDeadline.project_id d) pids) with false;
          [cbn [andb]; rewrite orb_false_r; reflexivity|].
        symmetry. apply not_true_iff_false. intros Hm.
        apply member_In in Hm. rewrite Hpid in Hm.
        apply Hnotin. apply list_elem_of_In. exact Hm.
      * reflexivity.
    + unfold cron_selected. case_bool_decide as Hpid; [|reflexivity].
      replace (member (ComplianceDeadline.project_id d) pids) with false;
        [cbn [andb]; apply andb_false_r|].
      symmetry. apply not_true_iff_false. intros Hm.
      apply member_In in Hm. rewrite Hpid in Hm.
      apply Hnotin. apply list_elem_of_In. exact Hm.
Qed.

Lemma realerted_all db :
  length (realerted (cron_projects db) (deadlines db))
  = length (List.filter still_alerting (deadlines db)).
Proof.
  rewrite realerted_length by apply NoDup_remove_dups.
  f_equal. apply filter_ext_in. intros d Hin.
  unfold still_alerting. destruct (is_active d) eqn:Hact;
    [|cbn [andb]; apply andb_false_r].
  replace (member (ComplianceDeadline.project_id d) (cron_projects db))
    with true; [reflexivity|].
  symmetry. apply member_In. unfold cron_projects.
  apply list_elem_of_In, elem_of_remove_dups, list_elem_of_In.
  apply in_map. apply filter_In. auto.
Qed.

Lemma run_severity_cron_settled db :
  settled now (fst (_run_severity_cron now db)).
Proof.
  intros d Hin. rewrite run_severity_cron_deadlines in Hin.
  apply in_map_iff in Hin as (d0 & <- & _). apply cron_row_idempotent.
Qed.

End SeverityPass.

(** C5 (amended). Running the hourly severity pass a second time at the same
    instant changes no deadline and writes no audit entry (the pass never
    writes one), and its counters of updated and expired deadlines are 0.  It
    is not a no-op on notifications: the second run appends one notification
    per eligible user (admin, project manager, executive) for every deadline
    that is still ACTIVE or NOTICE_DRAFTED with severity CRITICAL, WARNING or
    EXPIRED, and nothing else. *)
Theorem severity_pass_replay_keeps_deadlines (now : datetime) (db : DB) :
  let first := _run_severity_cron now db in
  let second := _run_severity_cron now (fst first) in
  deadlines (fst second) = deadlines (fst first)
  /\ audit_log (fst second) = audit_log (fst first)
  /\ audit_log (fst first) = audit_log db
  /\ notices (fst second) = notices (fst first)
  /\ scores (fst second) = scores (fst first)
  /\ updated (snd second) = 0
  /\ expired_total (snd second) = 0
  /\ exists new,
       notifications (fst second) = (notifications (fst first) ++ new)%list
       /\ alertsSent (snd second) = Z.of_nat (length new)
       /\ length new
          = (length (List.filter eligible (users db))
             * length (List.filter still_alerting (deadlines (fst first))))%nat.
Proof.
  intros first second.
  pose proof (run_severity_cron_settled now db) as Hs. fold first in Hs.
  pose proof (cron_fold_settled now (cron_projects (fst first))
                (fst first,
                 {| updated := 0; expired_total := 0; alertsSent := 0 |}) Hs)
    as Hfold.
  cbv zeta in Hfold. fold (_run_severity_cron now (fst first)) in Hfold.
  fold second in Hfold. cbn [fst snd updated expired_total alertsSent] in Hfold.
  destruct Hfold as (new & H1 & H2 & H3 & H4 & H5).
  destruct (cron_fold_frame now (cron_projects db)
              (db, {| updated := 0; expired_total := 0; alertsSent := 0 |}))
    as (F1 & _ & _ & F4 & _).
  fold (_run_severity_cron now db) in F1, F4. fold first in F1, F4.
  cbn [fst] in F1, F4.
  rewrite H1. destruct (fst first) eqn:E; cbn in *.
  repeat split; try assumption; try reflexivity.
  exists new. repeat split; [lia|].
  rewrite H5, F4. f_equal.
  pose proof (realerted_all (fst first)) as Hr. rewrite E in Hr. exact Hr.
Qed.

(** C5, counterexample.  With one eligible user and a deadline a day and a
    half away, the first pass makes the deadline CRITICAL and notifies the
    user; the second pass at the same instant notifies the user again. *)
Lemma severity_pass_replay_notifies_again :
  let first := _run_severity_cron march_19 staffed_db in
  let second := _run_severity_cron march_19 (fst first) in
  length (notifications staffed_db) = 0%nat
  /\ length (notifications (fst first)) = 2%nat
  /\ length (notifications (fst second)) = 3%nat
  /\ fst second <> fst first
  /\ alertsSent (snd second) = 1
  /\ map (fun d => (ComplianceDeadline.status d, ComplianceDeadline.severity d))
       (deadlines (fst first))
     = [(ACTIVE, SevCRITICAL); (EXPIRED, SevEXPIRED)].
Proof.
  vm_compute. repeat split; try reflexivity. discriminate.
Qed.

(** * Audit trail *)

(** Case analysis on the next [match] of a hypothesis that runs a service. *)
Ltac break_service H :=
  try unfold bind in H;
  match type of H with
  | context [match ?x with _ => _ end] =>
      lazymatch x with
      | context [match _ with _ => _ end] => fail
      | _ => destruct x eqn:?
      end
  end;
  cbn [scalar_one_or_none] in H; try discriminate H.

Ltac audit_done H :=
  inversion H; subst; clear H; unfold audit_appended; cbn;
  first [reflexivity | eexists; repeat split; reflexivity].

Section AuditTrail.

Variable generate_cuid : nat -> string.

Lemma update_deadline_status_audits now db deadline_id project_id new_status
    user_id notice_id db' d :
  update_deadline_status now db deadline_id project_id new_status user_id
    notice_id = Ok (db', Some d) ->
  audit_appended db db' "ComplianceDeadline" deadline_id.
Proof.
  intros H. unfold update_deadline_status, get_deadline_by_id in H.
  repeat break_service H; audit_done H.
Qed.

Lemma waive_deadline_audits now db deadline_id project_id user_id reason db' d :
  waive_deadline now db deadline_id project_id user_id reason
  = Ok (db', Some d) ->
  audit_appended db db' "ComplianceDeadline" deadline_id.
Proof.
  intros H. unfold waive_deadline, get_deadline_by_id in H.
  repeat break_service H; audit_done H.
Qed.

Lemma create_notice_audits now db project_id notice_type title content user_id
    clause_id due_date recipient_name recipient_email deadline_id db' n :
  create_notice generate_cuid now db project_id notice_type title content
    user_id clause_id due_date recipient_name recipient_email deadline_id
  = Ok (db', n) ->
  audit_appended db db' "ComplianceNotice" (ComplianceNotice.id n).
Proof.
  intros H. unfold create_notice, get_deadline_by_id, fresh_cuid in H.
  cbn [deadlines add_notice with_notices with_next_cuid] in H.
  repeat break_service H; audit_done H.
Qed.

Lemma send_notice_audits now sent db notice_id project_id user_id db' n :
  send_notice now sent db notice_id project_id user_id = Ok (db', Some n) ->
  audit_appended db db' "ComplianceNotice" notice_id.
Proof.
  intros H. unfold send_notice, get_notice_by_id in H.
  cbn [deadlines with_notices] in H.
  repeat break_service H; audit_done H.
Qed.

Lemma confirm_delivery_audits now db notice_id project_id user_id method
    tracking_number carrier delivered_at signed_by received_by db' n :
  confirm_delivery now db notice_id project_id user_id method tracking_number
    carrier delivered_at signed_by received_by = Ok (db', Some n) ->
  audit_appended db db' "ComplianceNotice" notice_id.
Proof.
  intros H. unfold confirm_delivery, get_notice_by_id in H.
  repeat break_service H; audit_done H.
Qed.

Lemma delete_notice_audits db notice_id project_id user_id db' :
  delete_notice db notice_id project_id user_id = Ok (db', true) ->
  audit_appended db db' "ComplianceNotice" notice_id.
Proof.
  intros H. unfold delete_notice, get_notice_by_id in H.
  repeat break_service H; audit_done H.
Qed.

Lemma update_notice_silent db notice_id project_id user_id title content
    recipient_name recipient_email due_date db' n :
  update_notice db notice_id project_id user_id title content recipient_name
    recipient_email due_date = Ok (db', n) ->
  audit_log db' = audit_log db.
Proof.
  intros H. unfold update_notice, get_notice_by_id in H.
  repeat break_service H; audit_done H.
Qed.

Lemma regenerate_notice_draft_silent ai_content ai_model db notice_id
    project_id user_id db' content :
  regenerate_notice_draft ai_content ai_model db notice_id project_id user_id
  = Ok (db', content) ->
  audit_log db' = audit_log db.
Proof.
  intros H. unfold regenerate_notice_draft, get_notice_by_id in H.
  repeat break_service H; audit_done H.
Qed.

Lemma update_notice_endpoint_silent now db project_id notice_id user_id body
    db' n :
  update_notice_endpoint now db project_id notice_id user_id body
  = Ok (db', n) ->
  audit_log db' = audit_log db.
Proof.
  intros H. unfold update_notice_endpoint in H.
  destruct (update_notice _ _ _ _ _ _ _ _ _) as [[db1 found]|e] eqn:Hu.
  - apply update_notice_silent in Hu. cbn [bind] in H.
    repeat break_service H; inversion H; subst; cbn; exact Hu.
  - destruct e; discriminate H.
Qed.

End AuditTrail.

Section AuditClaim.

Variable generate_cuid : nat -> string.

(** C2 (amended). The deadline operations [create_deadline],
    [update_deadline_status] and [waive_deadline], when they succeed on a
    deadline, append exactly one audit entry whose [entityType] is
    "ComplianceDeadline" and whose [entityId] is the deadline's id; the notice
    operations [create_notice], [send_notice], [confirm_delivery] and
    [delete_notice] append exactly one entry with [entityType]
    "ComplianceNotice" and the notice's id (a cascaded change of the linked
    deadline gets no entry of its own).  Severity recalculation and the
    scheduler's severity pass, auto-expiry included, append no audit entry,
    and neither do [update_notice], regeneration and the PATCH endpoint. *)
Theorem audit_entries_by_operation :
  (forall now db project_id clause_id event_type description triggered_at
          event_id triggered_by db' d,
      create_deadline generate_cuid now db project_id clause_id event_type
        description triggered_at event_id triggered_by = Ok (db', Some d) ->
      audit_appended db db' "ComplianceDeadline" (ComplianceDeadline.id d))
  /\ (forall now db deadline_id project_id new_status user_id notice_id db' d,
         update_deadline_status now db deadline_id project_id new_status
           user_id notice_id = Ok (db', Some d) ->
         audit_appended db db' "ComplianceDeadline" deadline_id)
  /\ (forall now db deadline_id project_id user_id reason db' d,
         waive_deadline now db deadline_id project_id user_id reason
         = Ok (db', Some d) ->
         audit_appended db db' "ComplianceDeadline" deadline_id)
  /\ (forall now db project_id notice_type title content user_id clause_id
             due_date recipient_name recipient_email deadline_id db' n,
         create_notice generate_cuid now db project_id notice_type title
           content user_id clause_id due_date recipient_name recipient_email
           deadline_id = Ok (db', n) ->
         audit_appended db db' "ComplianceNotice" (ComplianceNotice.id n))
  /\ (forall now sent db notice_id project_id user_id db' n,
         send_notice now sent db notice_id project_id user_id
         = Ok (db', Some n) ->
         audit_appended db db' "ComplianceNotice" notice_id)
  /\ (forall now db notice_id project_id user_id method tracking_number
             carrier delivered_at signed_by received_by db' n,
         confirm_delivery now db notice_id project_id user_id method
           tracking_number carrier delivered_at signed_by received_by
         = Ok (db', Some n) ->
         audit_appended db db' "ComplianceNotice" notice_id)
  /\ (forall db notice_id project_id user_id db',
         delete_notice db notice_id project_id user_id = Ok (db', true) ->
         audit_appended db db' "ComplianceNotice" notice_id)
  /\ (forall now db project_id,
         audit_log (fst (recalculate_severities now db project_id))
         = audit_log db)
  /\ (forall now db, audit_log (fst (_run_severity_cron now db)) = audit_log db)
  /\ (forall db notice_id project_id user_id title content recipient_name
             recipient_email due_date db' n,
         update_notice db notice_id project_id user_id title content
           recipient_name recipient_email due_date = Ok (db', n) ->
         audit_log db' = audit_log db)
  /\ (forall ai_content ai_model db notice_id project_id user_id db' content,
         regenerate_notice_draft ai_content ai_model db notice_id project_id
           user_id = Ok (db', content) ->
         audit_log db' = audit_log db)
  /\ (forall now db project_id notice_id user_id body db' n,
         update_notice_endpoint now db project_id notice_id user_id body
         = Ok (db', n) ->
         audit_log db' = audit_log db).
Proof.
  split.
  { intros now db project_id clause_id event_type description triggered_at
      event_id triggered_by db' d H.
    pose proof (create_deadline_cases generate_cuid now db project_id clause_id
                  event_type description triggered_at event_id triggered_by)
      as Hc.
    cbv zeta in Hc. rewrite H in Hc.
    destruct Hc as [Hc|[Hc|(db1 & d1 & a & Hc & _ & Ha & _ & _ & _ & _ & _
                            & _ & _ & Hid & Hty)]];
      try discriminate Hc.
    inversion Hc; subst. exists a. auto. }
  split; [intros; eapply update_deadline_status_audits; eassumption|].
  split; [intros; eapply waive_deadline_audits; eassumption|].
  split; [intros; eapply create_notice_audits; eassumption|].
  split; [intros; eapply send_notice_audits; eassumption|].
  split; [intros; eapply confirm_delivery_audits; eassumption|].
  split; [intros; eapply delete_notice_audits; eassumption|].
  split; [reflexivity|].
  split.
  { intros now db. unfold _run_severity_cron.
    apply (cron_fold_frame now (cron_projects db)
             (db, {| updated := 0; expired_total := 0; alertsSent := 0 |})). }
  split; [intros; eapply update_notice_silent; eassumption|].
  split; [intros; eapply regenerate_notice_draft_silent; eassumption|].
  intros; eapply update_notice_endpoint_silent; eassumption.
Qed.

End AuditClaim.

Lemma audit_entries_by_operation_witness :
  exists db',
    audit_appended waived_db db' "ComplianceDeadline" "cuid0".
Proof.
  assert (exists db' d,
             waive_deadline (mkdatetime 2025 3 12 9 0 0) waived_db "cuid0" "P"
               "u2" "duplicate" = Ok (db', Some d)) as (db' & d & H).
  { eexists _, _. vm_compute. reflexivity. }
  exists db'.
  exact (proj1 (proj2 (proj2 (audit_entries_by_operation sample_cuid)))
           _ _ _ _ _ _ _ _ H).
Defined.

(** C2, counterexample.  The scheduler's pass expires the change-order
    deadline "cuid1" and raises the severity of "cuid0", and the audit log is
    left as it was: the only entry about "cuid1" is the one of its creation. *)
Lemma severity_pass_expires_without_audit :
  let db' := fst (_run_severity_cron march_19 staffed_db) in
  map (fun d => (ComplianceDeadline.id d, ComplianceDeadline.status d,
                 ComplianceDeadline.severity d))
    (deadlines staffed_db)
  = [("cuid0", ACTIVE, SevINFO); ("cuid1", ACTIVE, SevINFO)]
  /\ map (fun d => (ComplianceDeadline.id d, ComplianceDeadline.status d,
                    ComplianceDeadline.severity d))
       (deadlines db')
     = [("cuid0", ACTIVE, SevCRITICAL); ("cuid1", EXPIRED, SevEXPIRED)]
  /\ audit_log db' = audit_log staffed_db
  /\ map ComplianceAuditLog.event_type
       (audits_for "ComplianceDeadline" "cuid1" db')
     = ["DEADLINE_CREATED"].
Proof. vm_compute. repeat split; reflexivity. Qed.

(** * Notice engine: the on-time status *)

Lemma In_update_where {A} (p : A -> bool) (f : A -> A) rows r' :
  In r' (update_where p f rows) ->
  exists r, In r rows /\ ((p r = true /\ r' = f r) \/ (p r = false /\ r' = r)).
Proof.
  unfold update_where. intros H. apply in_map_iff in H as (r & Hr & Hin).
  exists r. split; [exact Hin|]. destruct (p r); auto.
Qed.



Lemma scalar_one_or_none_Some {A} (rows : list A) r :
  scalar_one_or_none rows = Ok (Some r) -> rows = [r].
Proof.
  destruct rows as [|r1 [|r2 rest]]; cbn; intros H; inversion H; reflexivity.
Qed.

Lemma negb_false {b} : negb b = false -> b = true.
Proof. destruct b; [reflexivity|discriminate]. Qed.



Section OnTimeStatus.

Variable generate_cuid : nat -> string.


Ltac kept_row :=
  left; unfold row_kept, editable, set_if_given;
  repeat match goal with
         | |- context [match ?o with _ => _ end] => destruct o
         end;
  cbn; repeat split; auto; try discriminate.


Lemma apply_edits_same_row title content recipient_name recipient_email
    due_date notice_id project_id n :
  notice_by_id_and_project notice_id project_id
    (apply_edits title content recipient_name recipient_email due_date n)
  = notice_by_id_and_project notice_id project_id n.
Proof.
  unfold notice_by_id_and_project, apply_edits, set_if_given.
  destruct title, content, recipient_name, recipient_email, due_date;
    reflexivity.
Qed.













End OnTimeStatus.



(** * Calendar service: further properties *)

Section BusinessDays.

Variable holidays : gset date.

Lemma business_days_in_le n c : business_days_in n c holidays <= Z.of_nat n.
Proof.
  revert c. induction n as [|n IH]; intros c; cbn [business_days_in]; [lia|].
  specialize (IH (c + 1)). destruct (is_business_day _ _); lia.
Qed.

Lemma business_days_in_mono n m c :
  (n <= m)%nat ->
  business_days_in n c holidays <= business_days_in m c holidays.
Proof.
  intros Hle. replace m with (n + (m - n))%nat by lia.
  rewrite business_days_in_app.
  pose proof (business_days_in_nonneg holidays (m - n) (c + Z.of_nat n)). lia.
Qed.

(** The loop stops on a business day. *)
Lemma add_business_days_loop_lands fuel current remaining e :
  0 < remaining ->
  add_business_days_loop fuel current remaining holidays = Some e ->
  is_business_day e holidays = true.
Proof.
  revert current remaining.
  induction fuel as [|fuel IH]; intros current remaining Hpos H; simpl in H.
  - destruct (Z.ltb_spec 0 remaining); [discriminate|lia].
  - destruct (Z.ltb_spec 0 remaining) as [_|]; [|lia].
    destruct (is_business_day (current + 1) holidays) eqn:Hbd.
    + destruct (Z.ltb_spec 0 (remaining - 1)) as [Hmore|Hdone].
      * apply (IH _ _ Hmore H).
      * destruct fuel; simpl in H;
          (destruct (Z.ltb_spec 0 (remaining - 1)); [lia|]);
          inversion H; subst; exact Hbd.
    + apply (IH _ _ Hpos H).
Qed.

Lemma add_business_days_lands start days :
  0 < days ->
  is_business_day (add_business_days start days holidays) holidays = true.
Proof.
  intros Hpos.
  destruct (add_business_days_loop_enough holidays start days) as [e He].
  rewrite (add_business_days_loop_result _ _ _ _ _ He).
  apply (add_business_days_loop_lands _ _ _ _ Hpos He).
Qed.

(** Fewer than [days] business days lie before the date
    [add_business_days] returns. *)
Lemma add_business_days_least start days d :
  0 < days -> start <= d < add_business_days start days holidays ->
  business_days_in (Z.to_nat (d - start)) start holidays < days.
Proof.
  intros Hpos [Hlo Hhi].
  destruct (add_business_days_sound holidays start days)
    as [[Hn _]|(_ & Hlt & Hcount)]; [lia|].
  pose proof (add_business_days_lands start days Hpos) as Hbd.
  set (e := add_business_days start days holidays) in *.
  replace (Z.to_nat (e - start)) with (Z.to_nat (e - 1 - start) + 1)%nat
    in Hcount by lia.
  rewrite business_days_in_app in Hcount. cbn [business_days_in] in Hcount.
  replace (start + Z.of_nat (Z.to_nat (e - 1 - start)) + 1) with e
    in Hcount by lia.
  rewrite Hbd in Hcount.
  pose proof (business_days_in_mono (Z.to_nat (d - start))
                (Z.to_nat (e - 1 - start)) start ltac:(lia)).
  lia.
Qed.

(** [add_business_days start days holidays] is the [days]-th business day
    after [start]: it lies after [start], it is a business day, exactly
    [days] business days lie in [(start, it]], and fewer before it. *)
Theorem add_business_days_nth_business_day start days :
  0 < days ->
  let e := add_business_days start days holidays in
  start < e
  /\ is_business_day e holidays = true
  /\ count_business_days_between start e holidays = days
  /\ forall d, start <= d < e ->
               count_business_days_between start d holidays < days.
Proof.
  intros Hpos e.
  destruct (add_business_days_sound holidays start days)
    as [[Hn _]|(_ & Hlt & Hcount)]; [lia|].
  split; [exact Hlt|]. split; [apply add_business_days_lands; exact Hpos|].
  split.
  - rewrite count_business_days_between_spec. exact Hcount.
  - intros d Hd. rewrite count_business_days_between_spec.
    apply add_business_days_least; assumption.
Qed.

End BusinessDays.


Section BusinessDaysCompose.

Variable holidays : gset date.

Lemma add_business_days_loop_compose fuel1 : forall current m e1,
  0 <= m ->
  add_business_days_loop fuel1 current m holidays = Some e1 ->
  forall fuel2 n e2,
    0 <= n ->
    add_business_days_loop fuel2 e1 n holidays = Some e2 ->
    add_business_days_loop (fuel1 + fuel2) current (m + n) holidays = Some e2.
Proof.
  induction fuel1 as [|fuel1 IH]; intros current m e1 Hm H1 fuel2 n e2 Hn H2.
  - simpl in H1. destruct (Z.ltb_spec 0 m); [discriminate|].
    inversion H1; subst. replace m with 0 by lia. exact H2.
  - simpl in H1. destruct (Z.ltb_spec 0 m) as [Hpos|Hz].
    + cbn [Nat.add add_business_days_loop].
      destruct (Z.ltb_spec 0 (m + n)); [|lia].
      destruct (is_business_day (current + 1) holidays).
      * replace (m + n - 1) with (m - 1 + n) by lia.
        apply (IH _ _ e1); auto; lia.
      * apply (IH _ _ e1); auto.
    + inversion H1; subst. replace m with 0 by lia.
      apply (add_business_days_loop_more holidays fuel2); [exact H2|lia].
Qed.

Lemma add_business_days_chain start m n :
  0 <= m -> 0 <= n ->
  add_business_days (add_business_days start m holidays) n holidays
  = add_business_days start (m + n) holidays.
Proof.
  intros Hm Hn.
  destruct (add_business_days_loop_enough holidays start m) as [e1 H1].
  pose proof (add_business_days_loop_result _ _ _ _ _ H1) as ->.
  destruct (add_business_days_loop_enough holidays e1 n) as [e2 H2].
  pose proof (add_business_days_loop_result _ _ _ _ _ H2) as ->.
  symmetry.
  apply (add_business_days_loop_result holidays _ _ _ _
           (add_business_days_loop_compose _ _ _ _ Hm H1 _ _ _ Hn H2)).
Qed.

(** Adding [m] business days and then [n] more is adding [m + n]. *)
Theorem add_business_days_compose start m n :
  0 <= m -> 0 <= n ->
  add_business_days (add_business_days start m holidays) n holidays
  = add_business_days start (m + n) holidays.
Proof.
  intros Hm Hn. apply add_business_days_chain; assumption.
Qed.

(** A business day after [start] is found again from the number of business
    days that lead to it. *)
Theorem add_business_days_of_count start e :
  start < e -> is_business_day e holidays = true ->
  add_business_days start (count_business_days_between start e holidays)
    holidays = e.
Proof.
  intros Hlt Hbd. rewrite count_business_days_between_spec.
  set (n := business_days_in (Z.to_nat (e - start)) start holidays).
  assert (Hsplit : n = business_days_in (Z.to_nat (e - 1 - start)) start
                         holidays + 1).
  { unfold n.
    replace (Z.to_nat (e - start)) with (Z.to_nat (e - 1 - start) + 1)%nat
      by lia.
    rewrite business_days_in_app. cbn [business_days_in].
    replace (start + Z.of_nat (Z.to_nat (e - 1 - start)) + 1) with e by lia.
    rewrite Hbd. lia. }
  pose proof (business_days_in_nonneg holidays (Z.to_nat (e - 1 - start)) start)
    as Hnn.
  assert (Hpos : 0 < n) by lia.
  destruct (add_business_days_sound holidays start n)
    as [[Hn _]|(_ & Hlt' & Hcount)]; [lia|].
  set (e' := add_business_days start n holidays) in *.
  destruct (Z.lt_trichotomy e' e) as [Hless|[Heq|Hmore]]; [|exact Heq|].
  - pose proof (business_days_in_mono holidays (Z.to_nat (e' - start))
                  (Z.to_nat (e - 1 - start)) start ltac:(lia)). lia.
  - pose proof (add_business_days_least holidays start n e Hpos
                  ltac:(fold e'; lia)) as Hl.
    fold n in Hl. lia.
Qed.

End BusinessDaysCompose.

Lemma is_business_day_subseteq (h h' : gset date) d :
  h ⊆ h' -> is_business_day d h' = true -> is_business_day d h = true.
Proof.
  unfold is_business_day. intros Hsub H.
  apply andb_true_iff in H as [Hw Hn]. apply andb_true_iff. split; [exact Hw|].
  apply bool_decide_eq_true in Hn. apply bool_decide_eq_true.
  intros Hin. apply Hn. apply Hsub. exact Hin.
Qed.

Lemma business_days_in_subseteq (h h' : gset date) n c :
  h ⊆ h' -> business_days_in n c h' <= business_days_in n c h.
Proof.
  intros Hsub. revert c.
  induction n as [|n IH]; intros c; cbn [business_days_in]; [lia|].
  specialize (IH (c + 1)).
  destruct (is_business_day (c + 1) h') eqn:E.
  - rewrite (is_business_day_subseteq h h' _ Hsub E). lia.
  - destruct (is_business_day (c + 1) h); lia.
Qed.

(** More holidays never bring the date forward. *)
Theorem add_business_days_more_holidays (h h' : gset date) start days :
  h ⊆ h' ->
  add_business_days start days h <= add_business_days start days h'.
Proof.
  intros Hsub.
  destruct (add_business_days_sound h' start days)
    as [[Hn Heq']|(Hpos & Hlt' & Hcount')].
  - destruct (add_business_days_sound h start days)
      as [[_ Heq]|(Hpos & _)]; lia.
  - destruct (Z.le_gt_cases (add_business_days start days h)
                (add_business_days start days h')) as [Hle|Hgt]; [exact Hle|].
    pose proof (add_business_days_least h start days
                  (add_business_days start days h') Hpos ltac:(lia)) as Hl.
    pose proof (business_days_in_subseteq h h'
                  (Z.to_nat (add_business_days start days h' - start)) start
                  Hsub).
    lia.
Qed.

Section CountBusinessDays.

Variable holidays : gset date.

(** Counting is additive over adjacent ranges, empty on an empty range and
    bounded by the number of calendar days. *)
Theorem count_business_days_between_additive a b c :
  a <= b <= c ->
  count_business_days_between a c holidays
  = count_business_days_between a b holidays
    + count_business_days_between b c holidays.
Proof.
  intros [Hab Hbc]. rewrite !count_business_days_between_spec.
  replace (Z.to_nat (c - a)) with (Z.to_nat (b - a) + Z.to_nat (c - b))%nat
    by lia.
  rewrite business_days_in_app.
  replace (a + Z.of_nat (Z.to_nat (b - a))) with b by lia. reflexivity.
Qed.

Theorem count_business_days_between_bounds start end_ :
  0 <= count_business_days_between start end_ holidays
  /\ count_business_days_between start end_ holidays <= Z.max 0 (end_ - start)
  /\ (end_ <= start -> count_business_days_between start end_ holidays = 0).
Proof.
  rewrite count_business_days_between_spec.
  pose proof (business_days_in_nonneg holidays (Z.to_nat (end_ - start)) start).
  pose proof (business_days_in_le holidays (Z.to_nat (end_ - start)) start).
  split; [lia|]. split; [lia|].
  intros Hle. replace (Z.to_nat (end_ - start)) with O by lia. reflexivity.
Qed.

End CountBusinessDays.


(** * Severity classification *)

Lemma classify_severity_order deadline now now' status :
  now <= now' ->
  severity_order (classify_severity deadline now status)
  <= severity_order (classify_severity deadline now' status).
Proof.
  intros Hle. unfold classify_severity.
  destruct (match status with
            | Some s => member s [COMPLETED; WAIVED; NOTICE_SENT]
            | None => false
            end); [lia|].
  unfold CRITICAL_THRESHOLD_DAYS, WARNING_THRESHOLD_DAYS, INFO_THRESHOLD_DAYS,
    MICROS_PER_DAY, MICROS_PER_SECOND.
  repeat match goal with
         | |- context [?a <=? ?b] => destruct (Z.leb_spec a b)
         end; cbn [severity_order]; lia.
Qed.

(** As time passes a deadline never becomes less urgent: the severity
    computed later is not one [severity_escalated] would call an escalation
    towards the earlier one. *)
Theorem classify_severity_never_relaxes deadline now now' status :
  now <= now' ->
  severity_escalated (classify_severity deadline now' status)
    (classify_severity deadline now status) = false.
Proof.
  intros Hle. unfold severity_escalated.
  pose proof (classify_severity_order deadline now now' status Hle).
  apply Z.ltb_ge. lia.
Qed.

(** [severity_escalated] is a strict linear order on the five severities,
    with LOW least and EXPIRED greatest, and [severity_changed] holds exactly
    when one of the two severities escalates the other. *)
Theorem severity_escalated_linear_order :
  (forall s, severity_escalated s s = false)
  /\ (forall a b c, severity_escalated a b = true ->
                    severity_escalated b c = true ->
                    severity_escalated a c = true)
  /\ (forall a b, severity_changed a b
                  = severity_escalated a b || severity_escalated b a)
  /\ (forall s, severity_escalated s SevLOW = false
                /\ severity_escalated SevEXPIRED s = false).
Proof.
  repeat split.
  - intros s. unfold severity_escalated. apply Z.ltb_irrefl.
  - intros a b c. unfold severity_escalated. rewrite !Z.ltb_lt. lia.
  - intros [] []; reflexivity.
  - destruct s; reflexivity.
  - destruct s; reflexivity.
Qed.

(** * Deadline calculator *)

Lemma datetime_date_bounds dt :
  datetime_date dt * MICROS_PER_DAY <= dt
  /\ dt < (datetime_date dt + 1) * MICROS_PER_DAY.
Proof.
  unfold datetime_date, MICROS_PER_DAY, MICROS_PER_SECOND.
  Z.to_euclidean_division_equations. lia.
Qed.

Lemma end_of_day_after dt d :
  datetime_date dt < d -> dt < end_of_day d.
Proof.
  intros Hlt. pose proof (datetime_date_bounds dt) as [_ Hhi].
  unfold end_of_day. unfold MICROS_PER_DAY, MICROS_PER_SECOND in *. nia.
Qed.

Lemma add_business_days_after holidays start days :
  0 < days -> start < add_business_days start days holidays.
Proof.
  intros Hpos.
  destruct (add_business_days_sound holidays start days)
    as [[Hn _]|(_ & Hlt & _)]; [lia|exact Hlt].
Qed.

(** A positive period puts the deadline after the trigger, so a deadline
    whose trigger is not in the past is not computed as already expired. *)
Theorem calculate_deadline_after_trigger holiday_table now project_id
    trigger_date deadline_days deadline_type cure_period_days
    cure_period_type :
  0 < deadline_days ->
  let calc :=
    calculate_deadline holiday_table now project_id trigger_date
      deadline_days deadline_type cure_period_days cure_period_type in
  trigger_date < calculatedDeadline calc
  /\ (now <= trigger_date -> severity calc <> SevEXPIRED).
Proof.
  intros Hpos calc.
  assert (Hafter : trigger_date < calculatedDeadline calc).
  { unfold calc, calculate_deadline. cbn [calculatedDeadline].
    destruct deadline_type.
    - apply end_of_day_after. unfold add_calendar_days. lia.
    - apply end_of_day_after. apply add_business_days_after. exact Hpos.
    - unfold add_hours, MICROS_PER_HOUR, MICROS_PER_SECOND. lia. }
  split; [exact Hafter|]. intros Hnow.
  unfold calc, calculate_deadline in *. cbn [calculatedDeadline severity] in *.
  set (dl := match deadline_type with
             | CALENDAR_DAYS => _ | BUSINESS_DAYS => _ | HOURS => _
             end) in *.
  unfold classify_severity.
  destruct (Z.leb_spec dl now); [lia|].
  repeat match goal with
         | |- context [if ?b then _ else _] => destruct b
         end; discriminate.
Qed.

(** A positive cure period with a type gives a cure deadline, and it lies
    after the notice deadline. *)
Theorem calculate_deadline_cure_after_deadline holiday_table now project_id
    trigger_date deadline_days deadline_type cure_days cure_type :
  0 < cure_days ->
  let calc :=
    calculate_deadline holiday_table now project_id trigger_date
      deadline_days deadline_type (Some cure_days) (Some cure_type) in
  exists cure, cureDeadline calc = Some cure
               /\ calculatedDeadline calc < cure.
Proof.
  intros Hpos calc. unfold calc, calculate_deadline.
  cbn [calculatedDeadline cureDeadline truthy].
  destruct (Z.eqb_spec cure_days 0) as [|_]; [lia|]. cbn [negb].
  set (dl := match deadline_type with
             | CALENDAR_DAYS => _ | BUSINESS_DAYS => _ | HOURS => _
             end).
  destruct cure_type; eexists; (split; [reflexivity|]).
  - apply end_of_day_after. unfold add_calendar_days. lia.
  - apply end_of_day_after. apply add_business_days_after. exact Hpos.
  - unfold add_hours, MICROS_PER_HOUR, MICROS_PER_SECOND. lia.
Qed.

(** When the notice period and the cure period are both counted in business
    days, the cure deadline is the end of the day reached by counting the two
    periods in one go from the trigger date. *)
Theorem calculate_deadline_business_cure holiday_table now project_id
    trigger_date deadline_days cure_days :
  0 < deadline_days -> 0 < cure_days ->
  cureDeadline
    (calculate_deadline holiday_table now project_id trigger_date
       deadline_days BUSINESS_DAYS (Some cure_days) (Some BUSINESS_DAYS))
  = Some (end_of_day
            (add_business_days (datetime_date trigger_date)
               (deadline_days + cure_days)
               (get_all_holidays holiday_table project_id
                  (datetime_date trigger_date)))).
Proof.
  intros Hd Hc. unfold calculate_deadline. cbn [cureDeadline truthy].
  destruct (Z.eqb_spec cure_days 0) as [|_]; [lia|]. cbn [negb].
  rewrite datetime_date_end_of_day.
  rewrite add_business_days_chain by lia. reflexivity.
Qed.


(** * Severity pass: what a run does *)

Section SeverityRun.

Variable now : datetime.

Lemma cron_severity_expired d :
  cron_severity now d = SevEXPIRED
  <-> ComplianceDeadline.calculated_deadline d <= now.
Proof.
  unfold cron_severity. destruct (Z.leb_spec (ComplianceDeadline.calculated_deadline d) now).
  - split; [intros _; assumption|reflexivity].
  - split; [|lia].
    repeat match goal with
           | |- context [if ?b then _ else _] => destruct b
           end; discriminate.
Qed.

(** What the pass does to one row. *)
Lemma cron_row_effect d :
  ComplianceDeadline.set_severity (ComplianceDeadline.severity (cron_row now d))
    (ComplianceDeadline.set_status (ComplianceDeadline.status (cron_row now d)) d)
  = cron_row now d
  /\ if is_active d then
       ComplianceDeadline.severity (cron_row now d) = cron_severity now d
       /\ ComplianceDeadline.status (cron_row now d)
          = if (ComplianceDeadline.calculated_deadline d <=? now)
               && negb (bool_decide (ComplianceDeadline.severity d = SevEXPIRED))
            then EXPIRED else ComplianceDeadline.status d
     else cron_row now d = d.
Proof.
  unfold cron_row. destruct (is_active d) eqn:Hact.
  2:{ split; [destruct d; reflexivity|reflexivity]. }
  unfold cron_update.
  pose proof (cron_severity_expired d) as Hexp.
  destruct (Z.leb_spec (ComplianceDeadline.calculated_deadline d) now) as [Hdue|Hnot].
  - assert (Hs : cron_severity now d = SevEXPIRED) by (apply Hexp; exact Hdue).
    rewrite Hs. repeat case_bool_decide; try congruence;
      cbn [negb andb]; (split; [destruct d; reflexivity|]); cbn; auto.
  - assert (Hs : cron_severity now d <> SevEXPIRED) by (rewrite Hexp; lia).
    cbn [andb]. repeat case_bool_decide; try congruence;
      (split; [destruct d; reflexivity|]); cbn; auto.
Qed.

(** One run of the hourly pass, row by row.  A row that is not ACTIVE or
    NOTICE_DRAFTED is left as it is.  Of a selected row only the severity and
    the status can change: the severity becomes the one computed from the
    time left, and the status becomes EXPIRED exactly when the deadline has
    passed and the stored severity was not EXPIRED already; otherwise the
    status stays. *)
Theorem run_severity_cron_rows db :
  Forall2
    (fun d d' =>
       ComplianceDeadline.set_severity (ComplianceDeadline.severity d')
         (ComplianceDeadline.set_status (ComplianceDeadline.status d') d) = d'
       /\ if is_active d then
            ComplianceDeadline.severity d' = cron_severity now d
            /\ ComplianceDeadline.status d'
               = if (ComplianceDeadline.calculated_deadline d <=? now)
                    && negb (bool_decide
                               (ComplianceDeadline.severity d = SevEXPIRED))
                 then EXPIRED else ComplianceDeadline.status d
          else d' = d)
    (deadlines db) (deadlines (fst (_run_severity_cron now db))).
Proof.
  rewrite run_severity_cron_deadlines.
  induction (deadlines db) as [|d rows IH]; cbn [map]; constructor.
  - apply cron_row_effect.
  - exact IH.
Qed.

End SeverityRun.


Section SeverityTotals.

Variable now : datetime.

Lemma count_if_app {A} (p : A -> bool) l l' :
  count_if p (l ++ l') = count_if p l + count_if p l'.
Proof. unfold count_if. rewrite List.filter_app, length_app. lia. Qed.

Lemma count_if_cons' {A} (p : A -> bool) x l :
  count_if p (x :: l) = (if p x then 1 else 0) + count_if p l.
Proof.
  unfold count_if. cbn [List.filter]. destruct (p x); cbn [length]; lia.
Qed.

Lemma count_if_filter {A} (p q : A -> bool) l :
  count_if q (List.filter p l) = count_if (fun x => p x && q x) l.
Proof. unfold count_if. rewrite filter_filter_andb. reflexivity. Qed.

Lemma count_if_ext_in {A} (p q : A -> bool) l :
  (forall x, In x l -> p x = q x) -> count_if p l = count_if q l.
Proof.
  intros H. unfold count_if. rewrite (filter_ext_in p q l H). reflexivity.
Qed.

Lemma count_if_update_where {A} (f p : A -> bool) (g : A -> A) l :
  (forall x, p x = true -> f x = false /\ f (g x) = false) ->
  count_if f (update_where p g l) = count_if f l.
Proof.
  intros H. induction l as [|x l IH]; [reflexivity|].
  unfold update_where in *. cbn [map]. rewrite !count_if_cons', IH.
  destruct (p x) eqn:Hp; [|reflexivity].
  destruct (H x Hp) as [-> ->]. reflexivity.
Qed.

Lemma count_if_split {A} (p q r : A -> bool) l :
  (forall x, r x = p x || q x) -> (forall x, p x && q x = false) ->
  count_if r l = count_if p l + count_if q l.
Proof.
  intros Hr Hpq. unfold count_if.
  rewrite <- (filter_split_length p q r l Hr Hpq). lia.
Qed.

(** The counters over the rows of one project. *)
Lemma cron_count_fold db rows : forall totals,
  let totals' := fold_left (cron_count now db) rows totals in
  updated totals' = updated totals + count_if (cron_changes now) rows
  /\ expired_total totals'
     = expired_total totals
       + count_if (fun d => cron_changes now d
                            && bool_decide (cron_severity now d = SevEXPIRED))
           rows
  /\ alertsSent totals'
     = alertsSent totals
       + Z.of_nat (length (flat_map (cron_alerts now db) rows))
  /\ length (flat_map (cron_alerts now db) rows)
     = (length (List.filter eligible (users db))
        * length (List.filter (fun d => alerting (cron_severity now d)) rows))%nat.
Proof.
  induction rows as [|d rows IH]; intros totals; cbn [fold_left flat_map].
  - cbv zeta. unfold count_if. cbn. repeat split; lia.
  - specialize (IH (cron_count now db totals d)). cbv zeta in *.
    destruct IH as (I1 & I2 & I3 & I4).
    rewrite I1, I2, I3, length_app, I4, !count_if_cons', cron_alerts_length.
    cbn [List.filter]. unfold cron_count; cbn [updated expired_total alertsSent].
    rewrite cron_alerts_length. fold (cron_changes now d).
    destruct (cron_changes now d), (bool_decide (cron_severity now d = SevEXPIRED)),
      (alerting (cron_severity now d)); cbn [andb length];
      repeat split; lia.
Qed.

Lemma member_not_In {A} `{EqDecision A} (x : A) l :
  ~ In x l -> member x l = false.
Proof.
  intros H. apply not_true_iff_false. intros Hm. apply H.
  apply member_In. exact Hm.
Qed.

(** Rows of the projects still to come are the same before and after the
    rows of another project have been rewritten. *)
Lemma count_if_other_projects pid pids (X : ComplianceDeadline.t -> bool) rows :
  ~ In pid pids ->
  count_if (fun d => member (ComplianceDeadline.project_id d) pids && X d)
    (update_where (cron_selected pid) (cron_update now) rows)
  = count_if (fun d => member (ComplianceDeadline.project_id d) pids && X d)
      rows.
Proof.
  intros Hnotin. apply count_if_update_where. intros d Hsel.
  unfold cron_selected in Hsel. apply andb_true_iff in Hsel as [Hpid _].
  apply bool_decide_eq_true in Hpid.
  rewrite cron_update_project_id, Hpid, (member_not_In pid pids Hnotin).
  split; reflexivity.
Qed.

Lemma count_if_first_project pid pids (X : ComplianceDeadline.t -> bool) rows :
  ~ In pid pids ->
  count_if (fun d => member (ComplianceDeadline.project_id d) (pid :: pids)
                     && (is_active d && X d)) rows
  = count_if (fun d => cron_selected pid d && X d) rows
    + count_if (fun d => member (ComplianceDeadline.project_id d) pids
                         && (is_active d && X d)) rows.
Proof.
  intros Hnotin. apply count_if_split; intros d; rewrite ?member_cons;
    unfold cron_selected; case_bool_decide as Hpid; cbn [andb orb];
    try reflexivity.
  - rewrite Hpid, (member_not_In pid pids Hnotin). cbn [andb].
    rewrite orb_false_r. reflexivity.
  - rewrite Hpid, (member_not_In pid pids Hnotin). cbn [andb].
    apply andb_false_r.
Qed.

Lemma cron_fold_totals pids : forall st,
  NoDup pids ->
  let st' := fold_left (cron_project now) pids st in
  let of_pids (X : ComplianceDeadline.t -> bool) :=
    count_if (fun d => member (ComplianceDeadline.project_id d) pids
                       && (is_active d && X d))
      (deadlines (fst st)) in
  updated (snd st') = updated (snd st) + of_pids (cron_changes now)
  /\ expired_total (snd st')
     = expired_total (snd st)
       + of_pids (fun d => cron_changes now d
                           && bool_decide (cron_severity now d = SevEXPIRED))
  /\ exists new,
       notifications (fst st') = (notifications (fst st) ++ new)%list
       /\ alertsSent (snd st') = alertsSent (snd st) + Z.of_nat (length new)
       /\ Z.of_nat (length new)
          = Z.of_nat (length (List.filter eligible (users (fst st))))
            * of_pids (fun d => alerting (cron_severity now d)).
Proof.
  induction pids as [|pid pids IH]; intros [db totals] Hnodup;
    cbn [fold_left fst snd]; cbv zeta.
  - unfold count_if. cbn [member existsb andb].
    assert (Hnil : forall l : list ComplianceDeadline.t,
               List.filter (fun _ => false) l = [])
      by (induction l; auto).
    rewrite !Hnil. cbn [length]. split; [lia|]. split; [lia|].
    exists []. rewrite app_nil_r. cbn [length Z.of_nat].
    rewrite Z.mul_0_r. repeat split; lia.
  - apply NoDup_cons in Hnodup as [Hnotin Hnodup].
    rewrite list_elem_of_In in Hnotin.
    specialize (IH (cron_project now (db, totals) pid) Hnodup).
    cbv zeta in IH. cbn [cron_project fst snd deadlines notifications users
                           with_notifications with_deadlines] in IH.
    destruct IH as (I1 & I2 & new & I3 & I4 & I5).
    rewrite !count_if_other_projects in I1, I2, I5 by exact Hnotin.
    destruct (cron_count_fold db
                (List.filter (cron_selected pid) (deadlines db)) totals)
      as (C1 & C2 & C3 & C4).
    rewrite !count_if_first_project by exact Hnotin.
    cbn [cron_project].
    rewrite I1, I2, C1, C2, !count_if_filter.
    split; [lia|]. split; [lia|].
    eexists. split; [rewrite I3, <- app_assoc; reflexivity|].
    rewrite I4, C3, length_app. split; [lia|].
    rewrite Nat2Z.inj_add, I5, C4, Nat2Z.inj_mul.
    rewrite filter_filter_andb. unfold count_if. lia.
Qed.

Lemma run_severity_cron_counts db :
  let run := _run_severity_cron now db in
  updated (snd run)
  = count_if (fun d => is_active d && cron_changes now d) (deadlines db)
  /\ expired_total (snd run)
     = count_if (fun d => is_active d
                          && (cron_changes now d
                              && bool_decide (cron_severity now d = SevEXPIRED)))
         (deadlines db)
  /\ exists new,
       notifications (fst run) = (notifications db ++ new)%list
       /\ alertsSent (snd run) = Z.of_nat (length new)
       /\ Z.of_nat (length new)
          = Z.of_nat (length (List.filter eligible (users db)))
            * count_if (fun d => is_active d && alerting (cron_severity now d))
                (deadlines db).
Proof.
  intros run.
  assert (Hall : forall X : ComplianceDeadline.t -> bool,
             count_if (fun d => member (ComplianceDeadline.project_id d)
                                  (cron_projects db)
                                && (is_active d && X d)) (deadlines db)
             = count_if (fun d => is_active d && X d) (deadlines db)).
  { intros X. apply count_if_ext_in. intros d Hin.
    destruct (is_active d) eqn:Hact; [|cbn [andb]; apply andb_false_r].
    replace (member (ComplianceDeadline.project_id d) (cron_projects db))
      with true; [reflexivity|].
    symmetry. apply member_In. unfold cron_projects.
    apply list_elem_of_In, elem_of_remove_dups, list_elem_of_In.
    apply in_map. apply filter_In. auto. }
  destruct (cron_fold_totals (cron_projects db)
              (db, {| updated := 0; expired_total := 0; alertsSent := 0 |})
              (NoDup_remove_dups _)) as (H1 & H2 & new & H3 & H4 & H5).
  cbn [fst snd updated expired_total alertsSent] in H1, H2, H3, H4, H5.
  rewrite !Hall in H1, H2, H5.
  fold (_run_severity_cron now db) in H1, H2, H3, H4. fold run in H1, H2, H3, H4.
  split; [lia|]. split; [lia|]. exists new. repeat split; [exact H3|lia|lia].
Qed.

(** The counters one run reports are the true counts: [updated] counts the
    ACTIVE and NOTICE_DRAFTED deadlines whose stored severity differs from
    the computed one, [expired] those among them that have passed, and
    [alertsSent] is the number of notifications the run appended, one per
    eligible user for every selected deadline whose computed severity is
    CRITICAL, WARNING or EXPIRED, changed or not. *)
Theorem run_severity_cron_totals db :
  let run := _run_severity_cron now db in
  updated (snd run)
  = count_if (fun d => is_active d && cron_changes now d) (deadlines db)
  /\ expired_total (snd run)
     = count_if (fun d => is_active d
                          && (cron_changes now d
                              && bool_decide (cron_severity now d = SevEXPIRED)))
         (deadlines db)
  /\ exists new,
       notifications (fst run) = (notifications db ++ new)%list
       /\ alertsSent (snd run) = Z.of_nat (length new)
       /\ Z.of_nat (length new)
          = Z.of_nat (length (List.filter eligible (users db)))
            * count_if (fun d => is_active d && alerting (cron_severity now d))
                (deadlines db).
Proof.
  intros run. apply (run_severity_cron_counts db).
Qed.

End SeverityTotals.


(** * Severity recalculation of one project *)

Section Recalculation.

Variable now : datetime.

(** On the rows the two passes select, the thresholds written out in the
    hourly pass are those of [classify_severity]. *)
Lemma cron_severity_classify d :
  is_active d = true ->
  cron_severity now d
  = classify_severity (ComplianceDeadline.calculated_deadline d) now
      (Some (ComplianceDeadline.status d)).
Proof.
  unfold is_active, cron_severity, classify_severity.
  destruct (ComplianceDeadline.status d); cbn; intros H;
    try discriminate H; reflexivity.
Qed.

Lemma cron_update_recalculate_row d :
  is_active d = true -> cron_update now d = recalculate_row now d.
Proof.
  intros Hact. unfold cron_update, recalculate_row.
  rewrite (cron_severity_classify d Hact). reflexivity.
Qed.

Lemma cron_selected_active pid d :
  cron_selected pid d = true -> is_active d = true.
Proof.
  unfold cron_selected. intros H. apply andb_true_iff in H as [_ H]. exact H.
Qed.

Lemma recalculate_severities_deadlines db pid :
  deadlines (fst (recalculate_severities now db pid))
  = update_where (cron_selected pid) (cron_update now) (deadlines db).
Proof.
  unfold recalculate_severities. cbn [fst deadlines with_deadlines].
  unfold update_where. apply map_ext. intros d.
  fold (cron_selected pid d).
  destruct (cron_selected pid d) eqn:Hsel; [|reflexivity].
  symmetry. apply cron_update_recalculate_row.
  apply (cron_selected_active pid d Hsel).
Qed.

Lemma recalculate_count_fold rows : forall c,
  Forall (fun d => is_active d = true) rows ->
  let c' := fold_left (recalculate_count now) rows c in
  changed c' = changed c + count_if (cron_changes now) rows
  /\ expired c'
     = expired c
       + count_if (fun d => cron_changes now d
                            && bool_decide (cron_severity now d = SevEXPIRED))
           rows
  /\ escalated c'
     = escalated c
       + count_if (fun d => cron_changes now d
                            && severity_escalated
                                 (ComplianceDeadline.severity d)
                                 (cron_severity now d))
           rows
  /\ total c' = total c.
Proof.
  induction rows as [|d rows IH]; intros c Hact; cbn [fold_left].
  - cbv zeta. unfold count_if. cbn. repeat split; lia.
  - inversion Hact as [|? ? Hd Hrest]; subst.
    specialize (IH (recalculate_count now c d) Hrest). cbv zeta in *.
    destruct IH as (I1 & I2 & I3 & I4).
    rewrite I1, I2, I3, I4, !count_if_cons'.
    unfold recalculate_count. rewrite <- (cron_severity_classify d Hd).
    fold (cron_changes now d).
    destruct (cron_changes now d); cbn [andb changed expired escalated total].
    + destruct (bool_decide (cron_severity now d = SevEXPIRED)),
        (severity_escalated (ComplianceDeadline.severity d) (cron_severity now d));
        repeat split; lia.
    + repeat split; lia.
Qed.

Lemma selected_rows_active pid rows :
  Forall (fun d => is_active d = true) (List.filter (cron_selected pid) rows).
Proof.
  apply List.Forall_forall. intros d Hin. apply filter_In in Hin as [_ Hsel].
  apply (cron_selected_active pid d Hsel).
Qed.

(** For one project the hourly pass and [recalculate_severities] rewrite the
    deadline table in the same way and count the same changes and
    expirations. *)
Theorem recalculate_severities_matches_cron db totals pid :
  let pass := cron_project now (db, totals) pid in
  let recalc := recalculate_severities now db pid in
  deadlines (fst pass) = deadlines (fst recalc)
  /\ updated (snd pass) = updated totals + changed (snd recalc)
  /\ expired_total (snd pass) = expired_total totals + expired (snd recalc).
Proof.
  intros pass recalc. unfold recalc.
  rewrite recalculate_severities_deadlines.
  unfold pass, recalculate_severities.
  cbn [cron_project fst snd deadlines with_notifications with_deadlines].
  fold (cron_selected pid).
  destruct (cron_count_fold now db
              (List.filter (cron_selected pid) (deadlines db)) totals)
    as (C1 & C2 & _).
  destruct (recalculate_count_fold
              (List.filter (cron_selected pid) (deadlines db))
              {| escalated := 0; changed := 0; expired := 0;
                 total := Z.of_nat (length (List.filter (cron_selected pid)
                                              (deadlines db))) |}
              (selected_rows_active pid (deadlines db)))
    as (R1 & R2 & _).
  cbn [changed expired] in R1, R2.
  split; [reflexivity|]. rewrite C1, C2. unfold cron_selected in *.
  rewrite R1, R2. split; lia.
Qed.

Lemma count_if_le {A} (p q : A -> bool) l :
  (forall x, p x = true -> q x = true) -> count_if p l <= count_if q l.
Proof.
  intros H. induction l as [|x l IH]; [unfold count_if; cbn; lia|].
  rewrite !count_if_cons'. specialize (H x).
  destruct (p x), (q x); try lia; discriminate (H eq_refl).
Qed.

Lemma count_if_length {A} (p : A -> bool) l :
  0 <= count_if p l <= Z.of_nat (length l).
Proof.
  unfold count_if. pose proof (filter_length_le p l). lia.
Qed.

(** The counters [recalculate_severities] returns: [total] is the number of
    the project's ACTIVE and NOTICE_DRAFTED deadlines, and
    [0 <= expired <= escalated <= changed <= total]. *)
Theorem recalculate_severities_counters db pid :
  let c := snd (recalculate_severities now db pid) in
  total c
  = Z.of_nat (length (List.filter
                        (fun d => bool_decide
                                    (ComplianceDeadline.project_id d = pid)
                                  && is_active d)
                        (deadlines db)))
  /\ 0 <= expired c /\ expired c <= escalated c
  /\ escalated c <= changed c /\ changed c <= total c.
Proof.
  cbv zeta. unfold recalculate_severities. cbn [snd].
  fold (cron_selected pid).
  set (rows := List.filter (cron_selected pid) (deadlines db)).
  destruct (recalculate_count_fold rows
              {| escalated := 0; changed := 0; expired := 0;
                 total := Z.of_nat (length rows) |}
              (selected_rows_active pid (deadlines db)))
    as (R1 & R2 & R3 & R4).
  cbn [changed expired escalated total] in R1, R2, R3, R4.
  rewrite R1, R2, R3, R4. split; [reflexivity|].
  pose proof (count_if_length
                (fun d => cron_changes now d
                          && bool_decide (cron_severity now d = SevEXPIRED))
                rows) as [H0 _].
  pose proof (count_if_length (cron_changes now) rows) as [_ H1].
  split; [lia|]. split; [|split; [|lia]].
  - rewrite !Z.add_0_l. apply count_if_le. intros d H.
    apply andb_true_iff in H as [Hc He]. rewrite Hc. cbn [andb].
    apply bool_decide_eq_true in He. unfold cron_changes in Hc.
    apply bool_decide_eq_true in Hc. rewrite He in *.
    unfold severity_escalated.
    destruct (ComplianceDeadline.severity d); try reflexivity.
    congruence.
  - rewrite !Z.add_0_l. apply count_if_le. intros d H.
    apply andb_true_iff in H as [Hc _]. exact Hc.
Qed.

Lemma count_if_none {A} (p : A -> bool) l :
  (forall x, In x l -> p x = false) -> count_if p l = 0.
Proof.
  intros H. induction l as [|x l IH]; [reflexivity|].
  rewrite count_if_cons', (H x (or_introl eq_refl)), IH; [reflexivity|].
  intros y Hy. apply H. right. exact Hy.
Qed.

Lemma update_where_fixed {A} (p : A -> bool) (f : A -> A) rows :
  (forall r, In r rows -> p r = true -> f r = r) ->
  update_where p f rows = rows.
Proof.
  intros H. unfold update_where. rewrite <- (map_id rows) at 2.
  apply map_ext_in. intros r Hin. destruct (p r) eqn:Hp; [|reflexivity].
  apply (H r Hin Hp).
Qed.

Lemma with_deadlines_same db : with_deadlines (deadlines db) db = db.
Proof. destruct db; reflexivity. Qed.

(** Recalculating again at the same instant changes nothing: the database
    stays as the first recalculation left it and no change is counted. *)
Theorem recalculate_severities_twice db pid :
  let first := recalculate_severities now db pid in
  let second := recalculate_severities now (fst first) pid in
  fst second = fst first
  /\ changed (snd second) = 0
  /\ escalated (snd second) = 0
  /\ expired (snd second) = 0.
Proof.
  intros first second.
  assert (Hrows : forall d, In d (deadlines (fst first)) ->
                            cron_selected pid d = true ->
                            cron_update now d = d
                            /\ cron_changes now d = false).
  { intros d Hin Hsel. unfold first in Hin.
    rewrite recalculate_severities_deadlines in Hin.
    apply In_update_where in Hin as (d0 & _ & [[Hp ->]|[Hp ->]]).
    - pose proof (cron_selected_active _ _ Hsel) as Hact.
      pose proof (cron_update_settles now d0 Hact) as Hsev.
      rewrite <- (cron_severity_cron_update now d0) in Hsev.
      split; [apply cron_update_fixed; exact Hsev|].
      unfold cron_changes. apply bool_decide_eq_false_2. intros Hne.
      apply Hne. exact Hsev.
    - rewrite Hp in Hsel. discriminate Hsel. }
  assert (Hdb : fst second = fst first).
  { assert (Hd : deadlines (fst second) = deadlines (fst first)).
    { unfold second. rewrite recalculate_severities_deadlines.
      apply update_where_fixed. intros d Hin Hsel.
      apply (Hrows d Hin Hsel). }
    unfold second in *. unfold recalculate_severities in *. cbn [fst] in *.
    cbn [deadlines with_deadlines] in Hd. rewrite Hd.
    apply with_deadlines_same. }
  split; [exact Hdb|].
  unfold second, recalculate_severities. cbn [snd]. fold (cron_selected pid).
  set (rows := List.filter (cron_selected pid) (deadlines (fst first))).
  destruct (recalculate_count_fold rows
              {| escalated := 0; changed := 0; expired := 0;
                 total := Z.of_nat (length rows) |}
              (selected_rows_active pid (deadlines (fst first))))
    as (R1 & R2 & R3 & _).
  cbn [changed expired escalated] in R1, R2, R3.
  assert (Hsame : forall d, In d rows -> cron_changes now d = false).
  { intros d Hin. apply filter_In in Hin as [Hin Hsel].
    apply (Hrows d Hin Hsel). }
  rewrite R1, R2, R3.
  rewrite !(count_if_none _ rows); [repeat split; lia| | |].
  - intros d Hin. rewrite (Hsame d Hin). reflexivity.
  - intros d Hin. rewrite (Hsame d Hin). reflexivity.
  - exact Hsame.
Qed.

End Recalculation.


(** * Notice engine: the requests as steps of the notice table *)

Lemma update_where_twice {A} (p : A -> bool) (f g : A -> A) rows :
  (forall r, p (f r) = p r) ->
  update_where p g (update_where p f rows)
  = update_where p (fun r => g (f r)) rows.
Proof.
  intros Hp. unfold update_where. rewrite map_map. apply map_ext. intros r.
  destruct (p r) eqn:E; [rewrite Hp, E|rewrite E]; reflexivity.
Qed.

Lemma filter_update_where {A} (p : A -> bool) (f : A -> A) rows :
  (forall r, p (f r) = p r) ->
  List.filter p (update_where p f rows) = map f (List.filter p rows).
Proof.
  intros Hp. induction rows as [|r rows IH]; [reflexivity|].
  unfold update_where in *. cbn [map List.filter].
  destruct (p r) eqn:E.
  - rewrite Hp, E. cbn [map]. rewrite IH. reflexivity.
  - rewrite E. exact IH.
Qed.

Ltac found_row n :=
  match goal with
  | Hfound : scalar_one_or_none _ = Ok (Some ?m) |- _ =>
      apply scalar_one_or_none_Some in Hfound; pose (n := m)
  end.

Section NoticeSteps.

Variable generate_cuid : nat -> string.

Lemma create_notice_step now db project_id notice_type title content user_id
    clause_id due_date recipient_name recipient_email deadline_id :
  notice_table_step (notices db)
    (notices (serve generate_cuid db
                (CreateNotice now project_id notice_type title content
                   user_id clause_id due_date recipient_name recipient_email
                   deadline_id))).
Proof.
  cbn [serve].
  destruct (create_notice _ _ _ _ _ _ _ _ _ _ _ _ _) as [[db' r]|e] eqn:H;
    cbn [committed]; [|constructor].
  unfold create_notice, get_deadline_by_id, fresh_cuid in H.
  cbn [deadlines add_notice with_notices with_next_cuid] in H.
  repeat break_service H.
  all: inversion H; subst; clear H;
    cbn [notices add_audit with_audit_log with_deadlines with_notices
           with_next_cuid];
    apply step_draft; reflexivity.
Qed.

Lemma update_notice_step db notice_id project_id user_id title content
    recipient_name recipient_email due_date :
  notice_table_step (notices db)
    (notices (serve generate_cuid db
                (UpdateNotice notice_id project_id user_id title content
                   recipient_name recipient_email due_date))).
Proof.
  cbn [serve].
  destruct (update_notice _ _ _ _ _ _ _ _ _) as [[db' r]|e] eqn:H;
    cbn [committed]; [|constructor].
  unfold update_notice, get_notice_by_id in H.
  repeat break_service H.
  all: inversion H; subst; clear H; cbn [notices with_notices];
    try constructor.
  found_row n.
  apply (step_edit _ _ _ n); try assumption.
  - apply negb_false; assumption.
  - unfold apply_edits, set_if_given.
    destruct title, content, recipient_name, recipient_email, due_date;
      reflexivity.
  - unfold apply_edits, set_if_given.
    destruct title, content, recipient_name, recipient_email, due_date;
      reflexivity.
Qed.

Lemma apply_edits_id title content recipient_name recipient_email due_date n :
  ComplianceNotice.id
    (apply_edits title content recipient_name recipient_email due_date n)
  = ComplianceNotice.id n
  /\ ComplianceNotice.project_id
       (apply_edits title content recipient_name recipient_email due_date n)
     = ComplianceNotice.project_id n.
Proof.
  unfold apply_edits, set_if_given.
  destruct title, content, recipient_name, recipient_email, due_date;
    split; reflexivity.
Qed.

Lemma apply_status_id now new_status n :
  ComplianceNotice.id (apply_status now new_status n) = ComplianceNotice.id n
  /\ ComplianceNotice.project_id (apply_status now new_status n)
     = ComplianceNotice.project_id n.
Proof.
  unfold apply_status.
  destruct (bool_decide (new_status = ACKNOWLEDGED)
            && negb (bool_decide (is_Some (ComplianceNotice.acknowledged_at n))));
    split; reflexivity.
Qed.

Lemma update_notice_endpoint_step now db project_id notice_id user_id body :
  notice_table_step (notices db)
    (notices (serve generate_cuid db
                (PatchNotice now project_id notice_id user_id body))).
Proof.
  cbn [serve].
  destruct (update_notice_endpoint _ _ _ _ _ _) as [[db' r]|e] eqn:H;
    cbn [committed]; [|constructor].
  unfold update_notice_endpoint, update_notice, get_notice_by_id in H.
  repeat break_service H.
  all: repeat match goal with
         | Heq : Ok _ = Ok _ |- _ => inversion Heq; subst; clear Heq
         | Heq : Raise _ = Ok _ |- _ => discriminate Heq
         | Heq : Ok _ = Raise _ |- _ => discriminate Heq
         | Heq : Raise _ = Raise _ |- _ => inversion Heq; subst; clear Heq
         | Heq : (_, _) = (_, _) |- _ => inversion Heq; subst; clear Heq
         end.
  all: cbn [notices with_notices].
  all: try rewrite update_where_twice by (intros; apply apply_edits_same_row).
  all: found_row n; apply (step_edit _ _ _ n); try assumption;
    try (apply negb_false; assumption);
    first [ apply apply_edits_id
          | etransitivity; [apply apply_status_id|apply apply_edits_id] ].
Qed.

Lemma send_notice_step now sent db notice_id project_id user_id :
  notice_table_step (notices db)
    (notices (serve generate_cuid db
                (SendNotice now sent notice_id project_id user_id))).
Proof.
  cbn [serve].
  destruct (send_notice now sent db notice_id project_id user_id)
    as [[db' r]|e] eqn:H; cbn [committed]; [|constructor].
  unfold send_notice, get_notice_by_id in H.
  cbn [deadlines with_notices] in H.
  repeat break_service H.
  all: inversion H; subst; clear H;
    cbn [notices add_audit with_audit_log with_deadlines with_notices];
    try constructor.
  all: match goal with
       | Hfound : scalar_one_or_none _ = Ok (Some ?n) |- _ =>
           apply scalar_one_or_none_Some in Hfound;
           eapply (step_edit _ _ _ n Hfound)
       end; try reflexivity; apply negb_false; assumption.
Qed.

Lemma confirm_delivery_step now db notice_id project_id user_id method
    tracking_number carrier delivered_at signed_by received_by :
  notice_table_step (notices db)
    (notices (serve generate_cuid db
                (ConfirmDelivery now notice_id project_id user_id method
                   tracking_number carrier delivered_at signed_by
                   received_by))).
Proof.
  cbn [serve].
  destruct (confirm_delivery _ _ _ _ _ _ _ _ _ _ _) as [[db' r]|e] eqn:H;
    cbn [committed]; [|constructor].
  unfold confirm_delivery, get_notice_by_id in H.
  repeat break_service H.
  all: inversion H; subst; clear H;
    cbn [notices add_audit with_audit_log with_notices]; try constructor.
  all: found_row n; apply (step_acknowledge _ _ _ n); try assumption.
  all: try (apply negb_false in Heqb; apply bool_decide_eq_true in Heqb;
            exact Heqb).
  all: cbn;
    destruct (negb (member method (ComplianceNotice.delivery_methods n)));
    reflexivity.
Qed.

Lemma regenerate_notice_draft_step ai_content ai_model db notice_id project_id
    user_id :
  notice_table_step (notices db)
    (notices (serve generate_cuid db
                (RegenerateNotice ai_content ai_model notice_id project_id
                   user_id))).
Proof.
  cbn [serve].
  destruct (regenerate_notice_draft _ _ _ _ _ _) as [[db' r]|e] eqn:H;
    cbn [committed]; [|constructor].
  unfold regenerate_notice_draft, get_notice_by_id in H.
  repeat break_service H.
  all: inversion H; subst; clear H; cbn [notices with_notices];
    try constructor.
  all: match goal with
       | Hfound : scalar_one_or_none (List.filter (notice_by_id_and_project _ _) _)
                  = Ok (Some ?n) |- _ =>
           apply scalar_one_or_none_Some in Hfound;
           apply (step_edit _ _ _ n Hfound)
       end; try reflexivity; apply negb_false; assumption.
Qed.

Lemma delete_notice_step db notice_id project_id user_id :
  notice_table_step (notices db)
    (notices (serve generate_cuid db
                (DeleteNotice notice_id project_id user_id))).
Proof.
  cbn [serve].
  destruct (delete_notice _ _ _ _) as [[db' r]|e] eqn:H;
    cbn [committed]; [|constructor].
  unfold delete_notice, get_notice_by_id in H.
  repeat break_service H.
  all: inversion H; subst; clear H;
    cbn [notices add_audit with_audit_log with_deadlines with_notices];
    try constructor.
  all: match goal with
       | Hfound : scalar_one_or_none (List.filter (notice_by_id_and_project _ _) _)
                  = Ok (Some ?n) |- _ =>
           apply scalar_one_or_none_Some in Hfound;
           apply (step_delete _ _ n Hfound)
       end; apply negb_false; assumption.
Qed.

(** Every request is a step of the notice table. *)
Lemma serve_step db req :
  notice_table_step (notices db) (notices (serve generate_cuid db req)).
Proof.
  destruct req.
  - apply create_notice_step.
  - apply update_notice_step.
  - apply update_notice_endpoint_step.
  - apply send_notice_step.
  - apply confirm_delivery_step.
  - apply regenerate_notice_draft_step.
  - apply delete_notice_step.
Qed.

End NoticeSteps.


(** * Notice engine: sent notices are permanent *)

Lemma editable_not_sent n : editable n = true -> is_sent n = false.
Proof.
  unfold editable, is_sent. destruct (ComplianceNotice.status n); cbn;
    intros H; try discriminate H; reflexivity.
Qed.

Lemma filter_singleton_eq {A} (p : A -> bool) rows found r :
  List.filter p rows = [found] -> In r rows -> p r = true -> r = found.
Proof.
  intros Hf Hin Hp.
  assert (In r (List.filter p rows)) as H by (apply filter_In; auto).
  rewrite Hf in H. destruct H as [H|[]]. auto.
Qed.

Lemma In_update_where_other {A} (p : A -> bool) (f : A -> A) rows r :
  In r rows -> p r = false -> In r (update_where p f rows).
Proof.
  intros Hin Hp. unfold update_where. apply in_map_iff. exists r.
  rewrite Hp. auto.
Qed.

Lemma In_update_where_found {A} (p : A -> bool) (f : A -> A) rows r :
  In r rows -> p r = true -> In (f r) (update_where p f rows).
Proof.
  intros Hin Hp. unfold update_where. apply in_map_iff. exists r.
  rewrite Hp. auto.
Qed.

Lemma notice_table_step_keeps_sent rows rows' n :
  notice_table_step rows rows' -> In n rows -> is_sent n = true ->
  exists n',
    In n' rows'
    /\ ComplianceNotice.id n' = ComplianceNotice.id n
    /\ ComplianceNotice.project_id n' = ComplianceNotice.project_id n
    /\ ComplianceNotice.sent_at n' = ComplianceNotice.sent_at n
    /\ ComplianceNotice.on_time_status n' = ComplianceNotice.on_time_status n
    /\ is_sent n' = true.
Proof.
  intros Hstep Hin Hsent.
  destruct Hstep as [|d Hd|p g m Hf Hed Hid Hpid
                    |p g m Hf Hst Hst' Hid Hpid Hsa Hot|p m Hf Hed].
  - exists n. auto 10.
  - exists n. split; [apply in_or_app; left; exact Hin|auto 10].
  - destruct (p n) eqn:Hp.
    + pose proof (filter_singleton_eq p rows m n Hf Hin Hp). subst n.
      rewrite (editable_not_sent m Hed) in Hsent. discriminate Hsent.
    + exists n. split; [apply In_update_where_other; assumption|auto 10].
  - destruct (p n) eqn:Hp.
    + pose proof (filter_singleton_eq p rows m n Hf Hin Hp). subst n.
      exists (g m). split; [apply In_update_where_found; assumption|].
      unfold is_sent. rewrite Hst'. auto 10.
    + exists n. split; [apply In_update_where_other; assumption|auto 10].
  - destruct (p n) eqn:Hp.
    + pose proof (filter_singleton_eq p rows m n Hf Hin Hp). subst n.
      rewrite (editable_not_sent m Hed) in Hsent. discriminate Hsent.
    + exists n. split; [|auto 10]. apply filter_In. rewrite Hp. auto.
Qed.

(** A notice that is SENT or ACKNOWLEDGED survives every request: it is not
    deleted, it stays SENT or ACKNOWLEDGED, and its id, project, [sentAt] and
    [onTimeStatus] stay as they are. *)
Theorem sent_notice_is_permanent generate_cuid db req n :
  In n (notices db) -> is_sent n = true ->
  exists n',
    In n' (notices (serve generate_cuid db req))
    /\ ComplianceNotice.id n' = ComplianceNotice.id n
    /\ ComplianceNotice.project_id n' = ComplianceNotice.project_id n
    /\ ComplianceNotice.sent_at n' = ComplianceNotice.sent_at n
    /\ ComplianceNotice.on_time_status n' = ComplianceNotice.on_time_status n
    /\ is_sent n' = true.
Proof.
  intros Hin Hsent.
  apply (notice_table_step_keeps_sent (notices db) _ n
           (serve_step generate_cuid db req) Hin Hsent).
Qed.

(** * Scoring engine *)

Lemma count_if_update_where_le {A} (f p : A -> bool) (g : A -> A) l :
  (forall x, In x l -> p x = true -> f x = true -> f (g x) = true) ->
  count_if f l <= count_if f (update_where p g l).
Proof.
  intros H. induction l as [|x l IH]; [unfold count_if; cbn; lia|].
  unfold update_where in *. cbn [map]. rewrite !count_if_cons'.
  assert (IH' : count_if f l
                <= count_if f (map (fun r => if p r then g r else r) l)).
  { apply IH. intros y Hy. apply H. right. exact Hy. }
  specialize (H x (or_introl eq_refl)).
  destruct (p x); [|lia].
  destruct (f x); [rewrite (H eq_refl eq_refl); lia|].
  destruct (f (g x)); lia.
Qed.

Lemma on_time_total_count db project_id :
  on_time_total db project_id
  = count_if (on_time_sent project_id) (notices db).
Proof.
  unfold on_time_total, sent_notices. rewrite count_if_filter. reflexivity.
Qed.

Lemma on_time_sent_not_editable project_id n :
  editable n = true -> on_time_sent project_id n = false.
Proof.
  intros Hed. unfold on_time_sent. rewrite (editable_not_sent n Hed).
  rewrite andb_false_r. reflexivity.
Qed.

Lemma notice_table_step_on_time project_id rows rows' :
  notice_table_step rows rows' ->
  count_if (on_time_sent project_id) rows
  <= count_if (on_time_sent project_id) rows'.
Proof.
  intros Hstep.
  destruct Hstep as [|d Hd|p g m Hf Hed Hid Hpid
                    |p g m Hf Hst Hst' Hid Hpid Hsa Hot|p m Hf Hed].
  - lia.
  - rewrite count_if_app.
    pose proof (count_if_length (on_time_sent project_id) [d]). lia.
  - apply count_if_update_where_le. intros x Hin Hp Hx.
    pose proof (filter_singleton_eq p rows m x Hf Hin Hp). subst x.
    rewrite (on_time_sent_not_editable project_id m Hed) in Hx.
    discriminate Hx.
  - apply count_if_update_where_le. intros x Hin Hp Hx.
    pose proof (filter_singleton_eq p rows m x Hf Hin Hp). subst x.
    unfold on_time_sent, is_sent, is_on_time in *.
    rewrite Hpid, Hst', Hot. rewrite Hst in Hx. exact Hx.
  - rewrite count_if_filter.
    apply Z.eq_le_incl. apply count_if_ext_in. intros x Hin.
    destruct (p x) eqn:Hp; [|reflexivity].
    pose proof (filter_singleton_eq p rows m x Hf Hin Hp). subst x.
    rewrite (on_time_sent_not_editable project_id m Hed). reflexivity.
Qed.


Lemma count_if_filter_le {A} (p q : A -> bool) l :
  count_if p (List.filter q l) <= count_if p l.
Proof.
  rewrite count_if_filter. apply count_if_le. intros x H.
  apply andb_true_iff in H as [_ H]. exact H.
Qed.

Lemma count_if_insert p n l :
  count_if p (insert_by_sent_at_desc n l) = count_if p (n :: l).
Proof.
  induction l as [|m l IH]; [reflexivity|]. cbn [insert_by_sent_at_desc].
  destruct (sent_key m <=? sent_key n); [reflexivity|].
  rewrite !count_if_cons' in *. rewrite IH. lia.
Qed.

(** Sorting keeps the number of on-time notices. *)
Lemma count_if_sorted p l :
  count_if p (sorted_by_sent_at_desc l) = count_if p l.
Proof.
  induction l as [|n l IH]; [reflexivity|].
  cbn [sorted_by_sent_at_desc fold_right].
  fold (sorted_by_sent_at_desc l).
  rewrite count_if_insert, !count_if_cons', IH. reflexivity.
Qed.

Lemma streak_loop_bounds l : forall streak,
  streak <= streak_loop l streak
  /\ streak_loop l streak <= streak + count_if is_on_time l.
Proof.
  induction l as [|n l IH]; intros streak; cbn [streak_loop].
  - unfold count_if. cbn. lia.
  - rewrite count_if_cons'. destruct (is_on_time n).
    + specialize (IH (streak + 1)). lia.
    + pose proof (count_if_length is_on_time l). lia.
Qed.

(** The streak is a count of on-time notices among the given ones. *)
Lemma calculate_streak_bounds notices :
  0 <= _calculate_streak notices
  /\ _calculate_streak notices <= count_if is_on_time notices.
Proof.
  unfold _calculate_streak. destruct notices as [|n l].
  - unfold count_if. cbn. lia.
  - set (sent := List.filter _ (n :: l)).
    destruct (streak_loop_bounds (sorted_by_sent_at_desc sent) 0) as [H1 H2].
    rewrite count_if_sorted in H2.
    pose proof (count_if_filter_le is_on_time
                  (fun n => bool_decide (is_Some (ComplianceNotice.sent_at n)))
                  (n :: l)) as H3.
    fold sent in H3. lia.
Qed.

Lemma latest_score_found project_id rows : forall k i r,
  latest_score project_id rows k = Some (i, r) ->
  ComplianceScore.project_id r = project_id
  /\ (k <= i)%nat /\ nth_error rows (i - k) = Some r.
Proof.
  induction rows as [|r0 rows IH]; intros k i r H; cbn [latest_score] in H.
  - discriminate H.
  - assert (Hrest : latest_score project_id rows (S k) = Some (i, r) ->
                    ComplianceScore.project_id r = project_id
                    /\ (k <= i)%nat
                    /\ nth_error (r0 :: rows) (i - k) = Some r).
    { intros Hr. apply IH in Hr as (Hp & Hle & Hnth).
      split; [exact Hp|]. split; [lia|].
      replace (i - k)%nat with (S (i - S k)) by lia. exact Hnth. }
    assert (Hhere : ComplianceScore.project_id r0 = project_id ->
                    Some (k, r0) = Some (i, r) ->
                    ComplianceScore.project_id r = project_id
                    /\ (k <= i)%nat
                    /\ nth_error (r0 :: rows) (i - k) = Some r).
    { intros Hp Heq. inversion Heq; subst.
      split; [reflexivity|]. split; [lia|].
      replace (i - i)%nat with O by lia. reflexivity. }
    case_bool_decide as Hp; [|auto].
    destruct (latest_score project_id rows (S k)) as [[j r']|]; [|auto].
    destruct (ComplianceScore.calculated_at r0 <? ComplianceScore.calculated_at r');
      auto.
Qed.

Lemma In_list_insert {A} (l : list A) i x y :
  In x (<[i := y]> l) -> x = y \/ In x l.
Proof.
  revert i. induction l as [|z l IH]; intros i H; [inversion H|].
  destruct i as [|i]; cbn in H.
  - destruct H as [H|H]; [left; auto|right; right; exact H].
  - destruct H as [H|H]; [right; left; exact H|].
    apply IH in H as [H|H]; [left; exact H|right; right; exact H].
Qed.

Lemma calculate_score_notices now db project_id :
  notices (fst (calculate_score now db project_id)) = notices db.
Proof.
  unfold calculate_score.
  destruct (latest_score project_id (scores db) 0) as [[i r]|]; reflexivity.
Qed.

Lemma on_time_total_calculate_score now db project_id pid :
  on_time_total (fst (calculate_score now db project_id)) pid
  = on_time_total db pid.
Proof.
  unfold on_time_total, sent_notices. rewrite calculate_score_notices.
  reflexivity.
Qed.

(** What [calculate_score] returns and stores. *)
Lemma calculate_score_sound now db project_id :
  scores_sound db ->
  score_chain (snd (calculate_score now db project_id))
  /\ scores_sound (fst (calculate_score now db project_id)).
Proof.
  intros Hinv.
  pose proof (calculate_streak_bounds (sent_notices project_id db))
    as [Hs0 Hs1].
  pose proof (count_if_length is_on_time (sent_notices project_id db))
    as [_ Hle].
  pose proof (filter_length_le is_on_time (sent_notices project_id db)) as Hfl.
  assert (Hnew : forall r,
             In r (scores (fst (calculate_score now db project_id))) ->
             r = snd (calculate_score now db project_id)
             \/ In r (scores db)).
  { intros r. unfold calculate_score.
    destruct (latest_score project_id (scores db) 0) as [[i r0]|];
      cbn [fst snd scores with_scores]; intros Hin.
    - apply In_list_insert in Hin. exact Hin.
    - apply in_app_or in Hin as [Hin|[<-|[]]]; auto. }
  assert (Hret : score_chain (snd (calculate_score now db project_id))
                 /\ ComplianceScore.on_time_count
                      (snd (calculate_score now db project_id))
                    = on_time_total db project_id
                 /\ ComplianceScore.project_id
                      (snd (calculate_score now db project_id))
                    = project_id).
  { unfold calculate_score, score_chain, on_time_total.
    destruct (latest_score project_id (scores db) 0) as [[i r0]|] eqn:Hl;
      cbn [fst snd ComplianceScore.current_streak ComplianceScore.best_streak
             ComplianceScore.on_time_count ComplianceScore.total_count
             ComplianceScore.project_id].
    - apply latest_score_found in Hl as (Hp & _ & Hnth).
      apply nth_error_In in Hnth.
      destruct (Hinv r0 Hnth) as ((_ & Hb & _) & Hc).
      rewrite Hp in Hc. unfold on_time_total in Hc.
      repeat split; try lia. exact Hp.
    - repeat split; lia. }
  destruct Hret as (Hchain & Hcount & Hpid).
  split; [exact Hchain|].
  intros r Hin. apply Hnew in Hin as [->|Hin].
  - split; [exact Hchain|].
    rewrite on_time_total_calculate_score, Hpid, Hcount. lia.
  - rewrite on_time_total_calculate_score. apply Hinv. exact Hin.
Qed.

Section ScoreHistory.

Variable generate_cuid : nat -> string.

Lemma serve_scores db req : scores (serve generate_cuid db req) = scores db.
Proof.
  destruct req; cbn [serve].
  - destruct (create_notice _ _ _ _ _ _ _ _ _ _ _ _ _) as [[db' r]|e] eqn:H;
      cbn [committed]; [|reflexivity].
    unfold create_notice, get_deadline_by_id, fresh_cuid in H.
    cbn [deadlines add_notice with_notices with_next_cuid] in H.
    repeat break_service H.
    all: inversion H; subst; clear H; reflexivity.
  - destruct (update_notice _ _ _ _ _ _ _ _ _) as [[db' r]|e] eqn:H;
      cbn [committed]; [|reflexivity].
    unfold update_notice, get_notice_by_id in H.
    repeat break_service H.
    all: inversion H; subst; clear H; reflexivity.
  - destruct (update_notice_endpoint _ _ _ _ _ _) as [[db' r]|e] eqn:H;
      cbn [committed]; [|reflexivity].
    unfold update_notice_endpoint, update_notice, get_notice_by_id in H.
    repeat break_service H.
    all: repeat match goal with
           | Heq : Ok _ = Ok _ |- _ => inversion Heq; subst; clear Heq
           | Heq : Raise _ = Ok _ |- _ => discriminate Heq
           | Heq : Ok _ = Raise _ |- _ => discriminate Heq
           | Heq : Raise _ = Raise _ |- _ => inversion Heq; subst; clear Heq
           | Heq : (_, _) = (_, _) |- _ => inversion Heq; subst; clear Heq
           end.
    all: reflexivity.
  - destruct (send_notice _ _ _ _ _ _) as [[db' r]|e] eqn:H;
      cbn [committed]; [|reflexivity].
    unfold send_notice, get_notice_by_id in H.
    cbn [deadlines with_notices] in H.
    repeat break_service H.
    all: inversion H; subst; clear H; reflexivity.
  - destruct (confirm_delivery _ _ _ _ _ _ _ _ _ _ _) as [[db' r]|e] eqn:H;
      cbn [committed]; [|reflexivity].
    unfold confirm_delivery, get_notice_by_id in H.
    repeat break_service H.
    all: inversion H; subst; clear H; reflexivity.
  - destruct (regenerate_notice_draft _ _ _ _ _ _) as [[db' r]|e] eqn:H;
      cbn [committed]; [|reflexivity].
    unfold regenerate_notice_draft, get_notice_by_id in H.
    repeat break_service H.
    all: inversion H; subst; clear H; reflexivity.
  - destruct (delete_notice _ _ _ _) as [[db' r]|e] eqn:H;
      cbn [committed]; [|reflexivity].
    unfold delete_notice, get_notice_by_id in H.
    repeat break_service H.
    all: inversion H; subst; clear H; reflexivity.
Qed.

(** No request lowers a project's number of on-time sent notices. *)
Lemma serve_on_time_total db req project_id :
  on_time_total db project_id
  <= on_time_total (serve generate_cuid db req) project_id.
Proof.
  rewrite !on_time_total_count.
  apply notice_table_step_on_time. apply serve_step.
Qed.

Lemma operated_scored db : operated generate_cuid db -> scored db.
Proof.
  induction 1 as [db Hnil|db req _ IH|now db pid _ IH|db db' _ IH Hn Hs].
  - apply scored_start. exact Hnil.
  - apply (scored_other db); [exact IH|apply serve_scores|].
    intros pid. apply serve_on_time_total.
  - apply scored_calculate. exact IH.
  - apply (scored_other db); [exact IH|exact Hs|].
    intros pid. unfold on_time_total, sent_notices. rewrite Hn. lia.
Qed.

Lemma scored_scores_sound db : scored db -> scores_sound db.
Proof.
  induction 1 as [db Hnil|now db project_id _ IH|db db' _ IH Hsame Hmono].
  - intros r Hin. rewrite Hnil in Hin. inversion Hin.
  - apply calculate_score_sound. exact IH.
  - intros r Hin. rewrite Hsame in Hin. destruct (IH r Hin) as [Hc Hle].
    split; [exact Hc|]. specialize (Hmono (ComplianceScore.project_id r)). lia.
Qed.

(** C9. Every score record that score calculation produces satisfies
    [currentStreak <= bestStreak <= onTimeCount <= totalCount], the record it
    returns and every record in the table afterwards, on every database
    [scored] describes: score records are written by [calculate_score] only,
    starting from none, and nothing in between lowers a project's number of
    on-time sent notices (sent notices are not deleted and [onTimeStatus] is
    not unset). *)
Theorem score_record_chain now db project_id :
  scored db ->
  score_chain (snd (calculate_score now db project_id))
  /\ Forall score_chain (scores (fst (calculate_score now db project_id))).
Proof.
  intros Hs. apply scored_scores_sound in Hs.
  destruct (calculate_score_sound now db project_id Hs) as [Hr Hsound].
  split; [exact Hr|].
  apply List.Forall_forall. intros r Hin. apply (Hsound r Hin).
Qed.

(** Whatever notice requests and score calculations came before, every score
    record in the database, and the one a further calculation returns,
    satisfies [currentStreak <= bestStreak <= onTimeCount <= totalCount]. *)
Theorem score_chain_always db now project_id :
  operated generate_cuid db ->
  Forall score_chain (scores db)
  /\ score_chain (snd (calculate_score now db project_id)).
Proof.
  intros Hop. apply operated_scored, scored_scores_sound in Hop. split.
  - apply List.Forall_forall. intros r Hin. apply (Hop r Hin).
  - apply calculate_score_sound. exact Hop.
Qed.

End ScoreHistory.


(** * Notice engine: sending, confirming and deleting *)

Section NoticeLifecycle.

Variable generate_cuid : nat -> string.

Lemma notice_by_id_and_project_set notice_id project_id
    (f : ComplianceNotice.t -> ComplianceNotice.t) :
  (forall n, ComplianceNotice.id (f n) = ComplianceNotice.id n
             /\ ComplianceNotice.project_id (f n)
                = ComplianceNotice.project_id n) ->
  forall n, notice_by_id_and_project notice_id project_id (f n)
            = notice_by_id_and_project notice_id project_id n.
Proof.
  intros H n. unfold notice_by_id_and_project.
  destruct (H n) as [-> ->]. reflexivity.
Qed.

(** Right after a successful [send_notice] a further [send_notice] of the
    same notice is refused, whoever asks and whenever. *)
Lemma send_notice_then_refused now sent db notice_id project_id user_id db'
    notice now' sent' user_id' :
  send_notice now sent db notice_id project_id user_id = Ok (db', Some notice) ->
  ComplianceNotice.status notice = SENT
  /\ ComplianceNotice.sent_at notice = Some now
  /\ send_notice now' sent' db' notice_id project_id user_id'
     = Raise (ValueError "Cannot send notice in SENT status").
Proof.
  intros H. unfold send_notice, get_notice_by_id in H.
  cbn [deadlines with_notices] in H.
  repeat break_service H.
  all: inversion H; subst; clear H.
  all: split; [reflexivity|]; split; [reflexivity|].
  all: match goal with
       | Hfound : scalar_one_or_none
                    (List.filter (notice_by_id_and_project _ _) _)
                  = Ok (Some ?n) |- _ =>
           apply scalar_one_or_none_Some in Hfound
       end.
  all: unfold send_notice, get_notice_by_id;
    cbn [notices add_audit with_audit_log with_deadlines with_notices];
    rewrite filter_update_where
      by (apply notice_by_id_and_project_set; intros; split; reflexivity);
    match goal with
    | Hfound : List.filter (notice_by_id_and_project _ _) _ = [_] |- _ =>
        rewrite Hfound
    end; reflexivity.
Qed.

(** [confirm_delivery] succeeds only on a SENT notice and leaves it
    ACKNOWLEDGED, with [sentAt] and [onTimeStatus] as they were, so a further
    confirmation right after it is refused, also one for another delivery
    method. *)
Lemma confirm_delivery_then_refused now db notice_id project_id user_id method
    tracking_number carrier delivered_at signed_by received_by db' notice
    now' user_id' method' tracking_number' carrier' delivered_at' signed_by'
    received_by' :
  confirm_delivery now db notice_id project_id user_id method tracking_number
    carrier delivered_at signed_by received_by = Ok (db', Some notice) ->
  ComplianceNotice.status notice = ACKNOWLEDGED
  /\ ComplianceNotice.delivered_at notice = Some (default now delivered_at)
  /\ In method (ComplianceNotice.delivery_methods notice)
  /\ (exists sent_notice,
        In sent_notice (notices db)
        /\ ComplianceNotice.status sent_notice = SENT
        /\ ComplianceNotice.sent_at notice = ComplianceNotice.sent_at sent_notice
        /\ ComplianceNotice.on_time_status notice
           = ComplianceNotice.on_time_status sent_notice)
  /\ confirm_delivery now' db' notice_id project_id user_id' method'
       tracking_number' carrier' delivered_at' signed_by' received_by'
     = Raise (ValueError
                "Cannot confirm delivery for notice in ACKNOWLEDGED status").
Proof.
  intros H. unfold confirm_delivery, get_notice_by_id in H.
  repeat break_service H.
  all: inversion H; subst; clear H.
  all: match goal with
       | Hfound : scalar_one_or_none
                    (List.filter (notice_by_id_and_project _ _) _)
                  = Ok (Some ?n) |- _ =>
           apply scalar_one_or_none_Some in Hfound; rename Hfound into Hf;
           rename n into found
       end.
  all: match goal with
       | Hst : negb (bool_decide (_ = SENT)) = false |- _ =>
           apply negb_false, bool_decide_eq_true in Hst; rename Hst into Hsent
       end.
  all: match goal with
       | Hm : negb (member _ _) = _ |- _ =>
           cbn [ComplianceNotice.delivery_methods ComplianceNotice.set_status
                  ComplianceNotice.set_delivered_at
                  ComplianceNotice.set_delivery_confirmation] in Hm
       end.
  all: assert (Hin : In found (notices db))
    by (assert (In found
                  (List.filter (notice_by_id_and_project notice_id project_id)
                     (notices db))) as Hi
          by (rewrite Hf; left; reflexivity);
        apply filter_In in Hi as [Hi _]; exact Hi).
  all: split; [reflexivity|]; split; [reflexivity|].
  all: split;
    [first [ cbn; apply in_or_app; right; left; reflexivity
           | cbn; apply member_In, negb_false; assumption ]|].
  all: split; [exists found; auto|].
  all: unfold confirm_delivery, get_notice_by_id;
    cbn [notices add_audit with_audit_log with_notices];
    rewrite filter_update_where, Hf;
    [ cbn [map scalar_one_or_none bind
             ComplianceNotice.delivery_methods ComplianceNotice.set_status
             ComplianceNotice.set_delivered_at
             ComplianceNotice.set_delivery_confirmation];
      match goal with
      | Hm : negb (member _ _) = _ |- _ => rewrite Hm
      end; reflexivity
    | apply notice_by_id_and_project_set; intros n;
      cbn [ComplianceNotice.delivery_methods ComplianceNotice.set_status
             ComplianceNotice.set_delivered_at
             ComplianceNotice.set_delivery_confirmation];
      destruct (negb (member method (ComplianceNotice.delivery_methods n)));
        split; reflexivity ].
Qed.

End NoticeLifecycle.


(** * Deadline registry: listing *)

Lemma insert_by_deadline_perm d l :
  Permutation (insert_by_deadline d l) (d :: l).
Proof.
  induction l as [|e l IH]; cbn [insert_by_deadline]; [reflexivity|].
  destruct (_ <=? _); [reflexivity|].
  rewrite IH. apply perm_swap.
Qed.

Lemma sorted_by_deadline_perm l : Permutation (sorted_by_deadline l) l.
Proof.
  induction l as [|d l IH]; [reflexivity|].
  cbn [sorted_by_deadline fold_right]. fold (sorted_by_deadline l).
  rewrite insert_by_deadline_perm, IH. reflexivity.
Qed.

Lemma insert_by_deadline_sorted d l :
  StronglySorted
    (fun a b => ComplianceDeadline.calculated_deadline a
                <= ComplianceDeadline.calculated_deadline b) l ->
  StronglySorted
    (fun a b => ComplianceDeadline.calculated_deadline a
                <= ComplianceDeadline.calculated_deadline b)
    (insert_by_deadline d l).
Proof.
  induction l as [|e l IH]; intros Hs; cbn [insert_by_deadline].
  - repeat constructor.
  - apply StronglySorted_inv in Hs as [Hl He].
    destruct (Z.leb_spec (ComplianceDeadline.calculated_deadline d)
                (ComplianceDeadline.calculated_deadline e)) as [Hle|Hgt].
    + constructor; [constructor; assumption|].
      constructor; [exact Hle|].
      eapply List.Forall_impl; [|exact He]. cbn beta. intros a Ha. lia.
    + constructor; [apply IH; exact Hl|].
      apply List.Forall_forall. intros a Ha.
      apply (Permutation_in _ (insert_by_deadline_perm d l)) in Ha.
      destruct Ha as [<-|Ha]; [lia|].
      rewrite List.Forall_forall in He. apply He. exact Ha.
Qed.

(** [get_deadlines] returns the deadlines of the project that pass the
    filters given, each as often as the table holds it, in the order of
    their calculated deadlines. *)
Theorem get_deadlines_sorted_selection db project_id status severity :
  let found := get_deadlines db project_id status severity in
  StronglySorted
    (fun a b => ComplianceDeadline.calculated_deadline a
                <= ComplianceDeadline.calculated_deadline b) found
  /\ Permutation found
       (List.filter (listed project_id status severity) (deadlines db))
  /\ forall d, In d found
               <-> In d (deadlines db)
                   /\ ComplianceDeadline.project_id d = project_id
                   /\ (forall s, status = Some s ->
                                 ComplianceDeadline.status d = s)
                   /\ (forall s, severity = Some s ->
                                 ComplianceDeadline.severity d = s).
Proof.
  intros found. unfold found, get_deadlines.
  set (rows := List.filter _ (deadlines db)).
  split; [|split; [apply sorted_by_deadline_perm|]].
  - induction rows as [|d l IH]; [constructor|].
    cbn [sorted_by_deadline fold_right]. apply insert_by_deadline_sorted.
    exact IH.
  - intros d. split.
    + intros Hin. apply (Permutation_in _ (sorted_by_deadline_perm rows)) in Hin.
      apply filter_In in Hin as [Hin Hsel]. split; [exact Hin|].
      unfold listed in Hsel.
      apply andb_true_iff in Hsel as [Hsel Hsev].
      apply andb_true_iff in Hsel as [Hpid Hst].
      apply bool_decide_eq_true in Hpid. split; [exact Hpid|]. split.
      * intros s ->. apply bool_decide_eq_true in Hst. exact Hst.
      * intros s ->. apply bool_decide_eq_true in Hsev. exact Hsev.
    + intros (Hin & Hpid & Hst & Hsev).
      apply (Permutation_in _ (Permutation_sym (sorted_by_deadline_perm rows))).
      apply filter_In. split; [exact Hin|]. unfold listed.
      rewrite (bool_decide_eq_true_2 _ Hpid). cbn [andb].
      apply andb_true_iff. split.
      * destruct status as [s|]; [|reflexivity].
        apply bool_decide_eq_true_2. apply Hst. reflexivity.
      * destruct severity as [s|]; [|reflexivity].
        apply bool_decide_eq_true_2. apply Hsev. reflexivity.
Qed.


(** * Scoring engine: the record a calculation writes *)

Lemma count_if_disjoint {A} (p q : A -> bool) l :
  (forall x, p x && q x = false) ->
  count_if p l + count_if q l <= Z.of_nat (length l).
Proof.
  intros H.
  rewrite <- (count_if_split p q (fun x => p x || q x) l (fun _ => eq_refl) H).
  apply count_if_length.
Qed.

Lemma latest_score_lookup project_id rows : forall k i r,
  latest_score project_id rows k = Some (i, r) ->
  ComplianceScore.project_id r = project_id
  /\ (k <= i)%nat /\ rows !! (i - k)%nat = Some r.
Proof.
  induction rows as [|r0 rows IH]; intros k i r H; cbn [latest_score] in H.
  - discriminate H.
  - assert (Hrest : latest_score project_id rows (S k) = Some (i, r) ->
                    ComplianceScore.project_id r = project_id
                    /\ (k <= i)%nat
                    /\ (r0 :: rows) !! (i - k)%nat = Some r).
    { intros Hr. apply IH in Hr as (Hp & Hle & Hnth).
      split; [exact Hp|]. split; [lia|].
      replace (i - k)%nat with (S (i - S k)) by lia. exact Hnth. }
    assert (Hhere : ComplianceScore.project_id r0 = project_id ->
                    Some (k, r0) = Some (i, r) ->
                    ComplianceScore.project_id r = project_id
                    /\ (k <= i)%nat
                    /\ (r0 :: rows) !! (i - k)%nat = Some r).
    { intros Hp Heq. inversion Heq; subst.
      split; [reflexivity|]. split; [lia|].
      replace (i - i)%nat with O by lia. reflexivity. }
    case_bool_decide as Hp; [|auto].
    destruct (latest_score project_id rows (S k)) as [[j r']|]; [|auto].
    destruct (ComplianceScore.calculated_at r0 <? ComplianceScore.calculated_at r');
      auto.
Qed.

Lemma latest_score_none project_id rows : forall k,
  latest_score project_id rows k = None
  <-> existsb (fun s => bool_decide (ComplianceScore.project_id s = project_id))
        rows = false.
Proof.
  induction rows as [|r0 rows IH]; intros k; cbn [latest_score existsb].
  - split; reflexivity.
  - case_bool_decide as Hp; cbn [orb].
    + split; [|discriminate].
      destruct (latest_score project_id rows (S k)) as [[j r']|];
        [destruct (_ <? _)|]; discriminate.
    + apply IH.
Qed.

(** The counters of the record [calculate_score] returns: it is the record
    of the project, stamped with the time of the calculation; on-time and
    missed notices are among the sent ones and do not overlap; at-risk and
    upcoming deadlines are among the open ones and do not overlap; the claim
    values are 50000 per on-time notice and per at-risk deadline; and the
    streak is at most the number of on-time notices. *)
Theorem calculate_score_counters now db project_id :
  let r := snd (calculate_score now db project_id) in
  ComplianceScore.project_id r = project_id
  /\ ComplianceScore.calculated_at r = now
  /\ ComplianceScore.total_count r
     = Z.of_nat (length (sent_notices project_id db))
  /\ 0 <= ComplianceScore.on_time_count r
  /\ 0 <= ComplianceScore.missed_count r
  /\ ComplianceScore.on_time_count r + ComplianceScore.missed_count r
     <= ComplianceScore.total_count r
  /\ 0 <= ComplianceScore.at_risk_count r
  /\ 0 <= ComplianceScore.upcoming_count r
  /\ ComplianceScore.at_risk_count r + ComplianceScore.upcoming_count r
     <= ComplianceScore.active_count r
  /\ ComplianceScore.protected_claims_value r
     = ComplianceScore.on_time_count r * 50000
  /\ ComplianceScore.at_risk_value r
     = ComplianceScore.at_risk_count r * 50000
  /\ 0 <= ComplianceScore.current_streak r
  /\ ComplianceScore.current_streak r <= ComplianceScore.on_time_count r
  /\ ComplianceScore.current_streak r <= ComplianceScore.best_streak r.
Proof.
  cbv zeta.
  pose proof (calculate_streak_bounds (sent_notices project_id db))
    as [Hs0 Hs1].
  pose proof (count_if_length is_on_time (sent_notices project_id db)) as [Ho _].
  pose proof (count_if_length is_missed (sent_notices project_id db)) as [Hm _].
  assert (Hom : count_if is_on_time (sent_notices project_id db)
                + count_if is_missed (sent_notices project_id db)
                <= Z.of_nat (length (sent_notices project_id db))).
  { apply count_if_disjoint. intros n. unfold is_on_time, is_missed.
    destruct (ComplianceNotice.on_time_status n) as [[]|]; reflexivity. }
  set (open_ := List.filter
                  (fun d => bool_decide
                              (ComplianceDeadline.project_id d = project_id)
                            && is_active d) (deadlines db)).
  pose proof (count_if_length
                (fun d => member (ComplianceDeadline.severity d)
                            [SevCRITICAL; SevWARNING]) open_) as [Hr _].
  pose proof (count_if_length
                (fun d => member (ComplianceDeadline.severity d)
                            [SevLOW; SevINFO]) open_) as [Hu _].
  assert (Hru : count_if (fun d => member (ComplianceDeadline.severity d)
                                     [SevCRITICAL; SevWARNING]) open_
                + count_if (fun d => member (ComplianceDeadline.severity d)
                                       [SevLOW; SevINFO]) open_
                <= Z.of_nat (length open_)).
  { apply count_if_disjoint. intros d.
    destruct (ComplianceDeadline.severity d); reflexivity. }
  unfold calculate_score, DEFAULT_CLAIMS_VALUE. fold open_.
  destruct (latest_score project_id (scores db) 0) as [[i r0]|] eqn:Hl;
    cbn [snd ComplianceScore.project_id ComplianceScore.calculated_at
           ComplianceScore.total_count ComplianceScore.on_time_count
           ComplianceScore.missed_count ComplianceScore.at_risk_count
           ComplianceScore.upcoming_count ComplianceScore.active_count
           ComplianceScore.protected_claims_value
           ComplianceScore.at_risk_value ComplianceScore.current_streak
           ComplianceScore.best_streak].
  - apply latest_score_lookup in Hl as (Hp & _).
    repeat split; try assumption; try reflexivity; lia.
  - repeat split; try assumption; try reflexivity; lia.
Qed.

Lemma latest_score_latest project_id rows : forall k i r,
  latest_score project_id rows k = Some (i, r) ->
  forall s, In s rows -> ComplianceScore.project_id s = project_id ->
            ComplianceScore.calculated_at s <= ComplianceScore.calculated_at r.
Proof.
  induction rows as [|r0 rows IH]; intros k i r H s Hin Hs;
    cbn [latest_score] in H; [inversion Hin|].
  destruct Hin as [<-|Hin].
  - rewrite bool_decide_eq_true_2 in H by exact Hs.
    destruct (latest_score project_id rows (S k)) as [[j r']|];
      [|inversion H; subst; lia].
    destruct (Z.ltb_spec (ComplianceScore.calculated_at r0)
                (ComplianceScore.calculated_at r'));
      inversion H; subst; lia.
  - case_bool_decide as Hp; [|exact (IH _ _ _ H s Hin Hs)].
    destruct (latest_score project_id rows (S k)) as [[j r']|] eqn:Hrest.
    + pose proof (IH _ _ _ Hrest s Hin Hs) as Hle.
      destruct (Z.ltb_spec (ComplianceScore.calculated_at r0)
                  (ComplianceScore.calculated_at r'));
        inversion H; subst; lia.
    + exfalso. apply (latest_score_none project_id rows (S k)) in Hrest.
      assert (existsb
                (fun s => bool_decide (ComplianceScore.project_id s = project_id))
                rows = true) as Hex.
      { apply existsb_exists. exists s. split; [exact Hin|].
        apply bool_decide_eq_true_2. exact Hs. }
      rewrite Hex in Hrest. discriminate Hrest.
Qed.

Lemma existsb_project_false project_id rows :
  existsb (fun s => bool_decide (ComplianceScore.project_id s = project_id))
    rows = false ->
  forall s, In s rows -> ComplianceScore.project_id s <> project_id.
Proof.
  intros H s Hin Hs.
  assert (existsb
            (fun s => bool_decide (ComplianceScore.project_id s = project_id))
            rows = true) as Hex.
  { apply existsb_exists. exists s. split; [exact Hin|].
    apply bool_decide_eq_true_2. exact Hs. }
  rewrite Hex in H. discriminate H.
Qed.

(** [calculate_score] upserts.  When the project has a score record, the one
    rewritten is a latest one (no record of the project has a later
    [calculatedAt]): the new record takes its place, every other position of
    the table is unchanged, and the best streak carries over from it.  When
    the project has none, the new record is appended.  The record returned is
    in the table afterwards, the records of other projects are still there,
    and notices, deadlines and the audit log are not touched. *)
Theorem calculate_score_upserts now db project_id :
  let db' := fst (calculate_score now db project_id) in
  let r := snd (calculate_score now db project_id) in
  ((exists i latest,
       scores db !! i = Some latest
       /\ ComplianceScore.project_id latest = project_id
       /\ (forall s, In s (scores db) ->
                     ComplianceScore.project_id s = project_id ->
                     ComplianceScore.calculated_at s
                     <= ComplianceScore.calculated_at latest)
       /\ scores db' = <[i := r]> (scores db)
       /\ ComplianceScore.best_streak r
          = Z.max (ComplianceScore.best_streak latest)
              (ComplianceScore.current_streak r))
   \/ ((forall s, In s (scores db) ->
                  ComplianceScore.project_id s <> project_id)
       /\ scores db' = (scores db ++ [r])%list
       /\ ComplianceScore.best_streak r = ComplianceScore.current_streak r))
  /\ map ComplianceScore.project_id (scores db')
     = (if existsb
             (fun s => bool_decide (ComplianceScore.project_id s = project_id))
             (scores db)
        then map ComplianceScore.project_id (scores db)
        else map ComplianceScore.project_id (scores db) ++ [project_id])%list
  /\ In r (scores db')
  /\ (forall s, In s (scores db) ->
                ComplianceScore.project_id s <> project_id ->
                In s (scores db'))
  /\ notices db' = notices db
  /\ deadlines db' = deadlines db
  /\ audit_log db' = audit_log db.
Proof.
  cbv zeta. unfold calculate_score.
  destruct (latest_score project_id (scores db) 0) as [[i r0]|] eqn:Hl;
    cbn [fst snd scores with_scores notices deadlines audit_log].
  - assert (Hex : existsb (fun s => bool_decide
                                      (ComplianceScore.project_id s = project_id))
                    (scores db) = true).
    { apply not_false_iff_true. intros Hf.
      apply (latest_score_none project_id (scores db) 0) in Hf.
      rewrite Hf in Hl. discriminate Hl. }
    rewrite Hex.
    pose proof (latest_score_latest project_id (scores db) 0 i r0 Hl) as Hmax.
    apply latest_score_lookup in Hl as (Hp & _ & Hi).
    rewrite Nat.sub_0_r in Hi.
    split; [|split; [|split; [|split; [|auto]]]].
    + left. exists i, r0. repeat split; auto.
    + change (map ComplianceScore.project_id) with (fmap (M := list) ComplianceScore.project_id).
      rewrite list_fmap_insert.
      cbn [ComplianceScore.project_id].
      apply list_insert_id. rewrite list_lookup_fmap, Hi. reflexivity.
    + apply list_elem_of_In. apply list_elem_of_lookup. exists i.
      apply list_lookup_insert_eq. apply (lookup_lt_Some _ _ _ Hi).
    + intros s Hin Hne. apply list_elem_of_In in Hin.
      apply list_elem_of_lookup in Hin as [j Hj].
      apply list_elem_of_In. apply list_elem_of_lookup. exists j.
      rewrite list_lookup_insert_ne; [exact Hj|].
      intros ->. rewrite Hi in Hj. apply Hne. congruence.
  - apply (latest_score_none project_id (scores db) 0) in Hl. rewrite Hl.
    split; [|split; [|split; [|split; [|auto]]]].
    + right. split; [exact (existsb_project_false _ _ Hl)|].
      split; reflexivity.
    + rewrite map_app. reflexivity.
    + apply in_or_app. right. left. reflexivity.
    + intros s Hin _. apply in_or_app. left. exact Hin.
Qed.


(** * Trigger adapter: what a run creates *)

Section TriggerRuns.

Variable generate_cuid : nat -> string.

(** What [create_deadline] returns: nothing, with the database untouched, or
    a new ACTIVE deadline appended together with its audit entry. *)
Lemma create_deadline_result now db project_id clause_id event_type description
    triggered_at event_id triggered_by db' made :
  create_deadline generate_cuid now db project_id clause_id event_type
    description triggered_at event_id triggered_by = Ok (db', made) ->
  match made with
  | None => db' = db
  | Some deadline =>
      deadlines db' = (deadlines db ++ [deadline])%list
      /\ (exists audit,
            audit_log db' = (audit_log db ++ [audit])%list
            /\ ComplianceAuditLog.event_type audit = "DEADLINE_CREATED"
            /\ ComplianceAuditLog.entity_id audit
               = ComplianceDeadline.id deadline)
      /\ notifications db' = notifications db
      /\ notices db' = notices db
      /\ clauses db' = clauses db
      /\ scores db' = scores db
      /\ ComplianceDeadline.project_id deadline = project_id
      /\ ComplianceDeadline.clause_id deadline = clause_id
      /\ ComplianceDeadline.trigger_event_type deadline = event_type
      /\ ComplianceDeadline.trigger_event_id deadline = event_id
      /\ ComplianceDeadline.triggered_at deadline = triggered_at
      /\ ComplianceDeadline.status deadline = ACTIVE
      /\ ComplianceDeadline.notice_id deadline = None
  end.
Proof.
  unfold create_deadline, fresh_cuid. intros H.
  repeat break_service H.
  all: inversion H; subst; clear H; try reflexivity.
  cbn. repeat split; try reflexivity. eexists. repeat split; reflexivity.
Qed.

(** Whether [create_deadline] declines depends on the clause table only. *)
Lemma create_deadline_declines now db project_id clause_id event_type
    description triggered_at event_id triggered_by db0 :
  create_deadline generate_cuid now db project_id clause_id event_type
    description triggered_at event_id triggered_by = Ok (db0, None) ->
  forall now' db' event_type' description' triggered_at' event_id'
         triggered_by',
    clauses db' = clauses db ->
    create_deadline generate_cuid now' db' project_id clause_id event_type'
      description' triggered_at' event_id' triggered_by' = Ok (db', None).
Proof.
  unfold create_deadline, fresh_cuid. intros H now' db' event_type'
    description' triggered_at' event_id' triggered_by' Hc. rewrite Hc.
  repeat break_service H.
  all: inversion H; subst; clear H; cbn [bind];
    repeat match goal with
           | Heq : ?x = _ |- context [?x] => rewrite Heq
           end; reflexivity.
Qed.

Section OneEvent.

Variables (project_id event_id : string) (event_type : TriggerEventType).

(** The loop only appends: the deadlines it reports are the rows it added to
    the table, in order, one audit entry each. *)
Lemma trigger_loop_appends now describe user_id todo : forall db created db'
    created',
  trigger_loop generate_cuid now project_id event_id event_type describe
    user_id todo db created = Ok (db', created') ->
  exists new,
    created' = (created ++ new)%list
    /\ deadlines db' = (deadlines db ++ new)%list
    /\ (exists audits,
          audit_log db' = (audit_log db ++ audits)%list
          /\ map ComplianceAuditLog.entity_id audits
             = map ComplianceDeadline.id new
          /\ Forall (fun a => ComplianceAuditLog.event_type a
                              = "DEADLINE_CREATED") audits)
    /\ notifications db' = notifications db
    /\ notices db' = notices db
    /\ clauses db' = clauses db
    /\ scores db' = scores db
    /\ (length new <= length todo)%nat
    /\ Forall
         (fun d =>
            ComplianceDeadline.project_id d = project_id
            /\ ComplianceDeadline.trigger_event_id d = Some event_id
            /\ ComplianceDeadline.trigger_event_type d = event_type
            /\ ComplianceDeadline.triggered_at d = now
            /\ ComplianceDeadline.status d = ACTIVE
            /\ ComplianceDeadline.notice_id d = None
            /\ exists clause, In clause todo
                              /\ ComplianceDeadline.clause_id d
                                 = ContractClause.id clause)
         new.
Proof.
  induction todo as [|clause todo IH]; intros db created db' created' H;
    cbn [trigger_loop] in H.
  - inversion H; subst. exists []. rewrite !app_nil_r.
    repeat split; auto. exists []. rewrite app_nil_r. auto.
  - unfold bind in H.
    destruct (scalar_one_or_none _) as [[existing|]|] eqn:Hex;
      [| |discriminate H].
    + apply IH in H as (new & H1 & H2 & H3 & Hn & H4 & H5 & H6 & H7 & H8).
      exists new. repeat split; auto; [cbn [length]; lia|].
      eapply List.Forall_impl; [|exact H8]. cbn beta.
      intros d (? & ? & ? & ? & ? & ? & c & Hc & ?).
      repeat split; auto. exists c. split; [right; exact Hc|assumption].
    + destruct (create_deadline _ _ _ _ _ _ _ _ _ _) as [[db1 made]|] eqn:Hmade;
        [|discriminate H].
      apply create_deadline_result in Hmade.
      apply IH in H as (new & H1 & H2 & (audits & A1 & A2 & A3) & Hn & H4 & H5
                        & H6 & H7 & H8).
      assert (Hweak : Forall
                (fun d =>
                   ComplianceDeadline.project_id d = project_id
                   /\ ComplianceDeadline.trigger_event_id d = Some event_id
                   /\ ComplianceDeadline.trigger_event_type d = event_type
                   /\ ComplianceDeadline.triggered_at d = now
                   /\ ComplianceDeadline.status d = ACTIVE
                   /\ ComplianceDeadline.notice_id d = None
                   /\ exists c, In c (clause :: todo)
                                /\ ComplianceDeadline.clause_id d
                                   = ContractClause.id c)
                new).
      { eapply List.Forall_impl; [|exact H8]. cbn beta.
        intros d (? & ? & ? & ? & ? & ? & c & Hc & ?).
        repeat split; auto. exists c. split; [right; exact Hc|assumption]. }
      destruct made as [deadline|].
      * destruct Hmade as (M1 & (audit & M2 & M2' & M2'') & Mn & M3 & M4 & M5
                           & M6 & M7 & M8 & M9 & M10 & M11 & M12).
        exists (deadline :: new). rewrite H1, H2, Hn, H4, H5, H6, M1, Mn.
        rewrite <- !app_assoc. cbn [app length].
        split; [reflexivity|]. split; [reflexivity|]. split.
        { exists (audit :: audits). rewrite A1, M2, <- app_assoc.
          cbn [app map]. rewrite A2, M2''. repeat split; auto. }
        repeat split; auto; try lia.
        constructor; [|exact Hweak].
        repeat split; auto. exists clause. split; [left; reflexivity|exact M7].
      * subst db1. exists new. repeat split; auto; [|cbn [length]; lia].
        exists audits. auto.
Qed.

End OneEvent.

Section TriggerDistinct.

Variables (project_id event_id : string) (event_type : TriggerEventType).

(** A deadline of the event that is neither EXPIRED nor WAIVED keeps the loop
    from creating another deadline for its clause. *)
Lemma trigger_loop_skips_clause now describe user_id todo : forall db created db'
    created' d0,
  In d0 (deadlines db) ->
  existing_deadline project_id (ComplianceDeadline.clause_id d0) event_id
    event_type d0 = true ->
  trigger_loop generate_cuid now project_id event_id event_type describe
    user_id todo db created = Ok (db', created') ->
  exists new,
    created' = (created ++ new)%list
    /\ Forall (fun d => ComplianceDeadline.clause_id d
                        <> ComplianceDeadline.clause_id d0) new.
Proof.
  induction todo as [|clause todo IH]; intros db created db' created' d0 Hin
    Hlive H; cbn [trigger_loop] in H.
  - inversion H; subst. exists []. rewrite app_nil_r. auto.
  - unfold bind in H.
    destruct (scalar_one_or_none _) as [[existing|]|] eqn:Hex;
      [| |discriminate H].
    + exact (IH _ _ _ _ d0 Hin Hlive H).
    + assert (Hne : ContractClause.id clause
                    <> ComplianceDeadline.clause_id d0).
      { intros Heq.
        destruct (List.filter _ (deadlines db)) as [|d1 [|d2 rest]] eqn:Hf;
          cbn [scalar_one_or_none] in Hex; try discriminate Hex.
        assert (In d0 (List.filter
                         (existing_deadline project_id
                            (ContractClause.id clause) event_id event_type)
                         (deadlines db))) as Hd0.
        { apply filter_In. split; [exact Hin|]. rewrite Heq. exact Hlive. }
        rewrite Hf in Hd0. inversion Hd0. }
      destruct (create_deadline _ _ _ _ _ _ _ _ _ _) as [[db1 made]|] eqn:Hmade;
        [|discriminate H].
      apply create_deadline_result in Hmade.
      destruct made as [deadline|].
      * destruct Hmade as (M1 & _ & _ & _ & _ & _ & _ & M7 & _).
        assert (Hin1 : In d0 (deadlines db1)).
        { rewrite M1. apply in_or_app. left. exact Hin. }
        destruct (IH _ _ _ _ d0 Hin1 Hlive H) as (new & -> & Hnew).
        exists (deadline :: new). rewrite <- app_assoc.
        split; [reflexivity|]. constructor; [|exact Hnew].
        rewrite M7. exact Hne.
      * subst db1. exact (IH _ _ _ _ d0 Hin Hlive H).
Qed.

(** The loop creates at most one deadline per clause id, each for one of the
    clauses it was given. *)
Lemma trigger_loop_distinct now describe user_id todo : forall db created db'
    created',
  trigger_loop generate_cuid now project_id event_id event_type describe
    user_id todo db created = Ok (db', created') ->
  exists new,
    created' = (created ++ new)%list
    /\ NoDup (map ComplianceDeadline.clause_id new)
    /\ Forall (fun d => exists clause,
                   In clause todo
                   /\ ComplianceDeadline.clause_id d = ContractClause.id clause)
         new.
Proof.
  induction todo as [|clause todo IH]; intros db created db' created' H;
    cbn [trigger_loop] in H.
  - inversion H; subst. exists []. rewrite app_nil_r.
    split; [reflexivity|]. split; constructor.
  - assert (Hweak : forall new,
               Forall (fun d => exists c,
                           In c todo
                           /\ ComplianceDeadline.clause_id d
                              = ContractClause.id c) new ->
               Forall (fun d => exists c,
                           In c (clause :: todo)
                           /\ ComplianceDeadline.clause_id d
                              = ContractClause.id c) new).
    { intros new Hn. eapply List.Forall_impl; [|exact Hn]. cbn beta.
      intros d (c & Hc & Hd). exists c. split; [right; exact Hc|exact Hd]. }
    unfold bind in H.
    destruct (scalar_one_or_none _) as [[existing|]|] eqn:Hex;
      [| |discriminate H].
    + destruct (IH _ _ _ _ H) as (new & -> & Hnd & Hcl).
      exists new. auto.
    + destruct (create_deadline _ _ _ _ _ _ _ _ _ _) as [[db1 made]|] eqn:Hmade;
        [|discriminate H].
      apply create_deadline_result in Hmade.
      destruct made as [deadline|].
      * destruct Hmade as (M1 & _ & _ & _ & _ & _ & M6 & M7 & M8 & M9 & _ & M11
                           & _).
        destruct (IH _ _ _ _ H) as (new & Hc' & Hnd & Hcl).
        assert (Hlive : existing_deadline project_id
                          (ComplianceDeadline.clause_id deadline) event_id
                          event_type deadline = true).
        { unfold existing_deadline, same_trigger.
          rewrite M6, M8, M9, M11.
          rewrite !bool_decide_eq_true_2 by reflexivity. reflexivity. }
        assert (Hin1 : In deadline (deadlines db1)).
        { rewrite M1. apply in_or_app. right. left. reflexivity. }
        destruct (trigger_loop_skips_clause _ _ _ _ _ _ _ _ deadline Hin1 Hlive H)
          as (new' & Hc'' & Hne).
        rewrite Hc' in Hc''. apply app_inv_head in Hc''. subst new'.
        exists (deadline :: new). rewrite Hc', <- app_assoc.
        split; [reflexivity|]. split.
        -- cbn [map]. constructor; [|exact Hnd].
           intros Hdup. apply list_elem_of_In, in_map_iff in Hdup as (d & Hd & Hdin).
           rewrite List.Forall_forall in Hne. exact (Hne d Hdin Hd).
        -- constructor; [|apply Hweak; exact Hcl].
           exists clause. split; [left; reflexivity|exact M7].
      * subst db1. destruct (IH _ _ _ _ H) as (new & -> & Hnd & Hcl).
        exists new. auto.
Qed.

End TriggerDistinct.

Lemma process_trigger_frame now db project_id ev user_id db' created :
  process_trigger generate_cuid now db project_id ev user_id
  = Ok (db', created) ->
  deadlines db' = (deadlines db ++ created)%list
  /\ (exists audits,
        audit_log db' = (audit_log db ++ audits)%list
        /\ map ComplianceAuditLog.entity_id audits
           = map ComplianceDeadline.id created
        /\ Forall (fun a => ComplianceAuditLog.event_type a
                            = "DEADLINE_CREATED") audits)
  /\ notifications db' = notifications db
  /\ notices db' = notices db
  /\ clauses db' = clauses db
  /\ scores db' = scores db
  /\ (length created
      <= length (List.filter
                   (fun c => bool_decide (ContractClause.project_id c = project_id))
                   (clauses db)))%nat
  /\ Forall
       (fun d =>
          ComplianceDeadline.project_id d = project_id
          /\ ComplianceDeadline.trigger_event_id d = Some (event_id_of ev)
          /\ ComplianceDeadline.trigger_event_type d = event_type_of ev
          /\ ComplianceDeadline.triggered_at d = now
          /\ ComplianceDeadline.status d = ACTIVE
          /\ ComplianceDeadline.notice_id d = None)
       created.
Proof.
  intros H.
  assert (Hloop : exists kinds describe,
             (matching_clauses kinds project_id db = [] /\ db' = db
              /\ created = [])
             \/ trigger_loop generate_cuid now project_id (event_id_of ev)
                  (event_type_of ev) describe user_id
                  (matching_clauses kinds project_id db) db []
                = Ok (db', created)).
  { destruct ev as [rfi_id rfi_number rfi_subject
                   |change_event_id change_description];
      cbn [process_trigger] in H;
      [unfold trigger_rfi_compliance in H
      |unfold trigger_change_event_compliance in H].
    - exists RFI_CO_CLAUSE_KINDS. eexists.
      destruct (matching_clauses RFI_CO_CLAUSE_KINDS project_id db) eqn:E.
      + left. inversion H. auto.
      + right. exact H.
    - exists CHANGE_EVENT_CLAUSE_KINDS. eexists.
      destruct (matching_clauses CHANGE_EVENT_CLAUSE_KINDS project_id db) eqn:E.
      + left. inversion H. auto.
      + right. exact H. }
  destruct Hloop as (kinds & describe & [(Hnil & -> & ->)|Hloop]).
  - rewrite app_nil_r. repeat split; auto; [|cbn; lia].
    exists []. rewrite app_nil_r. auto.
  - apply trigger_loop_appends in Hloop
      as (new & H1 & H2 & H3 & Hn & H4 & H5 & H6 & H7 & H8).
    cbn [app] in H1. subst new. repeat split; auto.
    + etransitivity; [exact H7|]. unfold matching_clauses.
      clear. induction (clauses db) as [|c l IH]; [cbn; lia|].
      cbn [List.filter].
      destruct (bool_decide (ContractClause.project_id c = project_id));
        cbn [andb].
      * destruct (member _ _ && _); cbn [length]; lia.
      * exact IH.
    + eapply List.Forall_impl; [|exact H8]. cbn beta.
      intros d (? & ? & ? & ? & ? & ? & _). auto 10.
Qed.

Lemma process_trigger_distinct now db project_id ev user_id db' created :
  process_trigger generate_cuid now db project_id ev user_id
  = Ok (db', created) ->
  NoDup (map ComplianceDeadline.clause_id created)
  /\ Forall
       (fun d => exists clause,
            In clause (clauses db)
            /\ ContractClause.project_id clause = project_id
            /\ ComplianceDeadline.clause_id d = ContractClause.id clause)
       created.
Proof.
  intros H.
  assert (Hloop : exists kinds describe,
             (db' = db /\ created = [])
             \/ trigger_loop generate_cuid now project_id (event_id_of ev)
                  (event_type_of ev) describe user_id
                  (matching_clauses kinds project_id db) db []
                = Ok (db', created)).
  { destruct ev as [rfi_id rfi_number rfi_subject
                   |change_event_id change_description];
      cbn [process_trigger] in H;
      [unfold trigger_rfi_compliance in H
      |unfold trigger_change_event_compliance in H].
    - exists RFI_CO_CLAUSE_KINDS. eexists.
      destruct (matching_clauses RFI_CO_CLAUSE_KINDS project_id db) eqn:E.
      + left. inversion H. auto.
      + right. exact H.
    - exists CHANGE_EVENT_CLAUSE_KINDS. eexists.
      destruct (matching_clauses CHANGE_EVENT_CLAUSE_KINDS project_id db) eqn:E.
      + left. inversion H. auto.
      + right. exact H. }
  destruct Hloop as (kinds & describe & [(-> & ->)|Hloop]).
  - split; constructor.
  - apply trigger_loop_distinct in Hloop as (new & Hc & Hnd & Hcl).
    cbn [app] in Hc. subst new. split; [exact Hnd|].
    eapply List.Forall_impl; [|exact Hcl]. cbn beta.
    intros d (c & Hc & Hd). exists c.
    unfold matching_clauses in Hc. apply filter_In in Hc as [Hc Hp].
    apply andb_true_iff in Hp as [Hp _]. apply andb_true_iff in Hp as [Hp _].
    apply bool_decide_eq_true in Hp. auto.
Qed.

(** A trigger only appends to the deadline table: the deadlines it reports
    are exactly the rows it added, each ACTIVE, without a notice, triggered
    at the time of the run for the event and the project, each for a clause
    of the project and no two for the same clause, with one DEADLINE_CREATED
    audit entry each; notices, notifications, clauses and scores are not
    touched. *)
Theorem process_trigger_appends now db project_id ev user_id db' created :
  process_trigger generate_cuid now db project_id ev user_id
  = Ok (db', created) ->
  deadlines db' = (deadlines db ++ created)%list
  /\ (exists audits,
        audit_log db' = (audit_log db ++ audits)%list
        /\ map ComplianceAuditLog.entity_id audits
           = map ComplianceDeadline.id created
        /\ Forall (fun a => ComplianceAuditLog.event_type a
                            = "DEADLINE_CREATED") audits)
  /\ notifications db' = notifications db
  /\ notices db' = notices db
  /\ clauses db' = clauses db
  /\ scores db' = scores db
  /\ (length created
      <= length (List.filter
                   (fun c => bool_decide (ContractClause.project_id c = project_id))
                   (clauses db)))%nat
  /\ Forall
       (fun d =>
          ComplianceDeadline.project_id d = project_id
          /\ ComplianceDeadline.trigger_event_id d = Some (event_id_of ev)
          /\ ComplianceDeadline.trigger_event_type d = event_type_of ev
          /\ ComplianceDeadline.triggered_at d = now
          /\ ComplianceDeadline.status d = ACTIVE
          /\ ComplianceDeadline.notice_id d = None)
       created
  /\ NoDup (map ComplianceDeadline.clause_id created)
  /\ Forall
       (fun d => exists clause,
            In clause (clauses db)
            /\ ContractClause.project_id clause = project_id
            /\ ComplianceDeadline.clause_id d = ContractClause.id clause)
       created.
Proof.
  intros H.
  destruct (process_trigger_frame now db project_id ev user_id
              db' created H) as (H1 & H2 & H3 & H4 & H5 & H6 & H7 & H8).
  destruct (process_trigger_distinct now db project_id ev user_id db' created
              H) as (H9 & H10).
  auto 15.
Qed.

End TriggerRuns.


Section TriggerReplay.

Variable generate_cuid : nat -> string.
Variables (project_id event_id : string) (event_type : TriggerEventType).

(** [create_deadline] declines for the clause, whatever the rest of the
    call. *)
Let declines (db : DB) (clause_id : string) : Prop :=
  forall now db' event_type' description triggered_at event_id' triggered_by,
    clauses db' = clauses db ->
    create_deadline generate_cuid now db' project_id clause_id event_type'
      description triggered_at event_id' triggered_by = Ok (db', None).

(** A further run passes over the clause: its live deadline is there, or
    there is none and [create_deadline] declines. *)
Let passes (db : DB) (clause : ContractClause.t) : Prop :=
  (exists d,
      List.filter
        (existing_deadline project_id (ContractClause.id clause) event_id
           event_type) (deadlines db) = [d])
  \/ (List.filter
        (existing_deadline project_id (ContractClause.id clause) event_id
           event_type) (deadlines db) = []
      /\ declines db (ContractClause.id clause)).

Lemma scalar_one_or_none_None {A} (rows : list A) :
  scalar_one_or_none rows = Ok None -> rows = [].
Proof.
  destruct rows as [|r1 [|r2 rest]]; cbn; intros H; inversion H; reflexivity.
Qed.

Lemma trigger_loop_settles now describe user_id todo : forall db created db'
    created' done,
  trigger_loop generate_cuid now project_id event_id event_type describe
    user_id todo db created = Ok (db', created') ->
  (forall c, In c done -> passes db c) ->
  forall c, In c (done ++ todo) -> passes db' c.
Proof.
  induction todo as [|clause todo IH];
    intros db created db' created' done H Hdone c Hin;
    cbn [trigger_loop] in H.
  - inversion H; subst. rewrite app_nil_r in Hin. apply Hdone. exact Hin.
  - unfold bind in H.
    replace (done ++ clause :: todo)%list
      with ((done ++ [clause]) ++ todo)%list in Hin
      by (rewrite <- app_assoc; reflexivity).
    destruct (scalar_one_or_none _) as [[existing|]|] eqn:Hex;
      [| |discriminate H].
    + apply scalar_one_or_none_Some in Hex.
      apply (IH _ _ _ _ (done ++ [clause])%list H); [|exact Hin].
      intros c0 Hc0. apply in_app_or in Hc0 as [Hc0|[<-|[]]];
        [apply Hdone; exact Hc0|].
      left. exists existing. exact Hex.
    + apply scalar_one_or_none_None in Hex.
      destruct (create_deadline _ _ _ _ _ _ _ _ _ _) as [[db1 made]|] eqn:Hmade;
        [|discriminate H].
      apply (IH _ _ _ _ (done ++ [clause])%list H); [|exact Hin].
      pose proof (create_deadline_result _ _ _ _ _ _ _ _ _ _ _ _ Hmade) as Hres.
      destruct made as [deadline|].
      * destruct Hres as (M1 & _ & _ & _ & M4 & _ & M6 & M7 & M8 & M9 & _ & M11
                          & _).
        assert (Hnew : existing_deadline project_id (ContractClause.id clause)
                         event_id event_type deadline = true).
        { unfold existing_deadline, same_trigger.
          rewrite M6, M7, M8, M9, M11.
          rewrite !bool_decide_eq_true_2 by reflexivity. reflexivity. }
        intros c0 Hc0. apply in_app_or in Hc0 as [Hc0|[<-|[]]].
        -- destruct (decide (ContractClause.id c0 = ContractClause.id clause))
             as [Hsame|Hdiff].
           ++ exfalso. destruct (Hdone c0 Hc0) as [[d Hd]|[_ Hdecl]].
              ** rewrite Hsame, Hex in Hd. discriminate Hd.
              ** rewrite Hsame in Hdecl.
                 rewrite (Hdecl _ db _ _ _ _ _ eq_refl) in Hmade.
                 discriminate Hmade.
           ++ assert (Hother : existing_deadline project_id
                                 (ContractClause.id c0) event_id event_type
                                 deadline = false).
              { unfold existing_deadline, same_trigger. rewrite M7.
                rewrite (bool_decide_eq_false_2
                           (ContractClause.id clause = ContractClause.id c0))
                  by congruence.
                rewrite andb_false_r. reflexivity. }
              destruct (Hdone c0 Hc0) as [[d Hd]|[Hnone Hdecl]].
              ** left. exists d. rewrite M1, List.filter_app, Hd.
                 cbn [List.filter]. rewrite Hother. reflexivity.
              ** right. split.
                 --- rewrite M1, List.filter_app, Hnone. cbn [List.filter].
                     rewrite Hother. reflexivity.
                 --- intros now' db'' ? ? ? ? ? Hc. apply Hdecl.
                     rewrite Hc. exact M4.
        -- left. exists deadline. rewrite M1, List.filter_app, Hex.
           cbn [List.filter]. rewrite Hnew. reflexivity.
      * subst db1. intros c0 Hc0.
        apply in_app_or in Hc0 as [Hc0|[<-|[]]]; [apply Hdone; exact Hc0|].
        right. split; [exact Hex|].
        intros now' db'' ? ? ? ? ? Hc.
        apply (create_deadline_declines generate_cuid _ _ _ _ _ _ _ _ _ _
                 Hmade).
        exact Hc.
Qed.

Lemma trigger_loop_passes now describe user_id todo db created :
  (forall c, In c todo -> passes db c) ->
  trigger_loop generate_cuid now project_id event_id event_type describe
    user_id todo db created = Ok (db, created).
Proof.
  induction todo as [|clause todo IH]; intros Hall; cbn [trigger_loop];
    [reflexivity|].
  assert (Hrest : forall c, In c todo -> passes db c)
    by (intros c Hc; apply Hall; right; exact Hc).
  destruct (Hall clause (or_introl eq_refl)) as [[d Hd]|[Hnone Hdecl]].
  - rewrite Hd. cbn [scalar_one_or_none bind]. apply IH. exact Hrest.
  - rewrite Hnone. cbn [scalar_one_or_none bind].
    rewrite (Hdecl _ db _ _ _ _ _ eq_refl). cbn [bind]. apply IH. exact Hrest.
Qed.

(** The loop run again over the same clauses, right after a run that
    succeeded, creates nothing and changes nothing. *)
Lemma trigger_loop_replay now describe user_id todo db db' created now'
    describe' user_id' :
  trigger_loop generate_cuid now project_id event_id event_type describe
    user_id todo db [] = Ok (db', created) ->
  trigger_loop generate_cuid now' project_id event_id event_type describe'
    user_id' todo db' [] = Ok (db', []).
Proof.
  intros H. apply trigger_loop_passes.
  apply (trigger_loop_settles _ _ _ _ _ _ _ _ [] H).
  intros c [].
Qed.

End TriggerReplay.

Section TriggerTwice.

Variable generate_cuid : nat -> string.

(** A trigger processed again after it succeeded creates no deadline and
    leaves the database as the first run left it, at whatever time and for
    whatever user it is processed again. *)
Theorem process_trigger_twice now db project_id ev user_id db' created now'
    user_id' :
  process_trigger generate_cuid now db project_id ev user_id
  = Ok (db', created) ->
  process_trigger generate_cuid now' db' project_id ev user_id'
  = Ok (db', []).
Proof.
  intros H.
  pose proof (process_trigger_frame generate_cuid _ _ _ _ _ _ _ H)
    as (_ & _ & _ & _ & Hc & _).
  destruct ev as [rfi_id rfi_number rfi_subject
                 |change_event_id change_description];
    cbn [process_trigger] in *;
    [unfold trigger_rfi_compliance in *
    |unfold trigger_change_event_compliance in *].
  - replace (matching_clauses RFI_CO_CLAUSE_KINDS project_id db')
      with (matching_clauses RFI_CO_CLAUSE_KINDS project_id db)
      by (unfold matching_clauses; rewrite Hc; reflexivity).
    destruct (matching_clauses RFI_CO_CLAUSE_KINDS project_id db) eqn:E;
      [reflexivity|].
    eapply trigger_loop_replay. exact H.
  - replace (matching_clauses CHANGE_EVENT_CLAUSE_KINDS project_id db')
      with (matching_clauses CHANGE_EVENT_CLAUSE_KINDS project_id db)
      by (unfold matching_clauses; rewrite Hc; reflexivity).
    destruct (matching_clauses CHANGE_EVENT_CLAUSE_KINDS project_id db) eqn:E;
      [reflexivity|].
    eapply trigger_loop_replay. exact H.
Qed.

End TriggerTwice.


(** * Notice engine: deleting a draft *)

Lemma Forall2_update_where {A} (p : A -> bool) (f : A -> A) rows :
  Forall2 (fun r r' => if p r then r' = f r else r' = r) rows
    (update_where p f rows).
Proof.
  unfold update_where. induction rows as [|r rows IH]; cbn [map];
    constructor; [|exact IH].
  destruct (p r); reflexivity.
Qed.

Lemma Forall2_not_selected {A} (p : A -> bool) (f : A -> A) rows :
  List.filter p rows = [] ->
  Forall2 (fun r r' => if p r then r' = f r else r' = r) rows rows.
Proof.
  induction rows as [|r rows IH]; intros H; constructor;
    cbn [List.filter] in H; destruct (p r); try discriminate H; auto.
Qed.

Section NoticeDeletion.

(** Deleting a notice: the call reports [False], changing nothing, when the
    project has no such notice.  When it reports [True] the notice was a
    draft (DRAFT or PENDING_REVIEW) and is gone from the table, the other
    notices are kept in order, one audit entry is added, and the deadline
    linked to the notice is ACTIVE again without its notice link, whatever
    its status was; every other deadline is left as it is. *)
Theorem delete_notice_effects db notice_id project_id user_id db' deleted :
  delete_notice db notice_id project_id user_id = Ok (db', deleted) ->
  if deleted then
    (exists n, List.filter (notice_by_id_and_project notice_id project_id)
                 (notices db) = [n]
               /\ editable n = true)
    /\ notices db'
       = List.filter
           (fun n => negb (notice_by_id_and_project notice_id project_id n))
           (notices db)
    /\ length (audit_log db') = S (length (audit_log db))
    /\ Forall2
         (fun d d' =>
            if linked_to notice_id project_id d then
              d' = ComplianceDeadline.set_status ACTIVE
                     (ComplianceDeadline.set_notice None None d)
            else d' = d)
         (deadlines db) (deadlines db')
  else
    db' = db
    /\ List.filter (notice_by_id_and_project notice_id project_id)
         (notices db) = [].
Proof.
  intros H. unfold delete_notice, get_notice_by_id in H.
  repeat break_service H.
  all: inversion H; subst; clear H.
  all: try match goal with
         | Hfound : scalar_one_or_none
                      (List.filter (notice_by_id_and_project _ _) _)
                    = Ok (Some ?n) |- _ =>
             apply scalar_one_or_none_Some in Hfound
         end.
  all: try match goal with
         | Hnone : scalar_one_or_none
                     (List.filter (notice_by_id_and_project _ _) _)
                   = Ok None |- _ =>
             apply scalar_one_or_none_None in Hnone
         end.
  all: try (split; [reflexivity|assumption]).
  all: split; [eexists; split; [eassumption|apply negb_false; assumption]|].
  all: cbn [notices deadlines audit_log add_audit with_audit_log
              with_deadlines with_notices].
  all: split; [reflexivity|]. 
  all: split; [rewrite length_app; cbn; lia|].
  - apply Forall2_update_where.
  - match goal with
    | Hnone : scalar_one_or_none (List.filter (linked_to _ _) _) = Ok None
      |- _ => apply scalar_one_or_none_None in Hnone; rename Hnone into Hl
    end.
    apply Forall2_not_selected. exact Hl.
Qed.

End NoticeDeletion.

(** * Calendar service: the holidays that count *)

(** The federal holiday table: it covers 2025, 2026 and 2027 with eleven
    days each and is empty for every other year; every day listed lies in
    its year and on a weekday, so each one takes a business day away. *)
Theorem federal_holidays_table year :
  (length (get_federal_holidays year)
   = if (2025 <=? year) && (year <=? 2027) then 11%nat else 0%nat)
  /\ Forall (fun d => date_year d = year /\ 0 <= weekday d < 5)
       (get_federal_holidays year).
Proof.
  unfold get_federal_holidays, FEDERAL_HOLIDAYS.
  destruct (Z.eqb_spec year 2025) as [->|H25];
    [split; [reflexivity|]; repeat constructor; vm_compute; congruence|].
  destruct (Z.eqb_spec year 2026) as [->|H26];
    [split; [reflexivity|]; repeat constructor; vm_compute; congruence|].
  destruct (Z.eqb_spec year 2027) as [->|H27];
    [split; [reflexivity|]; repeat constructor; vm_compute; congruence|].
  split; [|constructor].
  destruct (Z.leb_spec 2025 year), (Z.leb_spec year 2027); cbn [andb];
    try reflexivity; lia.
Qed.


(** * The engine as a whole *)

Lemma same_deadline_refl d : same_deadline d d.
Proof. unfold same_deadline. auto 10. Qed.

Lemma Forall2_same_deadline_refl rows : Forall2 same_deadline rows rows.
Proof. induction rows; constructor; auto using same_deadline_refl. Qed.

Lemma Forall2_same_deadline_update p f rows :
  (forall d, same_deadline d (f d)) ->
  Forall2 same_deadline rows (update_where p f rows).
Proof.
  intros Hf. unfold update_where.
  induction rows as [|d rows IH]; cbn [map]; constructor; [|exact IH].
  destruct (p d); [apply Hf|apply same_deadline_refl].
Qed.

Lemma cron_update_same_deadline now d : same_deadline d (cron_update now d).
Proof.
  unfold cron_update. repeat case_bool_decide; unfold same_deadline; cbn;
    auto 10.
Qed.

Ltac kept_deadlines :=
  exists []; eexists; rewrite app_nil_r; (split; [|reflexivity]);
  first [ apply Forall2_same_deadline_refl
        | apply Forall2_same_deadline_update; intros d;
          unfold same_deadline;
          repeat match goal with
                 | |- context [if ?b then _ else _] => destruct b
                 end; cbn; auto 10 ].

Section Engine.

Variable generate_cuid : nat -> string.

Lemma serve_keeps_deadlines db req :
  exists new kept,
    Forall2 same_deadline (deadlines db) kept
    /\ deadlines (serve generate_cuid db req) = (kept ++ new)%list.
Proof.
  destruct req; cbn [serve].
  - destruct (create_notice _ _ _ _ _ _ _ _ _ _ _ _ _) as [[db' r]|e] eqn:H;
      cbn [committed]; [|kept_deadlines].
    unfold create_notice, get_deadline_by_id, fresh_cuid in H.
    cbn [deadlines add_notice with_notices with_next_cuid] in H.
    repeat break_service H.
    all: inversion H; subst; clear H;
      cbn [deadlines add_audit with_audit_log with_deadlines with_notices
             with_next_cuid]; kept_deadlines.
  - destruct (update_notice _ _ _ _ _ _ _ _ _) as [[db' r]|e] eqn:H;
      cbn [committed]; [|kept_deadlines].
    unfold update_notice, get_notice_by_id in H.
    repeat break_service H.
    all: inversion H; subst; clear H; cbn [deadlines with_notices];
      kept_deadlines.
  - destruct (update_notice_endpoint _ _ _ _ _ _) as [[db' r]|e] eqn:H;
      cbn [committed]; [|kept_deadlines].
    unfold update_notice_endpoint, update_notice, get_notice_by_id in H.
    repeat break_service H.
    all: repeat match goal with
           | Heq : Ok _ = Ok _ |- _ => inversion Heq; subst; clear Heq
           | Heq : Raise _ = Ok _ |- _ => discriminate Heq
           | Heq : Ok _ = Raise _ |- _ => discriminate Heq
           | Heq : Raise _ = Raise _ |- _ => inversion Heq; subst; clear Heq
           | Heq : (_, _) = (_, _) |- _ => inversion Heq; subst; clear Heq
           end.
    all: cbn [deadlines with_notices]; kept_deadlines.
  - destruct (send_notice _ _ _ _ _ _) as [[db' r]|e] eqn:H;
      cbn [committed]; [|kept_deadlines].
    unfold send_notice, get_notice_by_id in H.
    cbn [deadlines with_notices] in H.
    repeat break_service H.
    all: inversion H; subst; clear H;
      cbn [deadlines add_audit with_audit_log with_deadlines with_notices];
      kept_deadlines.
  - destruct (confirm_delivery _ _ _ _ _ _ _ _ _ _ _) as [[db' r]|e] eqn:H;
      cbn [committed]; [|kept_deadlines].
    unfold confirm_delivery, get_notice_by_id in H.
    repeat break_service H.
    all: inversion H; subst; clear H;
      cbn [deadlines add_audit with_audit_log with_notices];
      kept_deadlines.
  - destruct (regenerate_notice_draft _ _ _ _ _ _) as [[db' r]|e] eqn:H;
      cbn [committed]; [|kept_deadlines].
    unfold regenerate_notice_draft, get_notice_by_id in H.
    repeat break_service H.
    all: inversion H; subst; clear H; cbn [deadlines with_notices];
      kept_deadlines.
  - destruct (delete_notice _ _ _ _) as [[db' r]|e] eqn:H;
      cbn [committed]; [|kept_deadlines].
    unfold delete_notice, get_notice_by_id in H.
    repeat break_service H.
    all: inversion H; subst; clear H;
      cbn [deadlines add_audit with_audit_log with_deadlines with_notices];
      kept_deadlines.
Qed.

(** No operation deletes a deadline or rewrites what was fixed when it was
    created: after any call the table holds, in the same order, a row for
    every deadline it held before, with the same id, project, clause,
    trigger and calculated deadline, followed by the deadlines the call
    created. *)
Theorem perform_keeps_deadlines db op :
  exists new kept,
    Forall2 same_deadline (deadlines db) kept
    /\ deadlines (perform generate_cuid db op) = (kept ++ new)%list.
Proof.
  destruct op; cbn [perform].
  - apply serve_keeps_deadlines.
  - destruct (process_trigger _ _ _ _ _ _) as [[db' created]|e] eqn:H;
      cbn [committed]; [|kept_deadlines].
    apply process_trigger_frame in H as (H & _).
    exists created, (deadlines db).
    split; [apply Forall2_same_deadline_refl|exact H].
  - destruct (create_deadline _ _ _ _ _ _ _ _ _ _) as [[db' made]|e] eqn:H;
      cbn [committed]; [|kept_deadlines].
    apply create_deadline_result in H. destruct made as [deadline|].
    + destruct H as (H & _). exists [deadline], (deadlines db).
      split; [apply Forall2_same_deadline_refl|exact H].
    + subst db'. kept_deadlines.
  - destruct (update_deadline_status _ _ _ _ _ _ _) as [[db' r]|e] eqn:H;
      cbn [committed]; [|kept_deadlines].
    unfold update_deadline_status, get_deadline_by_id in H.
    repeat break_service H.
    all: inversion H; subst; clear H;
      cbn [deadlines add_audit with_audit_log with_deadlines];
      kept_deadlines.
  - destruct (waive_deadline _ _ _ _ _ _) as [[db' r]|e] eqn:H;
      cbn [committed]; [|kept_deadlines].
    unfold waive_deadline, get_deadline_by_id in H.
    repeat break_service H.
    all: inversion H; subst; clear H;
      cbn [deadlines add_audit with_audit_log with_deadlines];
      kept_deadlines.
  - rewrite recalculate_severities_deadlines.
    exists [], (update_where (cron_selected project_id) (cron_update now)
                  (deadlines db)).
    rewrite app_nil_r. split; [|reflexivity].
    apply Forall2_same_deadline_update. apply cron_update_same_deadline.
  - rewrite run_severity_cron_deadlines.
    exists [], (map (cron_row now) (deadlines db)).
    rewrite app_nil_r. split; [|reflexivity].
    induction (deadlines db) as [|d rows IH]; cbn [map]; constructor;
      [|exact IH].
    unfold cron_row. destruct (is_active d);
      [apply cron_update_same_deadline|apply same_deadline_refl].
  - exists [], (deadlines db). rewrite app_nil_r.
    split; [apply Forall2_same_deadline_refl|].
    unfold calculate_score.
    destruct (latest_score project_id (scores db) 0) as [[i r]|]; reflexivity.
Qed.

End Engine.


Ltac appended_nothing := exists []; rewrite app_nil_r; reflexivity.

Ltac appended_log :=
  cbn [audit_log notifications add_audit with_audit_log with_deadlines
         with_notices with_next_cuid with_notifications with_scores];
  first [ appended_nothing | eexists [_]; reflexivity ].

Section EngineLogs.

Variable generate_cuid : nat -> string.

Lemma serve_appends_audit db req :
  (exists entries,
      audit_log (serve generate_cuid db req)
      = (audit_log db ++ entries)%list)
  /\ notifications (serve generate_cuid db req) = notifications db.
Proof.
  destruct req; cbn [serve].
  - destruct (create_notice _ _ _ _ _ _ _ _ _ _ _ _ _) as [[db' r]|e] eqn:H;
      cbn [committed]; [|split; [appended_nothing|reflexivity]].
    unfold create_notice, get_deadline_by_id, fresh_cuid in H.
    cbn [deadlines add_notice with_notices with_next_cuid] in H.
    repeat break_service H.
    all: inversion H; subst; clear H; split; [appended_log|reflexivity].
  - destruct (update_notice _ _ _ _ _ _ _ _ _) as [[db' r]|e] eqn:H;
      cbn [committed]; [|split; [appended_nothing|reflexivity]].
    unfold update_notice, get_notice_by_id in H.
    repeat break_service H.
    all: inversion H; subst; clear H; split; [appended_log|reflexivity].
  - destruct (update_notice_endpoint _ _ _ _ _ _) as [[db' r]|e] eqn:H;
      cbn [committed]; [|split; [appended_nothing|reflexivity]].
    unfold update_notice_endpoint, update_notice, get_notice_by_id in H.
    repeat break_service H.
    all: repeat match goal with
           | Heq : Ok _ = Ok _ |- _ => inversion Heq; subst; clear Heq
           | Heq : Raise _ = Ok _ |- _ => discriminate Heq
           | Heq : Ok _ = Raise _ |- _ => discriminate Heq
           | Heq : Raise _ = Raise _ |- _ => inversion Heq; subst; clear Heq
           | Heq : (_, _) = (_, _) |- _ => inversion Heq; subst; clear Heq
           end.
    all: split; [appended_log|reflexivity].
  - destruct (send_notice _ _ _ _ _ _) as [[db' r]|e] eqn:H;
      cbn [committed]; [|split; [appended_nothing|reflexivity]].
    unfold send_notice, get_notice_by_id in H.
    cbn [deadlines with_notices] in H.
    repeat break_service H.
    all: inversion H; subst; clear H; split; [appended_log|reflexivity].
  - destruct (confirm_delivery _ _ _ _ _ _ _ _ _ _ _) as [[db' r]|e] eqn:H;
      cbn [committed]; [|split; [appended_nothing|reflexivity]].
    unfold confirm_delivery, get_notice_by_id in H.
    repeat break_service H.
    all: inversion H; subst; clear H; split; [appended_log|reflexivity].
  - destruct (regenerate_notice_draft _ _ _ _ _ _) as [[db' r]|e] eqn:H;
      cbn [committed]; [|split; [appended_nothing|reflexivity]].
    unfold regenerate_notice_draft, get_notice_by_id in H.
    repeat break_service H.
    all: inversion H; subst; clear H; split; [appended_log|reflexivity].
  - destruct (delete_notice _ _ _ _) as [[db' r]|e] eqn:H;
      cbn [committed]; [|split; [appended_nothing|reflexivity]].
    unfold delete_notice, get_notice_by_id in H.
    repeat break_service H.
    all: inversion H; subst; clear H; split; [appended_log|reflexivity].
Qed.

(** Under each of these calls (a notice request, a trigger,
    [create_deadline], [update_deadline_status], [waive_deadline],
    [recalculate_severities], the hourly severity pass, [calculate_score])
    the audit log and the notification table only grow: the entries that were
    there are still there afterwards, unchanged and in the same order,
    followed by the entries the call added.  Among these calls only the
    hourly severity pass adds notifications, and it adds no audit entry. *)
Theorem perform_appends_logs db op :
  (exists entries,
      audit_log (perform generate_cuid db op)
      = (audit_log db ++ entries)%list)
  /\ (exists alerts,
        notifications (perform generate_cuid db op)
        = (notifications db ++ alerts)%list
        /\ match op with
           | OpSeverityCron _ =>
               audit_log (perform generate_cuid db op) = audit_log db
           | _ => alerts = []
           end).
Proof.
  destruct op; cbn [perform].
  - destruct (serve_appends_audit db req) as [Ha Hn]. split; [exact Ha|].
    exists []. rewrite app_nil_r. auto.
  - destruct (process_trigger _ _ _ _ _ _) as [[db' created]|e] eqn:H;
      cbn [committed].
    + apply process_trigger_frame in H
        as (_ & (audits & Ha & _) & Hn & _).
      split; [exists audits; exact Ha|]. exists []. rewrite app_nil_r. auto.
    + split; [appended_nothing|]. exists []. rewrite app_nil_r. auto.
  - destruct (create_deadline _ _ _ _ _ _ _ _ _ _) as [[db' made]|e] eqn:H;
      cbn [committed].
    + apply create_deadline_result in H. destruct made as [deadline|].
      * destruct H as (_ & (audit & Ha & _) & Hn & _).
        split; [exists [audit]; exact Ha|]. exists []. rewrite app_nil_r. auto.
      * subst db'. split; [appended_nothing|]. exists [].
        rewrite app_nil_r. auto.
    + split; [appended_nothing|]. exists []. rewrite app_nil_r. auto.
  - destruct (update_deadline_status _ _ _ _ _ _ _) as [[db' r]|e] eqn:H;
      cbn [committed].
    + unfold update_deadline_status, get_deadline_by_id in H.
      repeat break_service H.
      all: inversion H; subst; clear H; split; [appended_log|];
        exists []; rewrite app_nil_r; auto.
    + split; [appended_nothing|]. exists []. rewrite app_nil_r. auto.
  - destruct (waive_deadline _ _ _ _ _ _) as [[db' r]|e] eqn:H;
      cbn [committed].
    + unfold waive_deadline, get_deadline_by_id in H.
      repeat break_service H.
      all: inversion H; subst; clear H; split; [appended_log|];
        exists []; rewrite app_nil_r; auto.
    + split; [appended_nothing|]. exists []. rewrite app_nil_r. auto.
  - unfold recalculate_severities. cbn [fst].
    split; [appended_log|]. exists []. rewrite app_nil_r. auto.
  - destruct (run_severity_cron_counts now db) as (_ & _ & new & Hn & _).
    destruct (cron_fold_frame now (cron_projects db)
                (db, {| updated := 0; expired_total := 0; alertsSent := 0 |}))
      as (Ha & _).
    fold (_run_severity_cron now db) in Ha. cbn [fst] in Ha.
    split; [exists []; rewrite app_nil_r; exact Ha|].
    exists new. auto.
  - unfold calculate_score.
    destruct (latest_score project_id (scores db) 0) as [[i r]|];
      cbn [fst]; (split; [appended_log|]); exists []; rewrite app_nil_r; auto.
Qed.

End EngineLogs.

(** * Notice engine: sent once, confirmed once *)

Lemma notice_table_step_keeps_acknowledged rows rows' n :
  notice_table_step rows rows' -> In n rows ->
  ComplianceNotice.status n = ACKNOWLEDGED -> In n rows'.
Proof.
  intros Hstep Hin Hack.
  assert (Hed : editable n = false) by (unfold editable; rewrite Hack; reflexivity).
  destruct Hstep as [|d Hd|p g m Hf Hedm Hid Hpid
                    |p g m Hf Hst Hst' Hid Hpid Hsa Hot|p m Hf Hedm].
  - exact Hin.
  - apply in_or_app. left. exact Hin.
  - destruct (p n) eqn:Hp.
    + pose proof (filter_singleton_eq p rows m n Hf Hin Hp). subst n.
      rewrite Hedm in Hed. discriminate Hed.
    + apply In_update_where_other; assumption.
  - destruct (p n) eqn:Hp.
    + pose proof (filter_singleton_eq p rows m n Hf Hin Hp). subst n.
      rewrite Hst in Hack. discriminate Hack.
    + apply In_update_where_other; assumption.
  - destruct (p n) eqn:Hp.
    + pose proof (filter_singleton_eq p rows m n Hf Hin Hp). subst n.
      rewrite Hedm in Hed. discriminate Hed.
    + apply filter_In. rewrite Hp. auto.
Qed.

Section Histories.

Variable generate_cuid : nat -> string.

(** Every operation is a step of the notice table; only the notice requests
    touch it. *)
Lemma perform_step db op :
  notice_table_step (notices db) (notices (perform generate_cuid db op)).
Proof.
  destruct op; cbn [perform].
  - apply serve_step.
  - destruct (process_trigger _ _ _ _ _ _) as [[db' created]|e] eqn:H;
      cbn [committed]; [|constructor].
    apply process_trigger_frame in H as (_ & _ & _ & -> & _). constructor.
  - destruct (create_deadline _ _ _ _ _ _ _ _ _ _) as [[db' made]|e] eqn:H;
      cbn [committed]; [|constructor].
    apply create_deadline_result in H. destruct made as [deadline|].
    + destruct H as (_ & _ & _ & -> & _). constructor.
    + subst db'. constructor.
  - destruct (update_deadline_status _ _ _ _ _ _ _) as [[db' r]|e] eqn:H;
      cbn [committed]; [|constructor].
    unfold update_deadline_status, get_deadline_by_id in H.
    repeat break_service H.
    all: inversion H; subst; clear H; constructor.
  - destruct (waive_deadline _ _ _ _ _ _) as [[db' r]|e] eqn:H;
      cbn [committed]; [|constructor].
    unfold waive_deadline, get_deadline_by_id in H.
    repeat break_service H.
    all: inversion H; subst; clear H; constructor.
  - unfold recalculate_severities. cbn [fst]. constructor.
  - destruct (cron_fold_frame now (cron_projects db)
                (db, {| updated := 0; expired_total := 0; alertsSent := 0 |}))
      as (_ & Hn & _).
    fold (_run_severity_cron now db) in Hn. cbn [fst] in Hn.
    rewrite Hn. constructor.
  - rewrite calculate_score_notices. constructor.
Qed.

Lemma follows_keeps_sent db db' n :
  follows generate_cuid db db' -> In n (notices db) -> is_sent n = true ->
  exists n',
    In n' (notices db')
    /\ ComplianceNotice.id n' = ComplianceNotice.id n
    /\ ComplianceNotice.project_id n' = ComplianceNotice.project_id n
    /\ ComplianceNotice.sent_at n' = ComplianceNotice.sent_at n
    /\ ComplianceNotice.on_time_status n' = ComplianceNotice.on_time_status n
    /\ is_sent n' = true.
Proof.
  intros Hf Hin Hsent. induction Hf as [|db' op _ IH].
  - exists n. auto 10.
  - destruct IH as (m & Hm & Hid & Hpid & Hsa & Hot & Hs).
    destruct (notice_table_step_keeps_sent _ _ m (perform_step db' op) Hm Hs)
      as (m' & Hm' & Hid' & Hpid' & Hsa' & Hot' & Hs').
    exists m'. rewrite Hid', Hpid', Hsa', Hot'. auto 10.
Qed.

Lemma follows_keeps_acknowledged db db' n :
  follows generate_cuid db db' -> In n (notices db) ->
  ComplianceNotice.status n = ACKNOWLEDGED -> In n (notices db').
Proof.
  intros Hf Hin Hack. induction Hf as [|db' op _ IH]; [exact Hin|].
  exact (notice_table_step_keeps_acknowledged _ _ n (perform_step db' op) IH
           Hack).
Qed.

End Histories.

Lemma sent_not_editable n : is_sent n = true -> editable n = false.
Proof.
  unfold is_sent, editable.
  destruct (ComplianceNotice.status n); intros H;
    first [reflexivity | discriminate H].
Qed.

Lemma send_notice_on_sent now sent db notice_id project_id user_id n :
  In n (notices db) -> ComplianceNotice.id n = notice_id ->
  ComplianceNotice.project_id n = project_id -> is_sent n = true ->
  (List.filter (notice_by_id_and_project notice_id project_id) (notices db)
   = [n]
   /\ send_notice now sent db notice_id project_id user_id
      = Raise (ValueError
                 ("Cannot send notice in "
                  +:+ ComplianceNoticeStatus_value (ComplianceNotice.status n)
                  +:+ " status")))
  \/ ((1 < length (List.filter (notice_by_id_and_project notice_id project_id)
                     (notices db)))%nat
      /\ send_notice now sent db notice_id project_id user_id
         = Raise MultipleResultsFound).
Proof.
  intros Hin Hid Hpid Hsent.
  assert (Hp : notice_by_id_and_project notice_id project_id n = true).
  { unfold notice_by_id_and_project.
    rewrite !bool_decide_eq_true_2 by assumption. reflexivity. }
  unfold send_notice, get_notice_by_id.
  destruct (List.filter _ (notices db)) as [|m [|m2 rest]] eqn:Hf;
    cbn [scalar_one_or_none bind].
  - exfalso. assert (In n []) as []. rewrite <- Hf. apply filter_In. auto.
  - pose proof (filter_singleton_eq _ _ m n Hf Hin Hp). subst m.
    left. split; [reflexivity|].
    rewrite (sent_not_editable n Hsent). reflexivity.
  - right. split; [cbn [length]; lia|reflexivity].
Qed.

Lemma confirm_delivery_on_acknowledged now db notice_id project_id user_id
    method tracking_number carrier delivered_at signed_by received_by n :
  In n (notices db) -> ComplianceNotice.id n = notice_id ->
  ComplianceNotice.project_id n = project_id ->
  ComplianceNotice.status n = ACKNOWLEDGED ->
  (List.filter (notice_by_id_and_project notice_id project_id) (notices db)
   = [n]
   /\ confirm_delivery now db notice_id project_id user_id method
        tracking_number carrier delivered_at signed_by received_by
      = Raise (ValueError
                 "Cannot confirm delivery for notice in ACKNOWLEDGED status"))
  \/ ((1 < length (List.filter (notice_by_id_and_project notice_id project_id)
                     (notices db)))%nat
      /\ confirm_delivery now db notice_id project_id user_id method
           tracking_number carrier delivered_at signed_by received_by
         = Raise MultipleResultsFound).
Proof.
  intros Hin Hid Hpid Hack.
  assert (Hp : notice_by_id_and_project notice_id project_id n = true).
  { unfold notice_by_id_and_project.
    rewrite !bool_decide_eq_true_2 by assumption. reflexivity. }
  unfold confirm_delivery, get_notice_by_id.
  destruct (List.filter _ (notices db)) as [|m [|m2 rest]] eqn:Hf;
    cbn [scalar_one_or_none bind].
  - exfalso. assert (In n []) as []. rewrite <- Hf. apply filter_In. auto.
  - pose proof (filter_singleton_eq _ _ m n Hf Hin Hp). subst m.
    left. split; [reflexivity|]. rewrite Hack. reflexivity.
  - right. split; [cbn [length]; lia|reflexivity].
Qed.

Lemma send_notice_sent_row now sent db notice_id project_id user_id db'
    notice :
  send_notice now sent db notice_id project_id user_id = Ok (db', Some notice) ->
  In notice (notices db')
  /\ ComplianceNotice.id notice = notice_id
  /\ ComplianceNotice.project_id notice = project_id
  /\ ComplianceNotice.status notice = SENT
  /\ ComplianceNotice.sent_at notice = Some now.
Proof.
  intros H. unfold send_notice, get_notice_by_id in H.
  cbn [deadlines with_notices] in H.
  repeat break_service H.
  all: inversion H; subst; clear H.
  all: match goal with
       | Hfound : scalar_one_or_none
                    (List.filter (notice_by_id_and_project _ _) _)
                  = Ok (Some ?n) |- _ =>
           apply scalar_one_or_none_Some in Hfound;
           destruct (filter_singleton_In _ _ _ Hfound) as [Hin Hp];
           pose proof Hp as Hp';
           apply notice_by_id_and_project_true in Hp' as [Hid Hpid]
       end.
  all: cbn [notices add_audit with_audit_log with_deadlines with_notices].
  all: split;
    [match goal with
     | Hin : In ?n ?rows |- In _ (update_where ?p ?g ?rows) =>
         exact (In_update_where_found p g rows n Hin Hp)
     end|].
  all: auto.
Qed.

Lemma confirm_delivery_acknowledged_row now db notice_id project_id user_id
    method tracking_number carrier delivered_at signed_by received_by db'
    notice :
  confirm_delivery now db notice_id project_id user_id method tracking_number
    carrier delivered_at signed_by received_by = Ok (db', Some notice) ->
  In notice (notices db')
  /\ ComplianceNotice.id notice = notice_id
  /\ ComplianceNotice.project_id notice = project_id
  /\ ComplianceNotice.status notice = ACKNOWLEDGED.
Proof.
  intros H. unfold confirm_delivery, get_notice_by_id in H.
  repeat break_service H.
  all: inversion H; subst; clear H.
  all: match goal with
       | Hfound : scalar_one_or_none
                    (List.filter (notice_by_id_and_project _ _) _)
                  = Ok (Some ?n) |- _ =>
           apply scalar_one_or_none_Some in Hfound;
           destruct (filter_singleton_In _ _ _ Hfound) as [Hin Hp];
           pose proof Hp as Hp';
           apply notice_by_id_and_project_true in Hp' as [Hid Hpid]
       end.
  all: cbn [notices add_audit with_audit_log with_deadlines with_notices].
  all: split;
    [match goal with
     | |- In _ (update_where ?p ?g ?rows) =>
         match goal with
         | Hin : In ?n rows |- _ =>
             let H := fresh in
             pose proof (In_update_where_found p g rows n Hin Hp) as H;
             cbn beta zeta in H;
             cbn [ComplianceNotice.delivery_methods ComplianceNotice.set_status
                    ComplianceNotice.set_delivered_at
                    ComplianceNotice.set_delivery_confirmation] in H;
             match goal with
             | Hm : negb (member _ _) = _ |- _ =>
                 cbn [ComplianceNotice.delivery_methods
                        ComplianceNotice.set_status
                        ComplianceNotice.set_delivered_at
                        ComplianceNotice.set_delivery_confirmation] in Hm;
                 rewrite Hm in H
             end;
             exact H
         end
     end|].
  all: auto.
Qed.

Section OnceOnly.

Variable generate_cuid : nat -> string.

(** A notice is sent at most once.  A successful [send_notice] returns the
    notice SENT with [sentAt] = the time of the call, and a further send
    right after it raises "Cannot send notice in SENT status".  Whatever
    calls follow (notice requests, triggers, deadline services, severity
    passes, score calculations), the notice is still in the table with the
    same [sentAt] and [onTimeStatus], SENT or ACKNOWLEDGED, and every later
    [send_notice] of it raises: "Cannot send notice in SENT status" or
    "Cannot send notice in ACKNOWLEDGED status", by the status it has then,
    when it is the only notice of the project with its id, and
    [MultipleResultsFound] when there are several. *)
Theorem send_notice_only_once now sent db notice_id project_id user_id db'
    notice :
  send_notice now sent db notice_id project_id user_id = Ok (db', Some notice) ->
  ComplianceNotice.status notice = SENT
  /\ ComplianceNotice.sent_at notice = Some now
  /\ (forall now' sent' user_id',
        send_notice now' sent' db' notice_id project_id user_id'
        = Raise (ValueError "Cannot send notice in SENT status"))
  /\ (forall db'',
        follows generate_cuid db' db'' ->
        exists later,
          In later (notices db'')
          /\ ComplianceNotice.id later = notice_id
          /\ ComplianceNotice.project_id later = project_id
          /\ ComplianceNotice.sent_at later = Some now
          /\ ComplianceNotice.on_time_status later
             = ComplianceNotice.on_time_status notice
          /\ forall now' sent' user_id',
               (ComplianceNotice.status later = SENT
                /\ List.filter (notice_by_id_and_project notice_id project_id)
                     (notices db'') = [later]
                /\ send_notice now' sent' db'' notice_id project_id user_id'
                   = Raise (ValueError "Cannot send notice in SENT status"))
               \/ (ComplianceNotice.status later = ACKNOWLEDGED
                   /\ List.filter
                        (notice_by_id_and_project notice_id project_id)
                        (notices db'') = [later]
                   /\ send_notice now' sent' db'' notice_id project_id user_id'
                      = Raise (ValueError
                                 "Cannot send notice in ACKNOWLEDGED status"))
               \/ ((1 < length
                          (List.filter
                             (notice_by_id_and_project notice_id project_id)
                             (notices db'')))%nat
                   /\ send_notice now' sent' db'' notice_id project_id user_id'
                      = Raise MultipleResultsFound)).
Proof.
  intros H.
  destruct (send_notice_sent_row _ _ _ _ _ _ _ _ H)
    as (Hin & Hid & Hpid & Hst & Hat).
  split; [exact Hst|]. split; [exact Hat|]. split.
  - intros now' sent' user_id'.
    apply (send_notice_then_refused now sent db notice_id project_id user_id
             db' notice now' sent' user_id' H).
  - intros db'' Hf.
    assert (Hsent : is_sent notice = true)
      by (unfold is_sent; rewrite Hst; reflexivity).
    destruct (follows_keeps_sent generate_cuid db' db'' notice Hf Hin
                Hsent) as (n & Hn & Hnid & Hnpid & Hnsa & Hnot & Hns).
    exists n. rewrite Hnid, Hnpid, Hnsa, Hnot, Hid, Hpid, Hat.
    repeat (split; [first [assumption | reflexivity]|]).
    intros now' sent' user_id'.
    destruct (send_notice_on_sent now' sent' db'' notice_id project_id
                user_id' n Hn ltac:(congruence) ltac:(congruence) Hns)
      as [[Hu Hr]|[Hm Hr]]; [|right; right; auto].
    unfold is_sent in Hns.
    destruct (ComplianceNotice.status n) eqn:Hs; try discriminate Hns.
    + left. auto.
    + right. left. auto.
Qed.

(** Delivery is confirmed at most once.  [confirm_delivery] succeeds only on
    a SENT notice and returns it ACKNOWLEDGED, with [sentAt] and
    [onTimeStatus] as they were, and a further confirmation right after it is
    refused, also one for another delivery method.  Whatever calls follow,
    the acknowledged notice stays in the table exactly as it is, and every
    later [confirm_delivery] of it raises "Cannot confirm delivery for notice
    in ACKNOWLEDGED status" when it is the only notice of the project with
    its id, and [MultipleResultsFound] when there are several. *)
Theorem confirm_delivery_only_once now db notice_id project_id user_id
    method tracking_number carrier delivered_at signed_by received_by db'
    notice :
  confirm_delivery now db notice_id project_id user_id method tracking_number
    carrier delivered_at signed_by received_by = Ok (db', Some notice) ->
  ComplianceNotice.status notice = ACKNOWLEDGED
  /\ ComplianceNotice.delivered_at notice = Some (default now delivered_at)
  /\ In method (ComplianceNotice.delivery_methods notice)
  /\ (exists sent_notice,
        In sent_notice (notices db)
        /\ ComplianceNotice.status sent_notice = SENT
        /\ ComplianceNotice.sent_at notice = ComplianceNotice.sent_at sent_notice
        /\ ComplianceNotice.on_time_status notice
           = ComplianceNotice.on_time_status sent_notice)
  /\ (forall now' user_id' method' tracking_number' carrier' delivered_at'
             signed_by' received_by',
        confirm_delivery now' db' notice_id project_id user_id' method'
          tracking_number' carrier' delivered_at' signed_by' received_by'
        = Raise (ValueError
                   "Cannot confirm delivery for notice in ACKNOWLEDGED status"))
  /\ (forall db'',
        follows generate_cuid db' db'' ->
        In notice (notices db'')
        /\ forall now' user_id' method' tracking_number' carrier' delivered_at'
                  signed_by' received_by',
             (List.filter (notice_by_id_and_project notice_id project_id)
                (notices db'') = [notice]
              /\ confirm_delivery now' db'' notice_id project_id user_id'
                   method' tracking_number' carrier' delivered_at' signed_by'
                   received_by'
                 = Raise (ValueError
                            "Cannot confirm delivery for notice in ACKNOWLEDGED status"))
             \/ ((1 < length
                        (List.filter
                           (notice_by_id_and_project notice_id project_id)
                           (notices db'')))%nat
                 /\ confirm_delivery now' db'' notice_id project_id user_id'
                      method' tracking_number' carrier' delivered_at'
                      signed_by' received_by'
                    = Raise MultipleResultsFound)).
Proof.
  intros H.
  destruct (confirm_delivery_acknowledged_row _ _ _ _ _ _ _ _ _ _ _ _ _ H)
    as (Hin & Hid & Hpid & Hst).
  pose proof (fun now' user_id' method' tracking_number' carrier'
                  delivered_at' signed_by' received_by' =>
                confirm_delivery_then_refused now db notice_id project_id
                  user_id method tracking_number carrier delivered_at
                  signed_by received_by db' notice now' user_id' method'
                  tracking_number' carrier' delivered_at' signed_by'
                  received_by' H) as Hold.
  destruct (Hold now user_id method tracking_number carrier delivered_at
              signed_by received_by) as (H1 & H2 & H3 & H4 & _).
  split; [exact H1|]. split; [exact H2|]. split; [exact H3|].
  split; [exact H4|]. split.
  - intros now' user_id' method' tracking_number' carrier' delivered_at'
      signed_by' received_by'.
    apply (Hold now' user_id' method' tracking_number' carrier' delivered_at'
             signed_by' received_by').
  - intros db'' Hf.
    pose proof (follows_keeps_acknowledged generate_cuid db' db'' notice Hf Hin
                  Hst) as Hn.
    split; [exact Hn|]. intros.
    apply (confirm_delivery_on_acknowledged _ db'' notice_id project_id _ _ _
             _ _ _ _ notice Hn Hid Hpid Hst).
Qed.

End OnceOnly.


(** * Instances *)

Lemma add_business_days_nth_business_day_witness :
  0 < 3
  /\ let e := add_business_days (mkdate 2025 7 1) 3 {[ mkdate 2025 7 4 ]} in
     mkdate 2025 7 1 < e
     /\ is_business_day e {[ mkdate 2025 7 4 ]} = true
     /\ count_business_days_between (mkdate 2025 7 1) e {[ mkdate 2025 7 4 ]}
        = 3
     /\ forall d, mkdate 2025 7 1 <= d < e ->
                  count_business_days_between (mkdate 2025 7 1) d
                    {[ mkdate 2025 7 4 ]} < 3.
Proof.
  split; [lia|].
  apply (add_business_days_nth_business_day {[ mkdate 2025 7 4 ]}
           (mkdate 2025 7 1) 3).
  lia.
Defined.

Lemma add_business_days_compose_witness :
  0 <= 2 /\ 0 <= 3
  /\ add_business_days
       (add_business_days (mkdate 2025 7 1) 2 {[ mkdate 2025 7 4 ]}) 3
       {[ mkdate 2025 7 4 ]}
     = add_business_days (mkdate 2025 7 1) (2 + 3) {[ mkdate 2025 7 4 ]}.
Proof.
  split; [lia|]. split; [lia|].
  apply (add_business_days_compose {[ mkdate 2025 7 4 ]} (mkdate 2025 7 1) 2 3);
    lia.
Defined.

Lemma add_business_days_of_count_witness :
  mkdate 2025 7 1 < mkdate 2025 7 8
  /\ is_business_day (mkdate 2025 7 8) {[ mkdate 2025 7 4 ]} = true
  /\ add_business_days (mkdate 2025 7 1)
       (count_business_days_between (mkdate 2025 7 1) (mkdate 2025 7 8)
          {[ mkdate 2025 7 4 ]})
       {[ mkdate 2025 7 4 ]}
     = mkdate 2025 7 8.
Proof.
  assert (H1 : mkdate 2025 7 1 < mkdate 2025 7 8) by (vm_compute; reflexivity).
  assert (H2 : is_business_day (mkdate 2025 7 8) {[ mkdate 2025 7 4 ]} = true)
    by (vm_compute; reflexivity).
  split; [exact H1|]. split; [exact H2|].
  apply (add_business_days_of_count {[ mkdate 2025 7 4 ]} (mkdate 2025 7 1)
           (mkdate 2025 7 8) H1 H2).
Defined.

Lemma add_business_days_more_holidays_witness :
  add_business_days (mkdate 2025 7 1) 3 ∅
  <= add_business_days (mkdate 2025 7 1) 3 {[ mkdate 2025 7 4 ]}.
Proof.
  apply (add_business_days_more_holidays ∅ {[ mkdate 2025 7 4 ]}
           (mkdate 2025 7 1) 3).
  set_solver.
Defined.

Lemma count_business_days_between_additive_witness :
  mkdate 2025 7 1 <= mkdate 2025 7 4 <= mkdate 2025 7 10
  /\ count_business_days_between (mkdate 2025 7 1) (mkdate 2025 7 10)
       {[ mkdate 2025 7 4 ]}
     = count_business_days_between (mkdate 2025 7 1) (mkdate 2025 7 4)
         {[ mkdate 2025 7 4 ]}
       + count_business_days_between (mkdate 2025 7 4) (mkdate 2025 7 10)
           {[ mkdate 2025 7 4 ]}.
Proof.
  assert (H : mkdate 2025 7 1 <= mkdate 2025 7 4 <= mkdate 2025 7 10)
    by (vm_compute; split; discriminate).
  split; [exact H|].
  apply (count_business_days_between_additive {[ mkdate 2025 7 4 ]} _ _ _ H).
Defined.

Lemma classify_severity_never_relaxes_witness :
  mkdatetime 2025 3 12 9 0 0 <= mkdatetime 2025 3 18 9 0 0
  /\ severity_escalated
       (classify_severity (mkdatetime 2025 3 20 23 59 59)
          (mkdatetime 2025 3 18 9 0 0) (Some ACTIVE))
       (classify_severity (mkdatetime 2025 3 20 23 59 59)
          (mkdatetime 2025 3 12 9 0 0) (Some ACTIVE))
     = false.
Proof.
  assert (H : mkdatetime 2025 3 12 9 0 0 <= mkdatetime 2025 3 18 9 0 0)
    by (vm_compute; discriminate).
  split; [exact H|].
  apply (classify_severity_never_relaxes _ _ _ (Some ACTIVE) H).
Defined.

Lemma calculate_deadline_after_trigger_witness :
  0 < 5
  /\ let calc :=
       calculate_deadline [] (mkdatetime 2025 3 10 12 0 0) "P"
         (mkdatetime 2025 3 10 12 0 0) 5 BUSINESS_DAYS None None in
     mkdatetime 2025 3 10 12 0 0 < calculatedDeadline calc
     /\ (mkdatetime 2025 3 10 12 0 0 <= mkdatetime 2025 3 10 12 0 0 ->
         severity calc <> SevEXPIRED).
Proof.
  split; [lia|].
  apply (calculate_deadline_after_trigger [] (mkdatetime 2025 3 10 12 0 0) "P"
           (mkdatetime 2025 3 10 12 0 0) 5 BUSINESS_DAYS None None).
  lia.
Defined.

Lemma calculate_deadline_cure_after_deadline_witness :
  0 < 2
  /\ let calc :=
       calculate_deadline [] (mkdatetime 2025 3 10 12 0 0) "P"
         (mkdatetime 2025 3 10 12 0 0) 5 CALENDAR_DAYS (Some 2) (Some HOURS) in
     exists cure, cureDeadline calc = Some cure
                  /\ calculatedDeadline calc < cure.
Proof.
  split; [lia|].
  apply (calculate_deadline_cure_after_deadline [] (mkdatetime 2025 3 10 12 0 0)
           "P" (mkdatetime 2025 3 10 12 0 0) 5 CALENDAR_DAYS 2 HOURS).
  lia.
Defined.

Lemma calculate_deadline_business_cure_witness :
  0 < 5 /\ 0 < 2
  /\ cureDeadline
       (calculate_deadline [] (mkdatetime 2025 3 10 12 0 0) "P"
          (mkdatetime 2025 3 10 12 0 0) 5 BUSINESS_DAYS (Some 2)
          (Some BUSINESS_DAYS))
     = Some (end_of_day
               (add_business_days (datetime_date (mkdatetime 2025 3 10 12 0 0))
                  (5 + 2)
                  (get_all_holidays [] "P"
                     (datetime_date (mkdatetime 2025 3 10 12 0 0))))).
Proof.
  split; [lia|]. split; [lia|].
  apply (calculate_deadline_business_cure [] (mkdatetime 2025 3 10 12 0 0) "P"
           (mkdatetime 2025 3 10 12 0 0) 5 2); lia.
Defined.

Lemma sent_notice_is_permanent_witness :
  exists n',
    In n' (notices (serve sample_cuid sent_db (DeleteNotice "cuid2" "P" "u1")))
    /\ ComplianceNotice.id n' = ComplianceNotice.id sent_notice
    /\ ComplianceNotice.project_id n' = ComplianceNotice.project_id sent_notice
    /\ ComplianceNotice.sent_at n' = ComplianceNotice.sent_at sent_notice
    /\ ComplianceNotice.on_time_status n'
       = ComplianceNotice.on_time_status sent_notice
    /\ is_sent n' = true.
Proof.
  apply (sent_notice_is_permanent sample_cuid sent_db
           (DeleteNotice "cuid2" "P" "u1") sent_notice).
  - vm_compute. auto.
  - reflexivity.
Defined.

Lemma score_chain_always_witness :
  let db := fst (calculate_score (mkdatetime 2025 3 22 2 0 0) delivered_db "P") in
  Forall score_chain (scores db)
  /\ score_chain (snd (calculate_score (mkdatetime 2025 3 23 2 0 0) db "P")).
Proof.
  apply (score_chain_always sample_cuid).
  apply operated_score. unfold delivered_db. apply operated_serve.
  unfold sent_db. apply operated_serve.
  exact (operated_serve sample_cuid flagged_once_db
           (CreateNotice (mkdatetime 2025 3 18 10 0 0) "P" "CLAIM_NOTICE"
              "Notice of claim" "Notice of claim" "u1" (Some "clause-1")
              (Some (mkdatetime 2025 3 20 23 59 59)) (Some "GC")
              (Some "gc@example.com") (Some "cuid0"))
           (operated_start sample_cuid flagged_once_db eq_refl)).
Defined.

Lemma send_notice_only_once_witness :
  send_notice (mkdatetime 2025 3 22 9 0 0) true delivered_db "cuid2" "P" "u2"
  = Raise (ValueError "Cannot send notice in ACKNOWLEDGED status").
Proof.
  assert (Hs : send_notice (mkdatetime 2025 3 19 10 0 0) true
                 (draft_for_deadline (Some "clause-1")) "cuid2" "P" "u1"
               = Ok (sent_db, Some sent_notice))
    by (vm_compute; reflexivity).
  destruct (proj2 (proj2 (proj2
              (send_notice_only_once sample_cuid _ _ _ _ _ _ _ _ Hs)))
              delivered_db
              (follows_step sample_cuid sent_db sent_db
                 (OpNotice
                    (ConfirmDelivery (mkdatetime 2025 3 21 9 0 0) "cuid2" "P"
                       "u1" "CERTIFIED_MAIL" (Some "TRK-1") (Some "USPS") None
                       (Some "GC") None))
                 (follows_now sample_cuid sent_db)))
    as (later & _ & _ & _ & _ & _ & Hcases).
  destruct (Hcases (mkdatetime 2025 3 22 9 0 0) true "u2")
    as [(Hst & Hf & _)|[(_ & _ & Hr)|(Hlen & _)]].
  - vm_compute in Hf. inversion Hf; subst later. discriminate Hst.
  - exact Hr.
  - vm_compute in Hlen. lia.
Defined.

Lemma confirm_delivery_only_once_witness :
  confirm_delivery (mkdatetime 2025 3 22 9 0 0)
    (serve sample_cuid delivered_db
       (SendNotice (mkdatetime 2025 3 21 15 0 0) true "cuid2" "P" "u2"))
    "cuid2" "P" "u1" "EMAIL" None None None None None
  = Raise (ValueError
             "Cannot confirm delivery for notice in ACKNOWLEDGED status").
Proof.
  assert (exists n',
             confirm_delivery (mkdatetime 2025 3 21 9 0 0) sent_db "cuid2" "P"
               "u1" "CERTIFIED_MAIL" (Some "TRK-1") (Some "USPS") None
               (Some "GC") None
             = Ok (delivered_db, Some n')) as (n' & Hs)
    by (eexists; vm_compute; reflexivity).
  destruct (proj2 (proj2 (proj2 (proj2 (proj2
              (confirm_delivery_only_once sample_cuid _ _ _ _ _ _ _ _ _ _ _
                 _ _ Hs)))))
              (serve sample_cuid delivered_db
                 (SendNotice (mkdatetime 2025 3 21 15 0 0) true "cuid2" "P"
                    "u2"))
              (follows_step sample_cuid delivered_db delivered_db
                 (OpNotice
                    (SendNotice (mkdatetime 2025 3 21 15 0 0) true "cuid2" "P"
                       "u2"))
                 (follows_now sample_cuid delivered_db)))
    as (_ & Hcases).
  destruct (Hcases (mkdatetime 2025 3 22 9 0 0) "u1" "EMAIL" None None None
              None None) as [(_ & Hr)|(Hlen & _)].
  - exact Hr.
  - vm_compute in Hlen. lia.
Defined.

Lemma process_trigger_appends_witness :
  let r := process_trigger sample_cuid (mkdatetime 2025 3 10 12 0 0)
             two_clause_db "P" rfi_1 (Some "u1") in
  let db' := committed two_clause_db r in
  let created := returned [] r in
  deadlines db' = (deadlines two_clause_db ++ created)%list
  /\ (exists audits,
        audit_log db' = (audit_log two_clause_db ++ audits)%list
        /\ map ComplianceAuditLog.entity_id audits
           = map ComplianceDeadline.id created
        /\ Forall (fun a => ComplianceAuditLog.event_type a
                            = "DEADLINE_CREATED") audits)
  /\ notifications db' = notifications two_clause_db
  /\ notices db' = notices two_clause_db
  /\ clauses db' = clauses two_clause_db
  /\ scores db' = scores two_clause_db
  /\ (length created
      <= length (List.filter
                   (fun c => bool_decide (ContractClause.project_id c = "P"))
                   (clauses two_clause_db)))%nat
  /\ Forall
       (fun d =>
          ComplianceDeadline.project_id d = "P"
          /\ ComplianceDeadline.trigger_event_id d = Some (event_id_of rfi_1)
          /\ ComplianceDeadline.trigger_event_type d = event_type_of rfi_1
          /\ ComplianceDeadline.triggered_at d = mkdatetime 2025 3 10 12 0 0
          /\ ComplianceDeadline.status d = ACTIVE
          /\ ComplianceDeadline.notice_id d = None)
       created
  /\ NoDup (map ComplianceDeadline.clause_id created)
  /\ Forall
       (fun d => exists clause,
            In clause (clauses two_clause_db)
            /\ ContractClause.project_id clause = "P"
            /\ ComplianceDeadline.clause_id d = ContractClause.id clause)
       created.
Proof.
  assert (exists db' created,
             process_trigger sample_cuid (mkdatetime 2025 3 10 12 0 0)
               two_clause_db "P" rfi_1 (Some "u1")
             = Ok (db', created)) as (db' & created & Hs)
    by (eexists _, _; vm_compute; reflexivity).
  cbv zeta. rewrite Hs. cbn [committed returned].
  apply (process_trigger_appends sample_cuid _ _ _ _ _ _ _ Hs).
Defined.

Lemma process_trigger_twice_witness :
  process_trigger sample_cuid (mkdatetime 2025 3 11 8 30 0) flagged_once_db
    "P" rfi_1 (Some "u2")
  = Ok (flagged_once_db, []).
Proof.
  assert (exists db' created,
             process_trigger sample_cuid (mkdatetime 2025 3 10 12 0 0)
               two_clause_db "P" rfi_1 (Some "u1")
             = Ok (db', created)) as (db' & created & Hs)
    by (eexists _, _; vm_compute; reflexivity).
  unfold flagged_once_db. rewrite Hs. cbn [committed].
  apply (process_trigger_twice sample_cuid _ _ _ _ _ _ _ _ _ Hs).
Defined.

Lemma delete_notice_effects_witness :
  let db := draft_for_deadline (Some "clause-1") in
  let db' := committed db (delete_notice db "cuid2" "P" "u1") in
  (exists n, List.filter (notice_by_id_and_project "cuid2" "P") (notices db)
             = [n]
             /\ editable n = true)
  /\ notices db'
     = List.filter (fun n => negb (notice_by_id_and_project "cuid2" "P" n))
         (notices db)
  /\ length (audit_log db') = S (length (audit_log db))
  /\ Forall2
       (fun d d' =>
          if linked_to "cuid2" "P" d then
            d' = ComplianceDeadline.set_status ACTIVE
                   (ComplianceDeadline.set_notice None None d)
          else d' = d)
       (deadlines db) (deadlines db').
Proof.
  assert (exists db',
             delete_notice (draft_for_deadline (Some "clause-1")) "cuid2" "P"
               "u1" = Ok (db', true)) as (db' & Hs)
    by (eexists; vm_compute; reflexivity).
  cbv zeta. rewrite Hs. cbn [committed].
  apply (delete_notice_effects _ _ _ _ _ _ Hs).
Defined.

Lemma score_record_chain_witness :
  score_chain
    (snd (calculate_score (mkdatetime 2025 3 22 2 0 0)
            (fst (calculate_score (mkdatetime 2025 3 20 2 0 0) delivered_db
                    "P")) "P"))
  /\ Forall score_chain
       (scores
          (fst (calculate_score (mkdatetime 2025 3 22 2 0 0)
                  (fst (calculate_score (mkdatetime 2025 3 20 2 0 0)
                          delivered_db "P")) "P"))).
Proof.
  apply (score_record_chain (mkdatetime 2025 3 22 2 0 0)
           (fst (calculate_score (mkdatetime 2025 3 20 2 0 0) delivered_db
                   "P")) "P").
  apply scored_calculate. apply scored_start. reflexivity.
Defined.
